(** * Cadence admin DB scan commands: a shallow embedding

    This development models the two scan commands of
    [tools/cli/admin_db_scan_command.go]:

    - [AdminDBScan], the targeted scan over an explicit list of executions,
      together with its helper [checkExecution];
    - [AdminDBScanUnsupportedWorkflow], the shard-range scan, together with
      its helper [listExecutionsByShardID].

    Three collaborators live in other packages of the repository: the
    invariant manager ([invariant.NewInvariantManager]), the paging
    iterator ([collection.NewPagingIterator]) and the persistence retryer
    ([persistence.NewPersistenceRetryer]).  They are modelled from the
    specification text and every such definition says so.  The JSON
    decoder is the one of Go's [encoding/json], described by what its
    [Decode] returns call after call.

    Two further modules cover commands of the same package: [Failover]
    has the failover commands of [tools/cli/admin_failover_commands.go]
    ([validateStartParams], [failoverStart], [executePauseOrResume],
    [query], [AdminFailoverRollback] and the commands around them), and
    [AdminCommands] has [AdminDescribeShardDistribution] and
    [AdminDeleteWorkflow] of [tools/cli/admin_commands.go].  The frontend,
    the stores, the terminal and the decoders they talk to are given by
    what they answer, call after call. *)

From Stdlib Require Import List ZArith String Ascii Bool Arith Lia Permutation.
From Stdlib Require Import DecimalString DecimalZ DecimalPos.
From Stdlib Require Import Strings.Byte.
Import ListNotations.

Set Implicit Arguments.

(** ** Go values shared by both commands *)

Module Go.

(** Go's [error] values as the two commands can observe them.  The
    constructor [PrintableError] stands for the helper of the same name,
    which pairs a message with an optional underlying error. *)
#[warnings="-register-all"]
Inductive error : Type :=
| io_EOF
| io_ErrUnexpectedEOF
| SyntaxError (msg : string)
| UnmarshalTypeError (msg : string)
| BackendError (retryable : bool) (msg : string)
| PrintableError (msg : string) (cause : option error).

(** [(T, error)] results. *)
Definition result (A : Type) : Type := (error + A)%type.

(** [%v] applied to an [int]. *)
Definition show_int (z : Z) : string := NilZero.string_of_int (Z.to_int z).

(** The newline character of the format strings. *)
Definition nl : string := String (ascii_of_nat 10) EmptyString.

(** Go's [int] on the 64-bit platforms the tool is built for. *)
Definition int_min : Z := (- 2 ^ 63)%Z.

Definition int_max : Z := (2 ^ 63 - 1)%Z.

(** [i++] on an [int]: wraps around at [int_max]. *)
Definition incr (i : Z) : Z :=
  if (i =? int_max)%Z then int_min else (i + 1)%Z.

(** A [[]byte] page token.  Only [len(token)] distinguishes a present from
    an absent token, so [nil] and the empty slice are both [[]]. *)
Definition Token : Type := list byte.

End Go.
Import Go.

(** ** The invariant manager *)

Module Invariant.

(** One of {Healthy, Corrupted, Failed}. *)
Inductive CheckResultType : Type := Healthy | Corrupted | Failed.

Definition CheckResultType_eqb (a b : CheckResultType) : bool :=
  match a, b with
  | Healthy, Healthy | Corrupted, Corrupted | Failed, Failed => true
  | _, _ => false
  end.

(** The outcome of one invariant against one execution. *)
Record CheckResult : Type := {
  ResultType : CheckResultType;
  InvariantName : string;
  Info : string
}.

(** The aggregate over all invariants run against one execution. *)
Record ManagerCheckResult : Type := {
  OverallType : CheckResultType;
  CheckResults : list CheckResult
}.

Definition emptyManagerCheckResult : ManagerCheckResult :=
  {| OverallType := Healthy; CheckResults := [] |}.

(** Modelled from the spec: severity of a check result, the data model's
    "Failed > Corrupted > Healthy as severity". *)
Definition severity (t : CheckResultType) : nat :=
  match t with Healthy => 0 | Corrupted => 1 | Failed => 2 end.

(** Modelled from the spec: "taking the worst individual result". *)
Definition worst (a b : CheckResultType) : CheckResultType :=
  if severity a <? severity b then b else a.

Definition isType (t : CheckResultType) (r : CheckResult) : bool :=
  CheckResultType_eqb (ResultType r) t.

(** The aggregation law as the specification words it, on a list of
    individual results: Failed if any is Failed, else Corrupted if any is
    Corrupted, else Healthy. *)
Definition aggregationLaw (rs : list CheckResult) : CheckResultType :=
  if existsb (isType Failed) rs then Failed
  else if existsb (isType Corrupted) rs then Corrupted
  else Healthy.

Section Manager.

(** The execution snapshot is an [interface{}] for the manager. *)
Variable Entity : Type.

(** [Check(ctx, entity) CheckResult]: a predicate over the snapshot. *)
Definition Invariant : Type := Entity -> CheckResult.

(** Modelled from the spec: one turn of the manager's loop (the manager of
    [common/reconciliation/invariant] is not among the files): the invariant
    is run on the snapshot, its result is appended to the detail list and
    the overall status becomes the worst seen so far. *)
Definition runOne (e : Entity) (acc : ManagerCheckResult) (iv : Invariant)
  : ManagerCheckResult :=
  let r := iv e in
  {| OverallType := worst (OverallType acc) (ResultType r);
     CheckResults := CheckResults acc ++ [r] |}.

(** Modelled from the spec: [RunChecks] of the invariant manager, "runs
    every configured invariant against the same snapshot, in the
    caller-supplied order, collecting every individual check result". *)
Definition RunChecks (ivs : list Invariant) (e : Entity)
  : ManagerCheckResult :=
  fold_left (runOne e) ivs emptyManagerCheckResult.

End Manager.

End Invariant.
Import Invariant.

(** ** The paging iterator *)

Module Paging.

(** The condition [Next] fails with once the sequence is exhausted. *)
Definition ErrNoMoreItems : error :=
  PrintableError "no more items" None.

Section Iterator.

Variable A : Type.

(** [func(paginationToken []byte) ([]interface{}, []byte, error)] *)
Definition PaginationFn : Type := Token -> result (list A * Token).

(** Modelled from the spec: the state of the pagination engine
    ([common/collection] is not among the files).  It "buffers one page at
    a time": [pageItems] holds the items of that page not handed out yet,
    [pageToken] the token returned with it, and [pageErr] a fetch error
    that has not surfaced through [Next] yet. *)
Record PagingIterator : Type := {
  pageItems : list A;
  pageToken : Token;
  pageErr : option error
}.

(** Modelled from the spec: one refill.  The source function is invoked
    with the last returned token; a fetch error is recorded and leaves the
    rest of the state as it was ("without corrupting iterator state"). *)
Definition getNextPage (fn : PaginationFn) (it : PagingIterator)
  : PagingIterator :=
  match fn (pageToken it) with
  | inr (items, token) =>
      {| pageItems := items; pageToken := token; pageErr := None |}
  | inl err =>
      {| pageItems := pageItems it; pageToken := pageToken it;
         pageErr := Some err |}
  end.

(** Modelled from the spec: construction requests the first page with the
    absent token. *)
Definition NewPagingIterator (fn : PaginationFn) : PagingIterator :=
  getNextPage fn {| pageItems := []; pageToken := []; pageErr := None |}.

(** Modelled from the spec: [HasNext].  "When the buffer is exhausted and
    the last returned token was non-empty, it invokes the source function
    again to refill; when the token is empty, the sequence terminates."  A
    pending fetch error counts as something to hand out.  A source may
    return empty pages with non-empty tokens for ever, hence the fuel:
    [None] means the fuel ran out before an answer. *)
Fixpoint HasNext (fuel : nat) (fn : PaginationFn) (it : PagingIterator)
  : option (bool * PagingIterator) :=
  match fuel with
  | O => None
  | S fuel' =>
      match pageErr it with
      | Some _ => Some (true, it)
      | None =>
          match pageItems it with
          | _ :: _ => Some (true, it)
          | [] =>
              match pageToken it with
              | [] => Some (false, it)
              | _ :: _ => HasNext fuel' fn (getNextPage fn it)
              end
          end
      end
  end.

(** Modelled from the spec: [Next] returns the next buffered item, or the
    fetch error (which is then cleared), or fails with [ErrNoMoreItems]
    after exhaustion. *)
Definition Next (fuel : nat) (fn : PaginationFn) (it : PagingIterator)
  : option (result A * PagingIterator) :=
  match HasNext fuel fn it with
  | None => None
  | Some (false, it') => Some (inl ErrNoMoreItems, it')
  | Some (true, it') =>
      match pageErr it' with
      | Some err =>
          Some (inl err,
                {| pageItems := pageItems it'; pageToken := pageToken it';
                   pageErr := None |})
      | None =>
          match pageItems it' with
          | x :: rest =>
              Some (inr x,
                    {| pageItems := rest; pageToken := pageToken it';
                       pageErr := None |})
          | [] => Some (inl ErrNoMoreItems, it')
          end
      end
  end.

(** The consumer loop [for it.HasNext() { x, err := it.Next(); ... }] that
    collects the items until the sequence ends or an error surfaces. *)
Fixpoint drain (fuel : nat) (fn : PaginationFn) (it : PagingIterator)
  : option (list A * option error) :=
  match fuel with
  | O => None
  | S fuel' =>
      match HasNext fuel' fn it with
      | None => None
      | Some (false, _) => Some ([], None)
      | Some (true, it1) =>
          match Next fuel' fn it1 with
          | None => None
          | Some (inl err, _) => Some ([], Some err)
          | Some (inr x, it2) =>
              match drain fuel' fn it2 with
              | None => None
              | Some (xs, e) => Some (x :: xs, e)
              end
          end
      end
  end.

(** [k] successful calls of [Next] in a row: the items they return and the
    iterator they leave behind. *)
Fixpoint nextN (k fuel : nat) (fn : PaginationFn) (it : PagingIterator)
  : option (list A * PagingIterator) :=
  match k with
  | O => Some ([], it)
  | S k' =>
      match Next fuel fn it with
      | Some (inr x, it') =>
          match nextN k' fuel fn it' with
          | Some (xs, it'') => Some (x :: xs, it'')
          | None => None
          end
      | _ => None
      end
  end.

(** A finite paged source: each page either delivers its items or fails. *)
Inductive Page : Type :=
| PageOk (items : list A)
| PageFail (err : error).

(** The token a finite source issues for its page number [i]; page 0 is the
    one requested with the absent token. *)
Definition tokenOf (i : nat) : Token := repeat x01 i.

(** The source function of a finite paged source: the token of the last
    page is empty. *)
Definition sourceOf (ps : list Page) : PaginationFn :=
  fun token =>
    let i := List.length token in
    match nth_error ps i with
    | Some (PageOk items) =>
        inr (items, if S i <? List.length ps then tokenOf (S i) else [])
    | Some (PageFail err) => inl err
    | None => inr ([], [])
    end.

(** What a finite source delivers in all: the items before its first
    failing page, and that page's error. *)
Fixpoint delivered (ps : list Page) : list A * option error :=
  match ps with
  | [] => ([], None)
  | PageOk items :: rest =>
      let (xs, e) := delivered rest in (items ++ xs, e)
  | PageFail err :: _ => ([], Some err)
  end.

End Iterator.

Arguments PageFail {A} err.

End Paging.
Import Paging.

(** ** The persistence layer *)

Module Persistence.

(** [persistence.WorkflowExecutionInfo], the fields the scan reads. *)
Record WorkflowExecutionInfo : Type := {
  DomainID : string;
  WorkflowID : string;
  RunID : string;
  CloseStatus : Z
}.

(** [persistence.VersionHistories]: the branch tokens of the histories. *)
Record VersionHistories : Type := {
  Histories : list Token
}.

(** [persistence.ListConcreteExecutionsEntity]; both fields are pointers. *)
Record ListConcreteExecutionsEntity : Type := {
  ExecutionInfo : option WorkflowExecutionInfo;
  VersionHistoriesPtr : option VersionHistories
}.

Record ListConcreteExecutionsRequest : Type := {
  PageSize : Z;
  PageToken : Token
}.

Record ListConcreteExecutionsResponse : Type := {
  Executions : list ListConcreteExecutionsEntity;
  NextPageToken : Token
}.

(** [persistence.ExecutionManager], a store handle scoped to one shard, as
    far as the scans call it. *)
Record ExecutionManager : Type := {
  ListConcreteExecutions :
    ListConcreteExecutionsRequest -> result ListConcreteExecutionsResponse
}.

(** Modelled from the spec: the retry policy of the resilient storage
    accessor, "bounded attempt count, backoff between attempts, and a
    classification of which underlying errors are retryable".  The backoff
    is a delay and has no counterpart here. *)
Record RetryPolicy : Type := {
  MaxAttempts : nat;
  IsRetryable : error -> bool
}.

(** Modelled from the spec: [persistence.NewPersistenceRetryer] pairs the
    store handle with the policy. *)
Record PersistenceRetryer : Type := {
  execManager : ExecutionManager;
  policy : RetryPolicy
}.

Section Retry.

(** The state of the underlying store and the value a call returns. *)
Variables (St A : Type).

(** One call of the underlying store. *)
Definition Call : Type := St -> result A * St.

(** Modelled from the spec: the retry loop every accessor call is wrapped
    in ([common/persistence] is not among the files).  A success is
    returned at once; an error that is not retryable is returned at once;
    a retryable error is retried while attempts remain, and "on exhausting
    retries it returns the last error verbatim". *)
Fixpoint attempt (p : RetryPolicy) (retriesLeft : nat) (op : Call) (s : St)
  : result A * St :=
  match op s with
  | (inr a, s') => (inr a, s')
  | (inl err, s') =>
      if IsRetryable p err then
        match retriesLeft with
        | O => (inl err, s')
        | S n => attempt p n op s'
        end
      else (inl err, s')
  end.

(** Modelled from the spec: a wrapped call makes at most [MaxAttempts]
    attempts, the first one included. *)
Definition withRetry (p : RetryPolicy) (op : Call) (s : St) : result A * St :=
  attempt p (MaxAttempts p - 1) op s.

End Retry.

(** A store call that fails with the errors of [failures], one per call,
    then succeeds; [calls] counts the invocations. *)
Record Flaky : Type := {
  failures : list error;
  calls : nat
}.

Definition flakyCall (A : Type) (v : A) : Call Flaky A :=
  fun s =>
    match failures s with
    | err :: rest => (inl err, {| failures := rest; calls := S (calls s) |})
    | [] => (inr v, {| failures := []; calls := S (calls s) |})
    end.

End Persistence.
Import Persistence.

(** ** The command-line context *)

Module Cli.

(** What the helpers taking [c *cli.Context] do with it. *)
Record Context : Type := {
  (** [initializeExecutionStore(c, shardID)] *)
  initializeExecutionStore : Z -> result ExecutionManager;
  (** [newContext(c)]: the error, if any *)
  newContext : option error
}.

End Cli.
Import Cli.

(** ** The targeted scan: [AdminDBScan] and [checkExecution] *)

Module TargetedScan.

(** [fetcher.ExecutionRequest], the key of one execution. *)
Record ExecutionRequest : Type := {
  ReqDomainID : string;
  ReqWorkflowID : string;
  ReqRunID : string
}.

(** What the scanner of [encoding/json] meets next in the input stream:
    a complete JSON value that unmarshals into an [ExecutionRequest], a
    complete JSON value that does not (a type mismatch), or bytes that are
    not JSON. *)
Inductive Chunk : Type :=
| ChunkValue (req : ExecutionRequest)
| ChunkMismatch (msg : string)
| ChunkMalformed (msg : string).

(** [json.Decoder] as the reading loop observes it.  [pending] is the input
    not consumed yet, [truncated] tells whether the stream ends inside a
    value, and [decErr] is the decoder's own [err] field. *)
Record Decoder : Type := {
  pending : list Chunk;
  truncated : bool;
  decErr : option error
}.

(** [json.NewDecoder(input)] *)
Definition NewDecoder (input : list Chunk) (endsInsideValue : bool)
  : Decoder :=
  {| pending := input; truncated := endsInsideValue; decErr := None |}.

(** [dec.Decode(&exec)].  The library's decoder returns its stored error
    when it has one; a syntax error and the end of the input are stored
    ([dec.err = err]) before they are returned, whereas the error of
    unmarshalling a complete value is returned without being stored. *)
Definition Decode (dec : Decoder) : result ExecutionRequest * Decoder :=
  match decErr dec with
  | Some err => (inl err, dec)
  | None =>
      match pending dec with
      | [] =>
          let err := if truncated dec then io_ErrUnexpectedEOF else io_EOF in
          (inl err,
           {| pending := []; truncated := truncated dec;
              decErr := Some err |})
      | ChunkValue req :: rest =>
          (inr req,
           {| pending := rest; truncated := truncated dec;
              decErr := None |})
      | ChunkMismatch msg :: rest =>
          (inl (UnmarshalTypeError msg),
           {| pending := rest; truncated := truncated dec;
              decErr := None |})
      | ChunkMalformed msg :: rest =>
          (inl (SyntaxError msg),
           {| pending := ChunkMalformed msg :: rest;
              truncated := truncated dec;
              decErr := Some (SyntaxError msg) |})
      end
  end.

(** [err == io.EOF || err == io.ErrUnexpectedEOF] *)
Definition isEndOfInput (err : error) : bool :=
  match err with
  | io_EOF | io_ErrUnexpectedEOF => true
  | _ => false
  end.

(** The reading loop of [AdminDBScan]:
    [for { var exec ...; if err := dec.Decode(&exec); err != nil { if
    err == io.EOF || err == io.ErrUnexpectedEOF { break } } else { data =
    append(data, exec) } }].  [None] means the loop is still running when
    the fuel is used up. *)
Fixpoint readInput (fuel : nat) (dec : Decoder) (data : list ExecutionRequest)
  : option (list ExecutionRequest) :=
  match fuel with
  | O => None
  | S fuel' =>
      match Decode dec with
      | (inl err, dec') =>
          if isEndOfInput err then Some data else readInput fuel' dec' data
      | (inr exec, dec') => readInput fuel' dec' (data ++ [exec])
      end
  end.

(** Standard output and standard error, oldest line first. *)
Record Console : Type := {
  stdout : list string;
  stderr : list error
}.

(** [fmt.Println(string(data))] *)
Definition Println (con : Console) (line : string) : Console :=
  {| stdout := stdout con ++ [line]; stderr := stderr con |}.

(** [fmt.Fprintln(os.Stderr, err.Error())] *)
Definition FprintlnStderr (con : Console) (err : error) : Console :=
  {| stdout := stdout con; stderr := stderr con ++ [err] |}.

Section Scan.

(** The fetched execution, an [interface{}] in the source. *)
Variable Entity : Type.

(** [store.ScanOutputEntity] *)
Record ScanOutputEntity : Type := {
  Execution : Entity;
  Result : ManagerCheckResult
}.

(** [executions.ExecutionFetcher] and [executions.InvariantFactory] *)
Definition ExecutionFetcher : Type :=
  PersistenceRetryer -> ExecutionRequest -> result Entity.

Definition InvariantFactory : Type := PersistenceRetryer -> Invariant Entity.

(** Library functions the scan calls: [common.WorkflowIDToHistoryShard],
    [common.CreatePersistenceRetryPolicy] and [json.Marshal] on an output
    record. *)
Variable WorkflowIDToHistoryShard : string -> Z -> Z.
Variable CreatePersistenceRetryPolicy : RetryPolicy.
Variable jsonMarshal : ScanOutputEntity -> result string.

(** [checkExecution]: opens the store of the execution's shard, builds the
    retryer, fetches the execution and runs the invariants on it.  The
    error of [initializeHistoryManager] is overwritten before it is looked
    at, and the deferred [Close] and [cancel] calls leave no trace in what
    is returned; neither has a counterpart here. *)
Definition checkExecution (c : Context) (numberOfShards : Z)
    (req : ExecutionRequest) (invariants : list InvariantFactory)
    (fetcher : ExecutionFetcher)
  : result (Entity * ManagerCheckResult) :=
  match initializeExecutionStore c
          (WorkflowIDToHistoryShard (ReqWorkflowID req) numberOfShards) with
  | inl err =>
      inl (PrintableError "Error initializing exec manager " (Some err))
  | inr execManager =>
      let pr := {| execManager := execManager;
                   policy := CreatePersistenceRetryPolicy |} in
      match newContext c with
      | Some err =>
          inl (PrintableError "Error creating new context " (Some err))
      | None =>
          match fetcher pr req with
          | inl err =>
              inl (PrintableError "Error in fetching context: " (Some err))
          | inr execution =>
              let ivs := map (fun fn => fn pr) invariants in
              inr (execution, RunChecks ivs execution)
          end
      end
  end.

(** The scanning loop of [AdminDBScan], [for _, e := range data]: an error
    of [checkExecution] is returned, an error of [json.Marshal] is printed
    to standard error and the loop continues, a record is printed to
    standard output. *)
Fixpoint scanExecutions (c : Context) (numberOfShards : Z)
    (invariants : list InvariantFactory) (ef : ExecutionFetcher)
    (data : list ExecutionRequest) (con : Console)
  : option error * Console :=
  match data with
  | [] => (None, con)
  | e :: rest =>
      match checkExecution c numberOfShards e invariants ef with
      | inl err =>
          (Some (PrintableError "Error checking execution: " (Some err)), con)
      | inr (execution, result) =>
          let out := {| Execution := execution; Result := result |} in
          match jsonMarshal out with
          | inl err =>
              scanExecutions c numberOfShards invariants ef rest
                (FprintlnStderr con err)
          | inr line =>
              scanExecutions c numberOfShards invariants ef rest
                (Println con line)
          end
      end
  end.

(** [AdminDBScan] once the flags have been read and the input file opened:
    [numberOfShards], the invariants of the scan type and its fetcher are
    given, [noInvariants] is the text of the message for an empty invariant
    list, and [dec] is the decoder over the input. *)
Definition AdminDBScan (fuel : nat) (c : Context) (numberOfShards : Z)
    (noInvariants : string)
    (invariants : list InvariantFactory) (ef : ExecutionFetcher)
    (dec : Decoder) (con : Console)
  : option (option error * Console) :=
  if List.length invariants <? 1 then
    Some (Some (PrintableError noInvariants None), con)
  else
    match readInput fuel dec [] with
    | None => None
    | Some data =>
        Some (scanExecutions c numberOfShards invariants ef data con)
    end.

End Scan.

End TargetedScan.
Import TargetedScan.

(** ** The shard-range scan: [AdminDBScanUnsupportedWorkflow] *)

Module RangeScan.

(** The calls made on the output [*os.File], in order. *)
Inductive FileOp : Type :=
| OpWriteString (s : string)
| OpSync
| OpClose.

(** The output file: the calls that succeeded so far, oldest first, and
    the outcome of each coming [WriteString] or [Sync] ([None] or no entry:
    the call succeeds). *)
Record File : Type := {
  ops : list FileOp;
  faults : list (option error)
}.

(** A file operation consults the next entry of [faults]; a failed call
    leaves no trace in [ops]. *)
Definition fileCall (op : FileOp) (f : File) : option error * File :=
  match faults f with
  | Some err :: rest => (Some err, {| ops := ops f; faults := rest |})
  | None :: rest => (None, {| ops := ops f ++ [op]; faults := rest |})
  | [] => (None, {| ops := ops f ++ [op]; faults := [] |})
  end.

(** [outputFile.WriteString(s)]: an unbuffered write. *)
Definition WriteString (f : File) (s : string) : option error * File :=
  fileCall (OpWriteString s) f.

(** [outputFile.Sync()]: fsync. *)
Definition Sync (f : File) : option error * File := fileCall OpSync f.

(** [outputFile.Close()], its error being dropped by [defer]. *)
Definition Close (f : File) : File :=
  {| ops := ops f ++ [OpClose]; faults := faults f |}.

(** [paginationFunc], the closure of [listExecutionsByShardID] over the
    store handle: one page of at most 1000 concrete executions. *)
Definition paginationFunc (client : ExecutionManager)
  : PaginationFn ListConcreteExecutionsEntity :=
  fun paginationToken =>
    match ListConcreteExecutions client
            {| PageSize := 1000; PageToken := paginationToken |} with
    | inl err => inl err
    | inr resp => inr (Executions resp, NextPageToken resp)
    end.

(** The remediation command, the [fmt.Sprintf] of the loop body. *)
Definition remediationLine (executionInfo : WorkflowExecutionInfo) : string :=
  ("cadence --address <host>:<port> --domain <" ++ DomainID executionInfo
   ++ "> workflow reset --wid " ++ WorkflowID executionInfo
   ++ " --rid " ++ RunID executionInfo
   ++ " --reset_type LastDecisionCompleted --reason 'release 0.16 upgrade'"
   ++ nl)%string.

(** [execution.VersionHistories == nil] *)
Definition isNil (A : Type) (p : option A) : bool :=
  match p with None => true | Some _ => false end.

(** The signature the scan looks for:
    [executionInfo != nil && executionInfo.CloseStatus == 0 &&
     execution.VersionHistories == nil]; the matching execution's metadata
    is returned. *)
Definition unsupported (execution : ListConcreteExecutionsEntity)
  : option WorkflowExecutionInfo :=
  match ExecutionInfo execution with
  | Some executionInfo =>
      if ((CloseStatus executionInfo =? 0)%Z
          && isNil (VersionHistoriesPtr execution))%bool
      then Some executionInfo else None
  | None => None
  end.

(** The body of the loop of [listExecutionsByShardID] for one listed
    execution: on a match the line is written, then synced. *)
Definition scanExecution (execution : ListConcreteExecutionsEntity)
    (outputFile : File) : option error * File :=
  match unsupported execution with
  | Some executionInfo =>
      let outStr := remediationLine executionInfo in
      match WriteString outputFile outStr with
      | (Some err, f) =>
          (Some (PrintableError "Failed to write data to file" (Some err)), f)
      | (None, f) =>
          match Sync f with
          | (Some err, f') =>
              (Some (PrintableError "Failed to sync data to file" (Some err)),
               f')
          | (None, f') => (None, f')
          end
      end
  | None => (None, outputFile)
  end.

(** The message of a failed page fetch. *)
Definition scanFailedMessage (shardID : Z) : string :=
  ("Failed to scan shard ID: " ++ show_int shardID
   ++ " for unsupported workflow. Please retry.")%string.

(** The loop [for executionIterator.HasNext() { result, err :=
    executionIterator.Next(); ... }] of [listExecutionsByShardID]. *)
Fixpoint scanLoop (fuel : nat)
    (fn : PaginationFn ListConcreteExecutionsEntity) (shardID : Z)
    (executionIterator : PagingIterator ListConcreteExecutionsEntity)
    (outputFile : File) : option (option error * File) :=
  match fuel with
  | O => None
  | S fuel' =>
      match HasNext fuel' fn executionIterator with
      | None => None
      | Some (false, _) => Some (None, outputFile)
      | Some (true, it1) =>
          match Next fuel' fn it1 with
          | None => None
          | Some (inl err, _) =>
              Some (Some (PrintableError (scanFailedMessage shardID)
                                         (Some err)),
                    outputFile)
          | Some (inr execution, it2) =>
              match scanExecution execution outputFile with
              | (Some err, f) => Some (Some err, f)
              | (None, f) => scanLoop fuel' fn shardID it2 f
              end
          end
      end
  end.

(** [listExecutionsByShardID(c, shardID, outputFile)] *)
Definition listExecutionsByShardID (fuel : nat) (c : Context) (shardID : Z)
    (outputFile : File) : option (option error * File) :=
  match initializeExecutionStore c shardID with
  | inl err =>
      Some (Some (PrintableError "Error initializinf execution store "
                                 (Some err)),
            outputFile)
  | inr client =>
      scanLoop fuel (paginationFunc client) shardID
        (NewPagingIterator (paginationFunc client)) outputFile
  end.

(** The output file and what was printed to standard output. *)
Record World : Type := {
  outputFile : File;
  printed : list string
}.

(** [fmt.Printf("Shard %v scan operation is completed.\n", i)] *)
Definition completedMessage (i : Z) : string :=
  ("Shard " ++ show_int i ++ " scan operation is completed." ++ nl)%string.

(** The loop [for i := startShardID; i <= endShardID; i++] of
    [AdminDBScanUnsupportedWorkflow]. *)
Fixpoint shardLoop (fuel : nat) (c : Context) (i endShardID : Z) (w : World)
  : option (option error * World) :=
  match fuel with
  | O => None
  | S fuel' =>
      if (i <=? endShardID)%Z then
        match listExecutionsByShardID fuel' c i (outputFile w) with
        | None => None
        | Some (Some err, f) =>
            Some (Some err, {| outputFile := f; printed := printed w |})
        | Some (None, f) =>
            shardLoop fuel' c (incr i) endShardID
              {| outputFile := f;
                 printed := printed w ++ [completedMessage i] |}
        end
      else Some (None, w)
  end.

(** [AdminDBScanUnsupportedWorkflow]: [getOutputFile] is the outcome of
    opening the output file, [startShardID] and [endShardID] are the two
    shard-bound flags.  The file is closed on every return after it was
    opened. *)
Definition AdminDBScanUnsupportedWorkflow (fuel : nat) (c : Context)
    (getOutputFile : result File) (startShardID endShardID : Z)
  : option (option error * option World) :=
  match getOutputFile with
  | inl err =>
      Some (Some (PrintableError "Error getting output file: " (Some err)),
            None)
  | inr file =>
      match shardLoop fuel c startShardID endShardID
              {| outputFile := file; printed := [] |} with
      | None => None
      | Some (err, w) =>
          Some (err, Some {| outputFile := Close (outputFile w);
                             printed := printed w |})
      end
  end.

End RangeScan.
Import RangeScan.

(** ** Finite stores and the concrete inputs of the examples *)

(** A store handle over a finite list of pages. *)
Definition storeOf (ps : list (Page ListConcreteExecutionsEntity))
  : ExecutionManager :=
  {| ListConcreteExecutions := fun req =>
       match sourceOf ps (PageToken req) with
       | inl err => inl err
       | inr (items, token) =>
           inr {| Executions := items; NextPageToken := token |}
       end |}.

(** All executions listed in the pages of a shard. *)
Definition okPages (A : Type) (pages : list (list A)) : list (Page A) :=
  map (@PageOk A) pages.

(** The file calls a list of executions gives rise to when nothing fails:
    the line of each match, each followed by its sync. *)
Definition linesOf (xs : list ListConcreteExecutionsEntity) : list FileOp :=
  flat_map (fun x =>
              match unsupported x with
              | Some info => [OpWriteString (remediationLine info); OpSync]
              | None => []
              end) xs.

(** The shards [lo, lo+1, ...], [n] of them. *)
Fixpoint shardsFrom (lo : Z) (n : nat) : list Z :=
  match n with
  | O => []
  | S n' => lo :: shardsFrom (lo + 1)%Z n'
  end.

(** The inclusive range [[lo, hi]] in ascending order. *)
Definition shardRange (lo hi : Z) : list Z :=
  shardsFrom lo (Z.to_nat (hi - lo + 1)).

(** Fuel that suffices to walk a finite source to its end: one unit per
    page, one per item, and two to notice the end. *)
Definition pageCost (A : Type) (p : Page A) : nat :=
  match p with
  | PageOk items => S (List.length items)
  | PageFail _ => 1
  end.

Definition fuelFor (A : Type) (ps : list (Page A)) : nat :=
  2 + list_sum (map (@pageCost A) ps).

(** The loop body applied to a list of executions in order, stopping at the
    first file error. *)
Fixpoint scanListed (xs : list ListConcreteExecutionsEntity) (f : File)
  : option error * File :=
  match xs with
  | [] => (None, f)
  | x :: xs' =>
      match scanExecution x f with
      | (Some err, f') => (Some err, f')
      | (None, f') => scanListed xs' f'
      end
  end.

(** The outcome of scanning a shard whose store delivers the executions
    [fst d] and then, if [snd d] is an error, fails to fetch a page. *)
Definition scanDelivered (shardID : Z)
    (d : list ListConcreteExecutionsEntity * option error) (f : File)
  : option error * File :=
  match scanListed (fst d) f with
  | (Some err, f') => (Some err, f')
  | (None, f') =>
      match snd d with
      | Some err =>
          (Some (PrintableError (scanFailedMessage shardID) (Some err)), f')
      | None => (None, f')
      end
  end.

(** The iterator over a finite source after [fetched] pages were fetched,
    with [buf] still buffered and the pages [rest] still to come. *)
Definition positioned (A : Type) (fetched : nat) (buf : list A)
    (rest : list (Page A)) : PagingIterator A :=
  {| pageItems := buf;
     pageToken := match rest with [] => [] | _ :: _ => tokenOf fetched end;
     pageErr := None |}.

(** The outcome of scanning the shards of a list in order, each with a
    finite store, stopping at the first shard that returns an error. *)
Fixpoint scanShards
    (pagesOf : Z -> list (Page ListConcreteExecutionsEntity))
    (shards : list Z) (w : World) : option error * World :=
  match shards with
  | [] => (None, w)
  | s :: rest =>
      match scanDelivered s (delivered (pagesOf s)) (outputFile w) with
      | (Some err, f) =>
          (Some err, {| outputFile := f; printed := printed w |})
      | (None, f) =>
          scanShards pagesOf rest
            {| outputFile := f;
               printed := printed w ++ [completedMessage s] |}
      end
  end.

(** Fuel that suffices for the shards of a list. *)
Definition rangeFuel
    (pagesOf : Z -> list (Page ListConcreteExecutionsEntity))
    (shards : list Z) : nat :=
  1 + list_sum (map (fun s => 1 + fuelFor (pagesOf s)) shards).

(** The strings written to the file, in order. *)
Definition writtenLines (l : list FileOp) : list string :=
  flat_map (fun op => match op with OpWriteString s => [s] | _ => [] end) l.


(** The metadata of the executions of a list that show the signature. *)
Definition matchesOf (xs : list ListConcreteExecutionsEntity)
  : list WorkflowExecutionInfo :=
  flat_map (fun x =>
              match unsupported x with
              | Some info => [info]
              | None => []
              end) xs.

(** Whether a listed execution carries its metadata. *)
Definition hasInfo (x : ListConcreteExecutionsEntity) : bool :=
  negb (isNil (ExecutionInfo x)).

(** ** Statements and concrete inputs used below *)

(** The three-line input [{"workflowID":"A"}], [{bad], [{"workflowID":"B"}]
    as the decoder meets it: the second line is not JSON, the scanner stops
    at its [b] with a syntax error. *)
Definition reqA : ExecutionRequest :=
  {| ReqDomainID := EmptyString; ReqWorkflowID := "A";
     ReqRunID := EmptyString |}.

Definition reqB : ExecutionRequest :=
  {| ReqDomainID := EmptyString; ReqWorkflowID := "B";
     ReqRunID := EmptyString |}.

Definition threeLines : Decoder :=
  NewDecoder
    [ChunkValue reqA;
     ChunkMalformed
       "invalid character 'b' looking for beginning of object key string";
     ChunkValue reqB]
    false.

(** The requests of the well-formed values of an input, in order. *)
Fixpoint valuesOf (input : list Chunk) : list ExecutionRequest :=
  match input with
  | [] => []
  | ChunkValue req :: rest => req :: valuesOf rest
  | _ :: rest => valuesOf rest
  end.

Definition isMalformed (ch : Chunk) : bool :=
  match ch with ChunkMalformed _ => true | _ => false end.

Section TargetedStatements.

Variable Entity : Type.
Variable shardOf : string -> Z -> Z.
Variable retryPolicy : RetryPolicy.
Variable marshal : ScanOutputEntity Entity -> result string.
Variable c : Context.
Variable numberOfShards : Z.
Variable invariants : list (InvariantFactory Entity).
Variable ef : ExecutionFetcher Entity.

(** Whether [checkExecution] succeeds on a request. *)
Definition checks (req : ExecutionRequest) : bool :=
  match checkExecution shardOf retryPolicy c numberOfShards req
          invariants ef with
  | inr _ => true
  | inl _ => false
  end.

(** "A fetch error for one execution does not abort the batch": the scan
    of [data] returns no error and prints the records it prints when the
    executions that cannot be checked are left out of [data]. *)
Definition fetchErrorsIsolated (data : list ExecutionRequest) : Prop :=
  forall con,
    fst (scanExecutions shardOf retryPolicy marshal c numberOfShards
           invariants ef data con) = None
    /\ stdout (snd (scanExecutions shardOf retryPolicy marshal c
                      numberOfShards invariants ef data con))
       = stdout (snd (scanExecutions shardOf retryPolicy marshal c
                        numberOfShards invariants ef (filter checks data)
                        con)).

End TargetedStatements.

(** A setting for the targeted scan: executions are identified with their
    workflow id, execution "A" cannot be fetched, and one invariant finds
    everything healthy. *)
Definition demoContext : Context :=
  {| initializeExecutionStore := fun _ => inr (storeOf []);
     newContext := None |}.

Definition demoShardOf (workflowID : string) (numberOfShards : Z) : Z := 0%Z.

Definition demoPolicy : RetryPolicy :=
  {| MaxAttempts := 3;
     IsRetryable := fun err =>
       match err with BackendError r _ => r | _ => false end |}.

Definition timeoutError : error := BackendError true "timeout".

Definition notFoundError : error := BackendError false "not found".

Definition demoFetcher : ExecutionFetcher string :=
  fun _ req =>
    if String.eqb (ReqWorkflowID req) "A"
    then inl notFoundError
    else inr (ReqWorkflowID req).

Definition demoMarshal (out : ScanOutputEntity string) : result string :=
  inr (Execution out).

(** A [json.Marshal] that rejects every record. *)
Definition demoFailingMarshal (out : ScanOutputEntity string)
  : result string :=
  inl (PrintableError "json: unsupported value" None).

Definition demoCheck (name : string) (t : CheckResultType)
  : Invariant string :=
  fun _ => {| ResultType := t; InvariantName := name;
              Info := EmptyString |}.

Definition demoInvariant (name : string) (t : CheckResultType)
  : InvariantFactory string :=
  fun _ => demoCheck name t.

Definition emptyConsole : Console := {| stdout := []; stderr := [] |}.

(** A setting for the shard-range scan: shard 1 lists, on two pages, an
    execution without metadata, one open execution without version
    histories and a closed one; the other shards list nothing. *)
Definition openExecution : ListConcreteExecutionsEntity :=
  {| ExecutionInfo :=
       Some {| DomainID := "d1"; WorkflowID := "wf1"; RunID := "run1";
               CloseStatus := 0 |};
     VersionHistoriesPtr := None |}.

Definition closedExecution : ListConcreteExecutionsEntity :=
  {| ExecutionInfo :=
       Some {| DomainID := "d1"; WorkflowID := "wf2"; RunID := "run2";
               CloseStatus := 1 |};
     VersionHistoriesPtr := None |}.

Definition bareExecution : ListConcreteExecutionsEntity :=
  {| ExecutionInfo := None; VersionHistoriesPtr := None |}.

Definition demoPagesOf (shardID : Z)
  : list (list ListConcreteExecutionsEntity) :=
  if (shardID =? 1)%Z
  then [[bareExecution; openExecution]; [closedExecution]]
  else [].

Definition demoRangeContext : Context :=
  {| initializeExecutionStore :=
       fun shardID => inr (storeOf (okPages (demoPagesOf shardID)));
     newContext := None |}.



Definition freshFile : File := {| ops := []; faults := [] |}.

(** "The run aborts with an error." *)
Definition abortsWithError (A : Type) (run : option (option error * A))
  : Prop :=
  exists err w, run = Some (Some err, w).

(** What the serializer made of the records of a scan, in order: the lines
    that go to standard output and the errors that go to standard error. *)
Definition recordsOf (outs : list (result string)) : list string :=
  flat_map (fun out => match out with inr line => [line] | inl _ => [] end)
           outs.

Definition marshalErrorsOf (outs : list (result string)) : list error :=
  flat_map (fun out => match out with inl err => [err] | inr _ => [] end)
           outs.

(** ** The failover commands *)

Module Failover.

(** The errors the failover commands meet: the texts made by [fmt.Errorf]
    (the format string stands for the call; the calls at hand pass one
    argument the format does not use), the two errors of the frontend the
    commands tell apart by type, any other error of the frontend, and
    [PrintableError]. *)
#[warnings="-register-all"]
Inductive cliError : Type :=
| Errorf (format : string)
| EntityNotExistsError (msg : string)
| WorkflowExecutionAlreadyCompletedError (msg : string)
| ServiceError (msg : string)
| PrintableError (msg : string) (cause : option cliError).

Definition defaultAbortReason : string := "Failover aborted through admin CLI".

Definition defaultBatchFailoverSize : Z := 20.

Definition defaultBatchFailoverWaitTimeInSeconds : Z := 30.

Definition defaultFailoverWorkflowTimeoutInSeconds : Z := 1200.

(** [int32(x)] and the product of two [int64]. *)
Definition toInt32 (z : Z) : Z := ((z + 2 ^ 31) mod 2 ^ 32 - 2 ^ 31)%Z.

Definition wrap64 (z : Z) : Z := ((z + 2 ^ 63) mod 2 ^ 64 - 2 ^ 63)%Z.

(** [time.Second], in nanoseconds. *)
Definition Second : Z := 1000000000.

Record startParams : Type := {
  targetCluster : string;
  sourceCluster : string;
  batchFailoverSize : Z;
  batchFailoverWaitTimeInSeconds : Z;
  failoverWorkflowTimeout : Z;
  failoverTimeout : Z;
  domains : list string;
  drillWaitTime : Z;
  cron : string
}.

Definition setBatchFailoverSize (p : startParams) (v : Z) : startParams :=
  {| targetCluster := targetCluster p; sourceCluster := sourceCluster p;
     batchFailoverSize := v;
     batchFailoverWaitTimeInSeconds := batchFailoverWaitTimeInSeconds p;
     failoverWorkflowTimeout := failoverWorkflowTimeout p;
     failoverTimeout := failoverTimeout p; domains := domains p;
     drillWaitTime := drillWaitTime p; cron := cron p |}.

Definition setBatchFailoverWaitTimeInSeconds (p : startParams) (v : Z)
  : startParams :=
  {| targetCluster := targetCluster p; sourceCluster := sourceCluster p;
     batchFailoverSize := batchFailoverSize p;
     batchFailoverWaitTimeInSeconds := v;
     failoverWorkflowTimeout := failoverWorkflowTimeout p;
     failoverTimeout := failoverTimeout p; domains := domains p;
     drillWaitTime := drillWaitTime p; cron := cron p |}.

Definition setFailoverWorkflowTimeout (p : startParams) (v : Z)
  : startParams :=
  {| targetCluster := targetCluster p; sourceCluster := sourceCluster p;
     batchFailoverSize := batchFailoverSize p;
     batchFailoverWaitTimeInSeconds := batchFailoverWaitTimeInSeconds p;
     failoverWorkflowTimeout := v;
     failoverTimeout := failoverTimeout p; domains := domains p;
     drillWaitTime := drillWaitTime p; cron := cron p |}.

(** [validateStartParams(params *startParams) error]: the parameters are
    behind a pointer, so the function returns them as it leaves them. *)
Definition validateStartParams (params : startParams)
  : option cliError * startParams :=
  if (String.length (targetCluster params) =? 0)%nat then
    (Some (Errorf "targetCluster is not provided"), params)
  else if (String.length (sourceCluster params) =? 0)%nat then
    (Some (Errorf "sourceCluster is not provided"), params)
  else if String.eqb (targetCluster params) (sourceCluster params) then
    (Some (Errorf "targetCluster is same as sourceCluster"), params)
  else
    let params1 :=
      if (batchFailoverSize params <=? 0)%Z
      then setBatchFailoverSize params defaultBatchFailoverSize
      else params in
    let params2 :=
      if (batchFailoverWaitTimeInSeconds params1 <=? 0)%Z
      then setBatchFailoverWaitTimeInSeconds params1
             defaultBatchFailoverWaitTimeInSeconds
      else params1 in
    let params3 :=
      if (failoverWorkflowTimeout params2 <=? 0)%Z
      then setFailoverWorkflowTimeout params2
             defaultFailoverWorkflowTimeoutInSeconds
      else params2 in
    (None, params3).

(** Names and numbers defined in the packages [failovermanager] and
    [common] and elsewhere in package [cli]. *)
Record Names : Type := {
  SystemLocalDomainName : string;
  FailoverWorkflowID : string;
  DrillWorkflowID : string;
  PauseSignal : string;
  ResumeSignal : string;
  WorkflowRunning : string;
  WorkflowPaused : string;
  QueryType : string;
  TaskListName : string;
  FailoverWorkflowTypeName : string;
  defaultDecisionTimeoutInSeconds : Z
}.

Record WorkflowExecution : Type := {
  WorkflowID : string;
  RunID : string
}.

Record SignalWorkflowExecutionRequest : Type := {
  SignalDomain : string;
  SignalExecution : WorkflowExecution;
  SignalName : string;
  SignalIdentity : string
}.

Record TerminateWorkflowExecutionRequest : Type := {
  TerminateDomain : string;
  TerminateExecution : WorkflowExecution;
  Reason : string;
  TerminateIdentity : string
}.

Record QueryWorkflowRequest : Type := {
  QueryDomain : string;
  QueryExecution : WorkflowExecution;
  QueryTypeName : string
}.

(** [failovermanager.FailoverParams], the input of the failover workflow. *)
Record FailoverParams : Type := {
  TargetCluster : string;
  SourceCluster : string;
  BatchFailoverSize : Z;
  BatchFailoverWaitTimeInSeconds : Z;
  Domains : list string;
  DrillWaitTime : Z;
  GracefulFailoverTimeoutInSeconds : option Z
}.

Record StartWorkflowExecutionRequest : Type := {
  StartDomain : string;
  RequestID : string;
  StartWorkflowID : string;
  StartTaskList : string;
  ExecutionStartToCloseTimeoutSeconds : Z;
  TaskStartToCloseTimeoutSeconds : Z;
  Memo : string;
  WorkflowTypeName : string;
  CronSchedule : string;
  Input : string
}.

(** [failovermanager.QueryResult], the fields the commands read. *)
Record QueryResult : Type := {
  State : string;
  ResultTargetCluster : string;
  ResultSourceCluster : string;
  SuccessDomains : list string;
  FailedDomains : list string
}.

(** The calls made on the frontend client, oldest first. *)
Inductive Call : Type :=
| CallSignal (req : SignalWorkflowExecutionRequest)
| CallTerminate (req : TerminateWorkflowExecutionRequest)
| CallQuery (req : QueryWorkflowRequest)
| CallStart (req : StartWorkflowExecutionRequest).

(** The frontend: what each method answers, given the calls made before.
    A query answers with an error, with no result ([None]) or with the
    bytes of a result. *)
Record Client : Type := {
  SignalWorkflowExecution :
    list Call -> SignalWorkflowExecutionRequest -> option cliError;
  TerminateWorkflowExecution :
    list Call -> TerminateWorkflowExecutionRequest -> option cliError;
  QueryWorkflow :
    list Call -> QueryWorkflowRequest -> cliError + option string;
  StartWorkflowExecution :
    list Call -> StartWorkflowExecutionRequest -> cliError + string
}.

(** [os/user.User], the two fields read. *)
Record User : Type := {
  Name : string;
  Username : string
}.

(** The command-line context and the surroundings of a command: flags,
    [newContext], [user.Current], [getCliIdentity], [uuid.New],
    [getWorkflowMemo] on the operator, and the two JSON conversions. *)
Record Env : Type := {
  flagRunID : option string;
  flagFailoverDrill : bool;
  flagTargetCluster : cliError + string;
  flagSourceCluster : cliError + string;
  flagFailoverBatchSize : Z;
  flagFailoverWaitTime : Z;
  flagFailoverTimeout : Z;
  flagExecutionTimeout : Z;
  flagFailoverDomains : list string;
  flagFailoverDrillWaitTime : Z;
  flagCronSchedule : string;
  newContext : option cliError;
  userCurrent : cliError + User;
  getCliIdentity : string;
  uuidNew : string;
  getWorkflowMemo : string -> cliError + string;
  jsonMarshalParams : FailoverParams -> cliError + string;
  jsonUnmarshalResult : string -> option QueryResult
}.

(** The calls made so far and the lines printed so far. *)
Record World : Type := {
  calls : list Call;
  printed : list string
}.

Definition Println (w : World) (line : string) : World :=
  {| calls := calls w; printed := printed w ++ [line] |}.

Definition called (w : World) (call : Call) : World :=
  {| calls := calls w ++ [call]; printed := printed w |}.

(** [getRunID] *)
Definition getRunID (env : Env) : string :=
  match flagRunID env with
  | Some rid => rid
  | None => EmptyString
  end.

(** [getFailoverWorkflowID] *)
Definition getFailoverWorkflowID (n : Names) (env : Env) : string :=
  if flagFailoverDrill env then DrillWorkflowID n else FailoverWorkflowID n.

(** [isWorkflowRunning] *)
Definition isWorkflowRunning (n : Names) (queryResult : QueryResult) : bool :=
  String.eqb (State queryResult) (WorkflowRunning n)
  || String.eqb (State queryResult) (WorkflowPaused n).

(** [getOperator] *)
Definition getOperator (env : Env) : cliError + string :=
  match userCurrent env with
  | inl _ => inl (Errorf "Unable to get operator info")
  | inr user =>
      inr (Name user ++ " (username: " ++ Username user ++ ")")%string
  end.

(** [executePauseOrResume] *)
Definition executePauseOrResume (n : Names) (env : Env) (client : Client)
    (workflowID : string) (isPause : bool) (w : World)
  : option cliError * World :=
  match newContext env with
  | Some err =>
      (Some (PrintableError "Error creating new context: " (Some err)), w)
  | None =>
      let runID := getRunID env in
      let signalName := if isPause then PauseSignal n else ResumeSignal n in
      let request :=
        {| SignalDomain := SystemLocalDomainName n;
           SignalExecution := {| WorkflowID := workflowID; RunID := runID |};
           SignalName := signalName;
           SignalIdentity := getCliIdentity env |} in
      (SignalWorkflowExecution client (calls w) request,
       called w (CallSignal request))
  end.

(** [query] *)
Definition query (n : Names) (env : Env) (client : Client)
    (workflowID runID : string) (w : World)
  : (cliError + QueryResult) * World :=
  let request :=
    {| QueryDomain := SystemLocalDomainName n;
       QueryExecution := {| WorkflowID := workflowID; RunID := runID |};
       QueryTypeName := QueryType n |} in
  let w' := called w (CallQuery request) in
  match QueryWorkflow client (calls w) request with
  | inl err =>
      (inl (PrintableError "Failed to query failover workflow" (Some err)),
       w')
  | inr None => (inl (PrintableError "QueryResult has no value" None), w')
  | inr (Some bytes) =>
      match jsonUnmarshalResult env bytes with
      | None =>
          (inl (PrintableError "Unable to deserialize QueryResult" None), w')
      | Some queryResult => (inr queryResult, w')
      end
  end.

(** The message printed once the drill workflow has been asked to pause. *)
Definition drillPausedMessage : string :=
  ("The failover drill workflow is paused. Please run 'cadence admin cluster failover resume --fd'"
   ++ " to resume the drill workflow.")%string.

(** The two errors of the pause signal that [failoverStart] lets pass:
    [case *types.EntityNotExistsError] and
    [case *types.WorkflowExecutionAlreadyCompletedError]. *)
Definition drillAbsent (err : cliError) : bool :=
  match err with
  | EntityNotExistsError _ | WorkflowExecutionAlreadyCompletedError _ => true
  | _ => false
  end.

(** [failoverStart] *)
Definition failoverStart (n : Names) (env : Env) (client : Client)
    (params0 : startParams) (w : World) : option cliError * World :=
  match validateStartParams params0 with
  | (Some err, _) =>
      (Some (PrintableError "Failed validation of start params" (Some err)),
       w)
  | (None, params) =>
      let workflowID := FailoverWorkflowID n in
      let workflowTimeout := toInt32 (failoverWorkflowTimeout params) in
      let drillWait := wrap64 (drillWaitTime params * Second) in
      let gracefulFailoverTimeoutInSeconds :=
        if (failoverTimeout params >? 0)%Z
        then Some (toInt32 (failoverTimeout params)) else None in
      match newContext env with
      | Some err =>
          (Some (PrintableError "Error creating new context: " (Some err)),
           w)
      | None =>
      match getOperator env with
      | inl err =>
          (Some (PrintableError "Failed to get operator" (Some err)), w)
      | inr operator =>
      match getWorkflowMemo env operator with
      | inl err =>
          (Some (PrintableError "Failed to serialize memo" (Some err)), w)
      | inr memo =>
          let request (wid cronSchedule input : string) :=
            {| StartDomain := SystemLocalDomainName n;
               RequestID := uuidNew env;
               StartWorkflowID := wid;
               StartTaskList := TaskListName n;
               ExecutionStartToCloseTimeoutSeconds := workflowTimeout;
               TaskStartToCloseTimeoutSeconds :=
                 defaultDecisionTimeoutInSeconds n;
               Memo := memo;
               WorkflowTypeName := FailoverWorkflowTypeName n;
               CronSchedule := cronSchedule;
               Input := input |} in
          let start (wid cronSchedule : string) (w1 : World) :=
            let foParams :=
              {| TargetCluster := targetCluster params;
                 SourceCluster := sourceCluster params;
                 BatchFailoverSize := batchFailoverSize params;
                 BatchFailoverWaitTimeInSeconds :=
                   batchFailoverWaitTimeInSeconds params;
                 Domains := domains params;
                 DrillWaitTime := drillWait;
                 GracefulFailoverTimeoutInSeconds :=
                   gracefulFailoverTimeoutInSeconds |} in
            match jsonMarshalParams env foParams with
            | inl err =>
                (Some (PrintableError "Failed to serialize Failover Params"
                         (Some err)), w1)
            | inr input =>
                let req := request wid cronSchedule input in
                let w2 := called w1 (CallStart req) in
                match StartWorkflowExecution client (calls w1) req with
                | inl err =>
                    (Some (PrintableError "Failed to start failover workflow"
                             (Some err)), w2)
                | inr rid =>
                    (None,
                     Println
                       (Println (Println w2 "Failover workflow started")
                                ("wid: " ++ workflowID))
                       ("rid: " ++ rid))
                end
            end in
          if (drillWaitTime params >? 0)%Z then
            start (DrillWorkflowID n) (cron params) w
          else if (0 <? String.length (cron params))%nat then
            (Some (PrintableError
                     "The drill wait time is required when cron is specified."
                     None), w)
          else
            match executePauseOrResume n env client (DrillWorkflowID n)
                    true w with
            | (Some err, w1) =>
                if drillAbsent err
                then start workflowID EmptyString
                       (Println w1 drillPausedMessage)
                else
                  (Some (PrintableError
                           "Failed to send pase signal to drill workflow"
                           (Some err)), w1)
            | (None, w1) =>
                start workflowID EmptyString (Println w1 drillPausedMessage)
            end
      end end end
  end.

(** [AdminFailoverStart] *)
Definition AdminFailoverStart (n : Names) (env : Env) (client : Client)
    (w : World) : option cliError * World :=
  match flagTargetCluster env with
  | inl err => (Some (PrintableError "Flag not found: " (Some err)), w)
  | inr targetcluster =>
      match flagSourceCluster env with
      | inl err => (Some (PrintableError "Flag not found: " (Some err)), w)
      | inr sourcecluster =>
          failoverStart n env client
            {| targetCluster := targetcluster;
               sourceCluster := sourcecluster;
               batchFailoverSize := flagFailoverBatchSize env;
               batchFailoverWaitTimeInSeconds := flagFailoverWaitTime env;
               failoverTimeout := flagFailoverTimeout env;
               failoverWorkflowTimeout := flagExecutionTimeout env;
               domains := flagFailoverDomains env;
               drillWaitTime := flagFailoverDrillWaitTime env;
               cron := flagCronSchedule env |} w
      end
  end.

(** [AdminFailoverPause] and [AdminFailoverResume] *)
Definition AdminFailoverPause (n : Names) (env : Env) (client : Client)
    (w : World) : option cliError * World :=
  match executePauseOrResume n env client (getFailoverWorkflowID n env)
          true w with
  | (Some err, w1) =>
      (Some (PrintableError "Failed to pause failover workflow" (Some err)),
       w1)
  | (None, w1) =>
      (None,
       Println w1 ("Failover paused on " ++ getFailoverWorkflowID n env))
  end.

Definition AdminFailoverResume (n : Names) (env : Env) (client : Client)
    (w : World) : option cliError * World :=
  match executePauseOrResume n env client (getFailoverWorkflowID n env)
          false w with
  | (Some err, w1) =>
      (Some (PrintableError "Failed to resume failover workflow" (Some err)),
       w1)
  | (None, w1) =>
      (None,
       Println w1 ("Failover resumed on " ++ getFailoverWorkflowID n env))
  end.

(** [AdminFailoverRollback] *)
Definition AdminFailoverRollback (n : Names) (env : Env) (client : Client)
    (w : World) : option cliError * World :=
  match newContext env with
  | Some err =>
      (Some (PrintableError "Error creating new context: " (Some err)), w)
  | None =>
      let runID := getRunID env in
      match query n env client (FailoverWorkflowID n) runID w with
      | (inl err, w1) => (Some err, w1)
      | (inr queryResult, w1) =>
          let requery (w2 : World) :=
            match query n env client (FailoverWorkflowID n) runID w2 with
            | (inl err, w3) => (Some err, w3)
            | (inr queryResult', w3) =>
                let rollbackDomains :=
                  (SuccessDomains queryResult'
                   ++ FailedDomains queryResult')%list in
                failoverStart n env client
                  {| targetCluster := ResultSourceCluster queryResult';
                     sourceCluster := ResultTargetCluster queryResult';
                     domains := rollbackDomains;
                     batchFailoverSize := flagFailoverBatchSize env;
                     batchFailoverWaitTimeInSeconds :=
                       flagFailoverWaitTime env;
                     failoverTimeout := flagFailoverTimeout env;
                     failoverWorkflowTimeout := flagExecutionTimeout env;
                     drillWaitTime := 0;
                     cron := EmptyString |} w3
            end in
          if isWorkflowRunning n queryResult then
            let request :=
              {| TerminateDomain := SystemLocalDomainName n;
                 TerminateExecution :=
                   {| WorkflowID := FailoverWorkflowID n; RunID := runID |};
                 Reason := "Rollback";
                 TerminateIdentity := getCliIdentity env |} in
            let w2 := called w1 (CallTerminate request) in
            match TerminateWorkflowExecution client (calls w1) request with
            | Some err =>
                (Some (PrintableError "Failed to terminate failover workflow"
                         (Some err)), w2)
            | None => requery w2
            end
          else requery w1
      end
  end.

(** A command starts with no call made and nothing printed. *)
Definition freshWorld : World := {| calls := []; printed := [] |}.

(** The pause signal [failoverStart] sends to the drill workflow. *)
Definition drillPauseSignal (n : Names) (env : Env)
  : SignalWorkflowExecutionRequest :=
  {| SignalDomain := SystemLocalDomainName n;
     SignalExecution :=
       {| WorkflowID := DrillWorkflowID n; RunID := getRunID env |};
     SignalName := PauseSignal n;
     SignalIdentity := getCliIdentity env |}.

(** The workflow input [failoverStart] builds from validated parameters. *)
Definition failoverParamsOf (params : startParams) : FailoverParams :=
  {| TargetCluster := targetCluster params;
     SourceCluster := sourceCluster params;
     BatchFailoverSize := batchFailoverSize params;
     BatchFailoverWaitTimeInSeconds := batchFailoverWaitTimeInSeconds params;
     Domains := domains params;
     DrillWaitTime := wrap64 (drillWaitTime params * Second);
     GracefulFailoverTimeoutInSeconds :=
       if (failoverTimeout params >? 0)%Z
       then Some (toInt32 (failoverTimeout params)) else None |}.

(** The query [AdminFailoverRollback] sends, twice, and the termination
    it sends when the failover workflow is still running or paused. *)
Definition rollbackQuery (n : Names) (env : Env) : QueryWorkflowRequest :=
  {| QueryDomain := SystemLocalDomainName n;
     QueryExecution :=
       {| WorkflowID := FailoverWorkflowID n; RunID := getRunID env |};
     QueryTypeName := QueryType n |}.

Definition rollbackTerminate (n : Names) (env : Env)
  : TerminateWorkflowExecutionRequest :=
  {| TerminateDomain := SystemLocalDomainName n;
     TerminateExecution :=
       {| WorkflowID := FailoverWorkflowID n; RunID := getRunID env |};
     Reason := "Rollback";
     TerminateIdentity := getCliIdentity env |}.

(** What the frontend answered to a query, decoded. *)
Definition answered (env : Env) (client : Client) (history : list Call)
    (request : QueryWorkflowRequest) (queryResult : QueryResult) : Prop :=
  exists bytes,
    QueryWorkflow client history request = inr (Some bytes)
    /\ jsonUnmarshalResult env bytes = Some queryResult.

End Failover.

(** ** The shard and workflow commands of [admin_commands.go] *)

Module AdminCommands.

(** Errors: those handed over by a client, a store, a decoder or the
    renderer, the ones [commoncli.Problem] makes of a message and a cause,
    and [fmt.Errorf("...: %w", err)]. *)
#[warnings="-register-all"]
Inductive cliError : Type :=
| External (msg : string)
| Problem (msg : string) (cause : option cliError)
| Errorf (format : string) (wrapped : cliError).

Definition tableRenderSize : Z := 10.

Record ShardRow : Type := {
  ShardID : Z;
  Identity : string
}.

Record DescribeShardDistributionRequest : Type := {
  PageSize : Z;
  PageID : Z
}.

(** [types.DescribeShardDistributionResponse]; [Shards] is a map, given
    here as its entries in the order [range] visits them. *)
Record DescribeShardDistributionResponse : Type := {
  NumberOfShards : Z;
  Shards : list (Z * string)
}.

(** What the operator sees: printed text, a rendered table, and the
    prompt of [showNextPage]. *)
Inductive Output : Type :=
| Text (s : string)
| Table (rows : list ShardRow)
| Prompt.

(** The terminal: what was shown so far, the operator's coming answers to
    [showNextPage] and the outcome of each coming [Render] ([None] or no
    entry: it succeeds). *)
Record Terminal : Type := {
  shown : list Output;
  answers : list bool;
  renderFaults : list (option cliError)
}.

Definition Printf (t : Terminal) (s : string) : Terminal :=
  {| shown := shown t ++ [Text s]; answers := answers t;
     renderFaults := renderFaults t |}.

(** [Render(c, table, opts)] *)
Definition Render (t : Terminal) (table : list ShardRow)
  : option cliError * Terminal :=
  match renderFaults t with
  | Some err :: rest =>
      (Some err,
       {| shown := shown t; answers := answers t; renderFaults := rest |})
  | None :: rest =>
      (None,
       {| shown := shown t ++ [Table table]; answers := answers t;
          renderFaults := rest |})
  | [] =>
      (None,
       {| shown := shown t ++ [Table table]; answers := answers t;
          renderFaults := [] |})
  end.

(** [showNextPage()]: asks, and reads the answer; no answer is a no. *)
Definition showNextPage (t : Terminal) : bool * Terminal :=
  match answers t with
  | a :: rest =>
      (a, {| shown := shown t ++ [Prompt]; answers := rest;
             renderFaults := renderFaults t |})
  | [] =>
      (false, {| shown := shown t ++ [Prompt]; answers := [];
                 renderFaults := renderFaults t |})
  end.

(** [int32(x)] *)
Definition toInt32 (z : Z) : Z := ((z + 2 ^ 31) mod 2 ^ 32 - 2 ^ 31)%Z.

(** The loop [for shardID, identity := range resp.Shards] of
    [AdminDescribeShardDistribution].  It ends with the rows still to be
    rendered, or with the error it returns. *)
Fixpoint renderPages (entries : list (Z * string)) (table : list ShardRow)
    (outputPageSize : Z) (t : Terminal)
  : (cliError + list ShardRow) * Terminal :=
  match entries with
  | [] => (inr table, t)
  | (shardID, identity) :: rest =>
      let row := {| ShardID := shardID; Identity := identity |} in
      if (outputPageSize =? 0)%Z then
        match Render t table with
        | (Some err, t1) => (inl (Errorf "error rendering: %w" err), t1)
        | (None, t1) =>
            let (more, t2) := showNextPage t1 in
            if negb more then (inr [], t2)
            else renderPages rest [row] (tableRenderSize - 1) t2
        end
      else renderPages rest (table ++ [row]) (outputPageSize - 1) t
  end.

(** [AdminDescribeShardDistribution]: the two flags and the admin client's
    answer to the request are given. *)
Definition AdminDescribeShardDistribution (flagPageSize flagPageID : Z)
    (DescribeShardDistribution :
       DescribeShardDistributionRequest ->
       cliError + DescribeShardDistributionResponse)
    (t : Terminal) : option cliError * Terminal :=
  let req := {| PageSize := toInt32 flagPageSize;
                PageID := toInt32 flagPageID |} in
  match DescribeShardDistribution req with
  | inl err => (Some (Problem "Shard list failed" (Some err)), t)
  | inr resp =>
      let t1 :=
        Printf t ("Total Number of Shards: "
                  ++ show_int (NumberOfShards resp) ++ " " ++ nl) in
      let t2 :=
        Printf t1 ("Number of Shards Returned: "
                   ++ show_int (Z.of_nat (List.length (Shards resp)))
                   ++ " " ++ nl) in
      if (List.length (Shards resp) =? 0)%nat then (None, t2)
      else
        match renderPages (Shards resp) [] tableRenderSize t2 with
        | (inl err, t3) => (Some err, t3)
        | (inr table, t3) => Render t3 table
        end
  end.

(** The rows of a list of map entries, and pages as the operator sees
    them followed by the prompt. *)
Definition rowsOf (entries : list (Z * string)) : list ShardRow :=
  map (fun e => {| ShardID := fst e; Identity := snd e |}) entries.

Definition prompted (tables : list (list ShardRow)) : list Output :=
  flat_map (fun table => [Table table; Prompt]) tables.

(** The two lines every answer of the admin client is summed up in. *)
Definition summary (resp : DescribeShardDistributionResponse)
  : list Output :=
  [Text ("Total Number of Shards: "
         ++ show_int (NumberOfShards resp) ++ " " ++ nl);
   Text ("Number of Shards Returned: "
         ++ show_int (Z.of_nat (List.length (Shards resp)))
         ++ " " ++ nl)].

(** *** [AdminDeleteWorkflow] *)

(** [shared.HistoryBranch] as decoded from a branch token. *)
Record HistoryBranch : Type := {
  TreeID : string;
  BranchID : string
}.

(** [persistence.WorkflowMutableState] as read back from JSON: the
    execution info is behind a pointer, and so are the version histories,
    given by the branch tokens of their histories. *)
Record WorkflowExecutionInfo : Type := {
  DomainID : string;
  BranchToken : Token
}.

Record WorkflowMutableState : Type := {
  ExecutionInfo : option WorkflowExecutionInfo;
  VersionHistories : option (list Token)
}.

Record AdminDescribeWorkflowExecutionResponse : Type := {
  RespShardID : string;
  MutableStateInDatabase : string
}.

(** The calls made on the admin client and on the stores, oldest first. *)
Inductive Call : Type :=
| DescribeWorkflowExecution (domain wid rid : string)
| RemoteDeleteWorkflow (domain wid rid : string) (skipErrors : bool)
| DeleteHistoryBranch (branchToken : Token) (shardID : Z)
    (domainName : string)
| DeleteWorkflowExecution (domainID wid rid domainName : string)
| DeleteCurrentWorkflowExecution (domainID wid rid : string).

(** The server and the stores: the description of the execution, and the
    error, if any, of each other call, given the calls made before. *)
Record Backend : Type := {
  describe : cliError + AdminDescribeWorkflowExecutionResponse;
  answer : list Call -> Call -> option cliError
}.

(** [json.Unmarshal] into a mutable state, [strconv.Atoi], and the thrift
    decoder on a branch token. *)
Record Decoders : Type := {
  jsonUnmarshal : string -> cliError + WorkflowMutableState;
  Atoi : string -> cliError + Z;
  thriftDecode : Token -> cliError + HistoryBranch
}.

(** What the command prints: a text, a text followed by an error, or a
    pretty-printed branch. *)
Inductive Line : Type :=
| Plain (s : string)
| WithError (s : string) (err : cliError)
| Pretty (branch : HistoryBranch).

Record Deletion : Type := {
  calls : list Call;
  printed : list Line
}.

Definition call (w : Deletion) (c : Call) : Deletion :=
  {| calls := calls w ++ [c]; printed := printed w |}.

Definition Println (w : Deletion) (l : Line) : Deletion :=
  {| calls := calls w; printed := printed w ++ [l] |}.

(** A command returns, with or without an error, or panics. *)
Inductive Outcome : Type :=
| Returned (err : option cliError)
| Panicked.

(** [describeMutableState] *)
Definition describeMutableState (domain wid rid : string) (b : Backend)
    (w : Deletion)
  : (cliError + AdminDescribeWorkflowExecutionResponse) * Deletion :=
  let w' := call w (DescribeWorkflowExecution domain wid rid) in
  match describe b with
  | inl err =>
      (inl (Problem "Get workflow mutableState failed" (Some err)), w')
  | inr resp => (inr resp, w')
  end.

(** The loop [for _, branchToken := range branchTokens] of
    [AdminDeleteWorkflow]. *)
Fixpoint deleteBranches (domain : string) (shardIDInt : Z)
    (skipError : bool) (dec : Decoders) (b : Backend)
    (branchTokens : list Token) (w : Deletion)
  : option cliError * Deletion :=
  match branchTokens with
  | [] => (None, w)
  | branchToken :: rest =>
      match thriftDecode dec branchToken with
      | inl err => (Some (Problem "thriftrwEncoder.Decode err" (Some err)), w)
      | inr branchInfo =>
          let w1 :=
            Println (Println w (Plain "deleting history events for ..."))
                    (Pretty branchInfo) in
          let c := DeleteHistoryBranch branchToken shardIDInt domain in
          let w2 := call w1 c in
          match answer b (calls w1) c with
          | Some err =>
              if skipError then
                deleteBranches domain shardIDInt skipError dec b rest
                  (Println w2 (WithError "failed to delete history, " err))
              else
                (Some (Problem "DeleteHistoryBranch err" (Some err)), w2)
          | None =>
              deleteBranches domain shardIDInt skipError dec b rest w2
          end
      end
  end.

(** The branch tokens to delete: those of the version histories when the
    mutable state has them, else the one of the execution info. *)
Definition branchTokensOf (ms : WorkflowMutableState)
    (info : WorkflowExecutionInfo) : list Token :=
  match VersionHistories ms with
  | Some histories => histories
  | None => [BranchToken info]
  end.

(** [AdminDeleteWorkflow]: the flags are given. *)
Definition AdminDeleteWorkflow (domain wid rid : string)
    (remote skipError : bool) (dec : Decoders) (b : Backend) (w : Deletion)
  : Outcome * Deletion :=
  if remote then
    let c := RemoteDeleteWorkflow domain wid rid skipError in
    match answer b (calls w) c with
    | Some err =>
        (Returned
           (Some (Problem "Operation AdminMaintainCorruptWorkflow failed."
                    (Some err))), call w c)
    | None => (Returned None, call w c)
    end
  else
    match describeMutableState domain wid rid b w with
    | (inl err, w0) => (Returned (Some err), w0)
    | (inr resp, w0) =>
    match jsonUnmarshal dec (MutableStateInDatabase resp) with
    | inl err => (Returned (Some (Problem "json.Unmarshal err" (Some err))), w0)
    | inr ms =>
    match ExecutionInfo ms with
    | None => (Panicked, w0)
    | Some info =>
    let domainID := DomainID info in
    match Atoi dec (RespShardID resp) with
    | inl err =>
        (Returned (Some (Problem "strconv.Atoi(shardID) err" (Some err))), w0)
    | inr shardIDInt =>
    match deleteBranches domain shardIDInt skipError dec b
            (branchTokensOf ms info) w0 with
    | (Some err, w1) => (Returned (Some err), w1)
    | (None, w1) =>
        let deleteCurrent (w3 : Deletion) :=
          let c := DeleteCurrentWorkflowExecution domainID wid rid in
          let w4 := call w3 c in
          let done (w5 : Deletion) :=
            (Returned None,
             Println w5 (Plain "delete current row successfully")) in
          match answer b (calls w3) c with
          | Some err =>
              if skipError then
                done (Println w4 (WithError "delete current row failed, " err))
              else
                (Returned (Some (Problem "delete current row failed"
                                   (Some err))), w4)
          | None => done w4
          end in
        let c := DeleteWorkflowExecution domainID wid rid domain in
        let w2 := call w1 c in
        match answer b (calls w1) c with
        | Some err =>
            if skipError then
              deleteCurrent
                (Println
                   (Println w2
                      (WithError "delete mutableState row failed, " err))
                   (Plain "delete mutableState row successfully"))
            else
              (Returned (Some (Problem "delete mutableState row failed"
                                 (Some err))), w2)
        | None =>
            deleteCurrent
              (Println w2 (Plain "delete mutableState row successfully"))
        end
    end end end end end.

(** The calls of a deletion on the stores that goes all the way. *)
Definition allCalls (domain wid rid : string) (shardIDInt : Z)
    (ms : WorkflowMutableState) (info : WorkflowExecutionInfo)
  : list Call :=
  DescribeWorkflowExecution domain wid rid
  :: map (fun t => DeleteHistoryBranch t shardIDInt domain)
       (branchTokensOf ms info)
  ++ [DeleteWorkflowExecution (DomainID info) wid rid domain;
      DeleteCurrentWorkflowExecution (DomainID info) wid rid].

(** The mutable state can be read: it is described, unmarshals with its
    execution info, the shard id is a number and every branch token
    decodes. *)
Definition readable (dec : Decoders) (b : Backend)
    (ms : WorkflowMutableState) (info : WorkflowExecutionInfo)
    (shardIDInt : Z) : Prop :=
  exists resp,
    describe b = inr resp
    /\ jsonUnmarshal dec (MutableStateInDatabase resp) = inr ms
    /\ ExecutionInfo ms = Some info
    /\ Atoi dec (RespShardID resp) = inr shardIDInt
    /\ Forall (fun t => exists branch, thriftDecode dec t = inr branch)
         (branchTokensOf ms info).

(** Every call of a list, made in turn after the calls [history], is
    answered without error. *)
Fixpoint allAnswered (b : Backend) (history : list Call) (cs : list Call)
  : Prop :=
  match cs with
  | [] => True
  | c :: rest =>
      answer b history c = None /\ allAnswered b (history ++ [c]) rest
  end.

End AdminCommands.

(** ** Settings for the failover and admin commands *)

(** Names as the failover manager could define them, a command line
    without flags beyond the clusters, and a frontend on which the failover
    workflow is running until something else is asked of it. *)
Definition demoNames : Failover.Names :=
  {| Failover.SystemLocalDomainName := "cadence-system";
     Failover.FailoverWorkflowID := "failover-manager";
     Failover.DrillWorkflowID := "failover-manager-drill";
     Failover.PauseSignal := "pause";
     Failover.ResumeSignal := "resume";
     Failover.WorkflowRunning := "running";
     Failover.WorkflowPaused := "paused";
     Failover.QueryType := "state";
     Failover.TaskListName := "failover-tasklist";
     Failover.FailoverWorkflowTypeName := "failover-workflow";
     Failover.defaultDecisionTimeoutInSeconds := 10 |}.

Definition demoResult (state : string) : Failover.QueryResult :=
  {| Failover.State := state;
     Failover.ResultTargetCluster := "west";
     Failover.ResultSourceCluster := "east";
     Failover.SuccessDomains := ["d1"%string];
     Failover.FailedDomains := ["d2"%string] |}.

Definition demoEnv : Failover.Env :=
  {| Failover.flagRunID := None;
     Failover.flagFailoverDrill := false;
     Failover.flagTargetCluster := inr "west"%string;
     Failover.flagSourceCluster := inr "east"%string;
     Failover.flagFailoverBatchSize := 0;
     Failover.flagFailoverWaitTime := 5;
     Failover.flagFailoverTimeout := 0;
     Failover.flagExecutionTimeout := 0;
     Failover.flagFailoverDomains := ["d1"%string; "d2"%string];
     Failover.flagFailoverDrillWaitTime := 0;
     Failover.flagCronSchedule := EmptyString;
     Failover.newContext := None;
     Failover.userCurrent :=
       inr {| Failover.Name := "Ada"; Failover.Username := "ada" |};
     Failover.getCliIdentity := "cli";
     Failover.uuidNew := "uuid-1";
     Failover.getWorkflowMemo := fun operator => inr operator;
     Failover.jsonMarshalParams :=
       fun fo =>
         inr (Failover.SourceCluster fo ++ ">"
              ++ Failover.TargetCluster fo)%string;
     Failover.jsonUnmarshalResult := fun bytes => Some (demoResult bytes) |}.

Definition demoClient : Failover.Client :=
  {| Failover.SignalWorkflowExecution := fun _ _ => None;
     Failover.TerminateWorkflowExecution := fun _ _ => None;
     Failover.QueryWorkflow :=
       fun history _ =>
         inr (Some match history with
                   | [] => "running"%string
                   | _ :: _ => "aborted"%string
                   end);
     Failover.StartWorkflowExecution := fun _ _ => inr "run-1"%string |}.

(** The same frontend, refusing every signal. *)
Definition demoDownClient : Failover.Client :=
  {| Failover.SignalWorkflowExecution :=
       fun _ _ => Some (Failover.ServiceError "unavailable");
     Failover.TerminateWorkflowExecution := fun _ _ => None;
     Failover.QueryWorkflow :=
       Failover.QueryWorkflow demoClient;
     Failover.StartWorkflowExecution := fun _ _ => inr "run-1"%string |}.

(** A regular failover, a drill, and a regular failover with a cron
    schedule. *)
Definition demoParams : Failover.startParams :=
  {| Failover.targetCluster := "west";
     Failover.sourceCluster := "east";
     Failover.batchFailoverSize := 0;
     Failover.batchFailoverWaitTimeInSeconds := 5;
     Failover.failoverWorkflowTimeout := 0;
     Failover.failoverTimeout := 0;
     Failover.domains := ["d1"%string];
     Failover.drillWaitTime := 0;
     Failover.cron := EmptyString |}.

Definition demoDrillParams : Failover.startParams :=
  {| Failover.targetCluster := "west";
     Failover.sourceCluster := "east";
     Failover.batchFailoverSize := 0;
     Failover.batchFailoverWaitTimeInSeconds := 5;
     Failover.failoverWorkflowTimeout := 0;
     Failover.failoverTimeout := 0;
     Failover.domains := ["d1"%string];
     Failover.drillWaitTime := 60;
     Failover.cron := "0 * * * *" |}.

Definition demoCronParams : Failover.startParams :=
  {| Failover.targetCluster := "west";
     Failover.sourceCluster := "east";
     Failover.batchFailoverSize := 0;
     Failover.batchFailoverWaitTimeInSeconds := 5;
     Failover.failoverWorkflowTimeout := 0;
     Failover.failoverTimeout := 0;
     Failover.domains := ["d1"%string];
     Failover.drillWaitTime := 0;
     Failover.cron := "0 * * * *" |}.

(** Twelve shards on one host, and the admin client that returns them. *)
Definition demoShards : list (Z * string) :=
  map (fun i => (Z.of_nat i, "host-1"%string)) (seq 0 12).

Definition demoDistribution
  : AdminCommands.DescribeShardDistributionResponse :=
  {| AdminCommands.NumberOfShards := 16; AdminCommands.Shards := demoShards |}.

Definition demoDescribe (req : AdminCommands.DescribeShardDistributionRequest)
  : AdminCommands.cliError + AdminCommands.DescribeShardDistributionResponse :=
  inr demoDistribution.

(** An execution with two history branches on shard 7, and stores that
    fail to delete its mutable state row. *)
Definition demoInfo : AdminCommands.WorkflowExecutionInfo :=
  {| AdminCommands.DomainID := "domain-id";
     AdminCommands.BranchToken := [x01] |}.

Definition demoMutableState : AdminCommands.WorkflowMutableState :=
  {| AdminCommands.ExecutionInfo := Some demoInfo;
     AdminCommands.VersionHistories := Some [[x01]; [x02]] |}.

Definition demoDecoders : AdminCommands.Decoders :=
  {| AdminCommands.jsonUnmarshal := fun _ => inr demoMutableState;
     AdminCommands.Atoi := fun _ => inr 7%Z;
     AdminCommands.thriftDecode :=
       fun _ => inr {| AdminCommands.TreeID := "tree";
                       AdminCommands.BranchID := "branch" |} |}.

Definition rowGone : AdminCommands.cliError :=
  AdminCommands.External "row is gone".

Definition demoBackend : AdminCommands.Backend :=
  {| AdminCommands.describe :=
       inr {| AdminCommands.RespShardID := "7";
              AdminCommands.MutableStateInDatabase := "{}" |};
     AdminCommands.answer :=
       fun _ c =>
         match c with
         | AdminCommands.DeleteWorkflowExecution _ _ _ _ => Some rowGone
         | _ => None
         end |}.

(** The error of a renderer whose output is gone. *)
Definition brokenPipe : AdminCommands.cliError :=
  AdminCommands.External "broken pipe".

Definition freshDeletion : AdminCommands.Deletion :=
  {| AdminCommands.calls := []; AdminCommands.printed := [] |}.

(** A range context whose shard 2 has no store to open, and a full disk. *)
Definition noSuchShard : error := BackendError false "no such shard".

Definition demoClosedContext : Context :=
  {| initializeExecutionStore :=
       fun shardID =>
         if (shardID =? 2)%Z then inl noSuchShard
         else inr (storeOf (okPages (demoPagesOf shardID)));
     newContext := None |}.

Definition diskFull : error := BackendError false "no space left on device".

(** * Properties *)

Unset Implicit Arguments.

(** ** The invariant manager *)

Section ManagerFacts.

Variable Entity : Type.

Lemma runOne_fold (e : Entity) (ivs : list (Invariant Entity))
    (acc : ManagerCheckResult) :
  fold_left (runOne e) ivs acc =
  {| OverallType :=
       fold_left worst (map (fun iv => ResultType (iv e)) ivs)
                 (OverallType acc);
     CheckResults := CheckResults acc ++ map (fun iv => iv e) ivs |}.
Proof.
  revert acc.
  induction ivs as [|iv ivs IH]; intros [o rs]; cbn.
  - now rewrite app_nil_r.
  - rewrite IH. cbn. now rewrite <- app_assoc.
Qed.

Lemma RunChecks_results (ivs : list (Invariant Entity)) (e : Entity) :
  CheckResults (RunChecks ivs e) = map (fun iv => iv e) ivs.
Proof. unfold RunChecks. now rewrite runOne_fold. Qed.

Lemma RunChecks_overall (ivs : list (Invariant Entity)) (e : Entity) :
  OverallType (RunChecks ivs e) =
  fold_left worst (map (fun iv => ResultType (iv e)) ivs) Healthy.
Proof. unfold RunChecks. now rewrite runOne_fold. Qed.

End ManagerFacts.

Lemma worst_Failed_l (ts : list CheckResultType) :
  fold_left worst ts Failed = Failed.
Proof. induction ts as [|[] ts IH]; cbn; auto. Qed.

Lemma worst_fold_law (rs : list CheckResult) :
  fold_left worst (map ResultType rs) Healthy = aggregationLaw rs.
Proof.
  assert (C : forall rs, fold_left worst (map ResultType rs) Corrupted =
                         if existsb (isType Failed) rs then Failed
                         else Corrupted).
  { intros rs'. induction rs' as [|[[] n i] rs' IH]; cbn; auto.
    apply worst_Failed_l. }
  unfold aggregationLaw.
  induction rs as [|[[] n i] rs IH]; cbn; auto.
  apply worst_Failed_l.
Qed.

Lemma existsb_Permutation (A : Type) (f : A -> bool) (l l' : list A) :
  Permutation l l' -> existsb f l = existsb f l'.
Proof.
  induction 1; cbn; try congruence.
  - now destruct (f y), (f x).
Qed.

Lemma aggregationLaw_Permutation (rs rs' : list CheckResult) :
  Permutation rs rs' -> aggregationLaw rs = aggregationLaw rs'.
Proof.
  intros P. unfold aggregationLaw.
  now rewrite (existsb_Permutation _ (isType Failed) _ _ P),
              (existsb_Permutation _ (isType Corrupted) _ _ P).
Qed.

(** C3: [RunChecks] returns exactly one individual result per configured
    invariant, in the caller-supplied order, whatever the earlier invariants
    report; and the manager result [checkExecution] returns has one result
    per invariant factory. *)
Theorem RunChecks_one_result_per_invariant :
  forall (Entity : Type) (ivs : list (Invariant Entity)) (e : Entity),
    CheckResults (RunChecks ivs e) = map (fun iv => iv e) ivs
    /\ List.length (CheckResults (RunChecks ivs e)) = List.length ivs
    /\ forall shardOf retryPolicy c numberOfShards req
              (invariants : list (InvariantFactory Entity)) fetcher,
         match checkExecution shardOf retryPolicy c numberOfShards req
                 invariants fetcher with
         | inr (execution, r) =>
             exists pr,
               CheckResults r = map (fun fn => fn pr execution) invariants
         | inl _ => True
         end.
Proof.
  intros Entity ivs e. split; [apply RunChecks_results|]. split.
  - now rewrite RunChecks_results, length_map.
  - intros. unfold checkExecution.
    destruct (initializeExecutionStore _ _) as [err|em]; [exact I|].
    destruct (newContext c); [exact I|].
    destruct (fetcher _ req) as [err|execution]; [exact I|].
    eexists. rewrite RunChecks_results, map_map. reflexivity.
Qed.

(** C4: the overall status is Failed if any individual result is Failed,
    else Corrupted if any is Corrupted, else Healthy; permuting the
    invariant list leaves the overall status unchanged and permutes the
    detail list. *)
Theorem aggregation_order_independent :
  forall (Entity : Type) (ivs ivs' : list (Invariant Entity)) (e : Entity),
    Permutation ivs ivs' ->
    OverallType (RunChecks ivs e)
      = aggregationLaw (CheckResults (RunChecks ivs e))
    /\ OverallType (RunChecks ivs' e) = OverallType (RunChecks ivs e)
    /\ Permutation (CheckResults (RunChecks ivs e))
                   (CheckResults (RunChecks ivs' e)).
Proof.
  intros Entity ivs ivs' e P.
  assert (L : forall l : list (Invariant Entity),
             OverallType (RunChecks l e)
             = aggregationLaw (CheckResults (RunChecks l e))).
  { intros l. rewrite RunChecks_overall, RunChecks_results.
    rewrite <- worst_fold_law, map_map. reflexivity. }
  assert (PR : Permutation (CheckResults (RunChecks ivs e))
                           (CheckResults (RunChecks ivs' e))).
  { rewrite !RunChecks_results. now apply Permutation_map. }
  split; [apply L|]. split; [|exact PR].
  rewrite !L. symmetry. now apply aggregationLaw_Permutation.
Qed.

(** ** The paging iterator *)

Section PagingFacts.

Variable A : Type.
Variable fn : PaginationFn A.

Implicit Types it : PagingIterator A.

(** One unfolding of each loop. *)
Lemma HasNext_eq fuel it :
  HasNext (S fuel) fn it =
  match pageErr it with
  | Some _ => Some (true, it)
  | None =>
      match pageItems it with
      | _ :: _ => Some (true, it)
      | [] =>
          match pageToken it with
          | [] => Some (false, it)
          | _ :: _ => HasNext fuel fn (getNextPage fn it)
          end
      end
  end.
Proof. reflexivity. Qed.

Lemma drain_eq fuel it :
  drain (S fuel) fn it =
  match HasNext fuel fn it with
  | None => None
  | Some (false, _) => Some ([], None)
  | Some (true, it1) =>
      match Next fuel fn it1 with
      | None => None
      | Some (inl err, _) => Some ([], Some err)
      | Some (inr x, it2) =>
          match drain fuel fn it2 with
          | None => None
          | Some (xs, e) => Some (x :: xs, e)
          end
      end
  end.
Proof. reflexivity. Qed.

(** More fuel never changes an answer. *)
Lemma HasNext_S fuel it r :
  HasNext fuel fn it = Some r -> HasNext (S fuel) fn it = Some r.
Proof.
  revert it. induction fuel as [|fuel IH]; intros it H; [discriminate|].
  rewrite HasNext_eq in H. rewrite HasNext_eq.
  destruct (pageErr it); [exact H|].
  destruct (pageItems it); [|exact H].
  destruct (pageToken it); [exact H|].
  now apply IH.
Qed.

Lemma HasNext_mono fuel fuel' it r :
  HasNext fuel fn it = Some r -> fuel <= fuel' ->
  HasNext fuel' fn it = Some r.
Proof.
  intros H L. induction L; [exact H|]. now apply HasNext_S.
Qed.

(** Where [HasNext] stops, it stops again: the peek is idempotent. *)
Lemma HasNext_idem fuel it b it' :
  HasNext fuel fn it = Some (b, it') ->
  forall fuel', HasNext (S fuel') fn it' = Some (b, it').
Proof.
  revert it. induction fuel as [|fuel IH]; intros it H fuel'; [discriminate|].
  rewrite HasNext_eq in H.
  destruct (pageErr it) eqn:E.
  { injection H as <- <-. rewrite HasNext_eq. now rewrite E. }
  destruct (pageItems it) eqn:I.
  { destruct (pageToken it) eqn:T.
    - injection H as <- <-. rewrite HasNext_eq. now rewrite E, I, T.
    - eapply IH, H. }
  injection H as <- <-. rewrite HasNext_eq. now rewrite E, I.
Qed.

Lemma Next_mono fuel fuel' it r :
  Next fuel fn it = Some r -> fuel <= fuel' -> Next fuel' fn it = Some r.
Proof.
  unfold Next. intros H L.
  destruct (HasNext fuel fn it) as [[b it']|] eqn:E; [|discriminate].
  now rewrite (HasNext_mono _ _ _ _ E L).
Qed.

Lemma Next_after_HasNext fuel it b it' fuel' :
  HasNext fuel fn it = Some (b, it') ->
  Next (S fuel') fn it' = Next fuel fn it.
Proof.
  intros H. unfold Next. now rewrite H, (HasNext_idem _ _ _ _ H fuel').
Qed.

Lemma drain_S fuel it r :
  drain fuel fn it = Some r -> drain (S fuel) fn it = Some r.
Proof.
  revert it r. induction fuel as [|fuel IH]; intros it r H; [discriminate|].
  rewrite drain_eq in H. rewrite drain_eq.
  destruct (HasNext fuel fn it) as [[b it1]|] eqn:E; [|discriminate].
  rewrite (HasNext_S _ _ _ E).
  destruct b; [|exact H].
  destruct (Next fuel fn it1) as [[[err|x] it2]|] eqn:N; [| |discriminate].
  - now rewrite (Next_mono _ _ _ _ N (Nat.le_succ_diag_r fuel)).
  - rewrite (Next_mono _ _ _ _ N (Nat.le_succ_diag_r fuel)).
    destruct (drain fuel fn it2) as [[xs e]|] eqn:D; [|discriminate].
    now rewrite (IH _ _ D).
Qed.

Lemma drain_mono fuel fuel' it r :
  drain fuel fn it = Some r -> fuel <= fuel' -> drain fuel' fn it = Some r.
Proof.
  intros H L. induction L; [exact H|]. now apply drain_S.
Qed.

(** An empty buffer with a token left is refilled before anything else. *)
Lemma drain_refill fuel it r :
  pageErr it = None -> pageItems it = [] -> pageToken it <> [] ->
  drain fuel fn (getNextPage fn it) = Some r ->
  drain (S fuel) fn it = Some r.
Proof.
  intros E I T H.
  destruct fuel as [|fuel]; [discriminate|].
  rewrite drain_eq in H. rewrite drain_eq.
  assert (HN : HasNext (S fuel) fn it = HasNext fuel fn (getNextPage fn it)).
  { rewrite HasNext_eq, E, I.
    destruct (pageToken it); [congruence|reflexivity]. }
  rewrite HN.
  destruct (HasNext fuel fn (getNextPage fn it)) as [[b it1]|];
    [|discriminate].
  destruct b; [|exact H].
  destruct (Next fuel fn it1) as [[[err|x] it2]|] eqn:N; [| |discriminate].
  - now rewrite (Next_mono _ _ _ _ N (Nat.le_succ_diag_r fuel)).
  - rewrite (Next_mono _ _ _ _ N (Nat.le_succ_diag_r fuel)).
    destruct (drain fuel fn it2) as [[xs e]|] eqn:D; [|discriminate].
    now rewrite (drain_S _ _ _ D).
Qed.

(** A buffered item is handed out first. *)
Lemma drain_buffered fuel x buf tok r :
  drain fuel fn {| pageItems := buf; pageToken := tok; pageErr := None |}
    = Some r ->
  drain (S fuel) fn
    {| pageItems := x :: buf; pageToken := tok; pageErr := None |}
    = Some (x :: fst r, snd r).
Proof.
  intros H. destruct fuel as [|fuel]; [discriminate|].
  rewrite drain_eq, HasNext_eq. cbn [pageErr pageItems].
  unfold Next. rewrite HasNext_eq. cbn [pageErr pageItems pageToken].
  rewrite H. now destruct r.
Qed.

(** A pending fetch error is what the loop ends with. *)
Lemma drain_failed fuel buf tok err :
  2 <= fuel ->
  drain fuel fn {| pageItems := buf; pageToken := tok; pageErr := Some err |}
    = Some ([], Some err).
Proof.
  intros L. destruct fuel as [|[|fuel]]; [lia|lia|].
  rewrite drain_eq, HasNext_eq. cbn [pageErr].
  unfold Next. rewrite HasNext_eq. reflexivity.
Qed.

(** An empty token ends the sequence after the buffered items. *)
Lemma drain_last_page buf :
  forall fuel, 2 + List.length buf <= fuel ->
  drain fuel fn {| pageItems := buf; pageToken := []; pageErr := None |}
    = Some (buf, None).
Proof.
  induction buf as [|x buf IH]; intros fuel L.
  - destruct fuel as [|[|fuel]]; [cbn in L; lia|cbn in L; lia|].
    rewrite drain_eq, HasNext_eq. reflexivity.
  - destruct fuel as [|fuel]; [cbn in L; lia|].
    rewrite (drain_buffered _ _ _ _ (buf, None)); [reflexivity|].
    apply IH. cbn in L |- *. lia.
Qed.

(** What [drain] collects, [Next] hands out item by item, and [HasNext]
    tells whether something is left. *)
Lemma drain_cons fuel it x xs e :
  drain fuel fn it = Some (x :: xs, e) ->
  exists it1 it2,
    HasNext fuel fn it = Some (true, it1)
    /\ Next fuel fn it = Some (inr x, it2)
    /\ drain fuel fn it2 = Some (xs, e).
Proof.
  intros H. destruct fuel as [|fuel]; [discriminate|].
  pose proof H as H0. rewrite drain_eq in H.
  destruct (HasNext fuel fn it) as [[b it1]|] eqn:E; [|discriminate].
  destruct b; [|discriminate].
  destruct (Next fuel fn it1) as [[[err|y] it2]|] eqn:N; try discriminate.
  destruct (drain fuel fn it2) as [[ys e']|] eqn:D; [|discriminate].
  injection H as -> -> ->.
  exists it1, it2. split; [now apply HasNext_S|]. split.
  - destruct fuel as [|fuel]; [discriminate|].
    rewrite (Next_after_HasNext _ _ _ _ fuel E) in N.
    now apply (Next_mono _ _ _ _ N), Nat.le_succ_diag_r.
  - now apply drain_S.
Qed.

Lemma drain_nil fuel it :
  drain fuel fn it = Some ([], None) ->
  exists it1,
    HasNext fuel fn it = Some (false, it1)
    /\ Next fuel fn it = Some (inl ErrNoMoreItems, it1).
Proof.
  intros H. destruct fuel as [|fuel]; [discriminate|].
  rewrite drain_eq in H.
  destruct (HasNext fuel fn it) as [[b it1]|] eqn:E; [|discriminate].
  destruct b.
  - destruct (Next fuel fn it1) as [[[err|y] it2]|]; try discriminate.
    destruct (drain fuel fn it2) as [[ys e']|]; discriminate.
  - exists it1. split; [now apply HasNext_S|].
    unfold Next. now rewrite (HasNext_S _ _ _ E).
Qed.

Lemma drain_nextN fuel xs :
  forall it k,
    drain fuel fn it = Some (xs, None) -> k <= List.length xs ->
    exists it_k it',
      nextN k fuel fn it = Some (firstn k xs, it_k)
      /\ HasNext fuel fn it_k = Some (k <? List.length xs, it')
      /\ (k = List.length xs ->
          Next fuel fn it_k = Some (inl ErrNoMoreItems, it')).
Proof.
  induction xs as [|x xs IH]; intros it k D L.
  - assert (k = 0) by (cbn in L; lia). subst k.
    destruct (drain_nil _ _ D) as (it1 & H1 & N1).
    exists it, it1. cbn. auto.
  - destruct (drain_cons _ _ _ _ _ D) as (it1 & it2 & H1 & N1 & D2).
    destruct k as [|k].
    + exists it, it1. cbn. split; [reflexivity|]. split; [exact H1|].
      discriminate.
    + destruct (IH it2 k D2) as (it_k & it' & Hn & Hh & Hx);
        [cbn in L; lia|].
      exists it_k, it'. cbn [nextN firstn]. rewrite N1, Hn.
      split; [reflexivity|]. split.
      * exact Hh.
      * intros Hk. apply Hx. cbn in Hk. lia.
Qed.

End PagingFacts.

Section FiniteSource.

Variable A : Type.

Lemma tokenOf_length i : List.length (tokenOf i) = i.
Proof. apply repeat_length. Qed.

Lemma sourceOf_at (pre rest : list (Page A)) (p : Page A) :
  sourceOf (pre ++ p :: rest) (tokenOf (List.length pre)) =
  match p with
  | PageOk items =>
      inr (items,
           match rest with
           | [] => []
           | _ :: _ => tokenOf (S (List.length pre))
           end)
  | PageFail err => inl err
  end.
Proof.
  unfold sourceOf. rewrite tokenOf_length.
  rewrite nth_error_app2, Nat.sub_diag by lia. cbn [nth_error].
  destruct p as [items|err]; [|reflexivity].
  rewrite length_app. cbn [List.length].
  destruct rest as [|q rest].
  - cbn [List.length]. replace (S (List.length pre) <? List.length pre + 1)
      with false; [reflexivity|].
    symmetry. apply Nat.ltb_ge. lia.
  - cbn [List.length]. replace (S (List.length pre) <?
                                List.length pre + S (S (List.length rest)))
      with true; [reflexivity|].
    symmetry. apply Nat.ltb_lt. lia.
Qed.

Lemma delivered_okPages (pages : list (list A)) :
  delivered (okPages pages) = (List.concat pages, None).
Proof.
  induction pages as [|items pages IH]; [reflexivity|].
  cbn. unfold okPages in IH. now rewrite IH.
Qed.

Lemma fuelFor_okPages (pages : list (list A)) :
  fuelFor (okPages pages)
  = 2 + List.length pages + List.length (List.concat pages).
Proof.
  unfold fuelFor, okPages.
  induction pages as [|items pages IH]; [reflexivity|].
  cbn in *. unfold list_sum in *. rewrite length_app. lia.
Qed.

(** From any position of a finite source, the loop collects what is
    buffered and then what the remaining pages deliver. *)
Lemma drain_positioned (rest : list (Page A)) :
  forall (pre : list (Page A)) (buf : list A),
    (rest <> [] -> pre <> []) ->
    drain (2 + List.length buf + list_sum (map (@pageCost A) rest))
      (sourceOf (pre ++ rest)) (positioned (List.length pre) buf rest)
    = Some (buf ++ fst (delivered rest), snd (delivered rest)).
Proof.
  induction rest as [|p rest IH]; intros pre buf NE.
  - cbn [map list_sum delivered fst snd]. rewrite !app_nil_r.
    apply drain_last_page. lia.
  - assert (C : list_sum (map (@pageCost A) (p :: rest))
                = pageCost p + list_sum (map (@pageCost A) rest))
      by reflexivity.
    induction buf as [|x buf IHbuf].
    + assert (Hpre : tokenOf (List.length pre) <> []).
      { destruct pre; [now elim NE|discriminate]. }
      rewrite C. cbn [app].
      destruct p as [items|err].
      * replace (2 + List.length (@nil A)
                 + (pageCost (PageOk items)
                    + list_sum (map (@pageCost A) rest)))
          with (S (2 + List.length items
                   + list_sum (map (@pageCost A) rest)))
          by (cbn [pageCost List.length]; lia).
        apply drain_refill; try reflexivity; [exact Hpre|].
        unfold getNextPage, positioned at 1. cbn [pageToken].
        rewrite sourceOf_at.
        specialize (IH (pre ++ [PageOk items]) items).
        rewrite <- app_assoc, length_app in IH.
        cbn [app List.length] in IH.
        rewrite Nat.add_1_r in IH. unfold positioned in IH.
        transitivity (Some (items ++ fst (delivered rest),
                            snd (delivered rest))).
        { apply IH. intros _. now destruct pre. }
        cbn [delivered]. now destruct (delivered rest).
      * replace (2 + List.length (@nil A)
                 + (pageCost (@PageFail A err)
                    + list_sum (map (@pageCost A) rest)))
          with (S (2 + list_sum (map (@pageCost A) rest)))
          by (cbn [pageCost List.length]; lia).
        apply drain_refill; try reflexivity; [exact Hpre|].
        unfold getNextPage, positioned. cbn [pageToken].
        rewrite sourceOf_at. apply drain_failed. lia.
    + change (2 + List.length (x :: buf)
              + list_sum (map (@pageCost A) (p :: rest)))
        with (S (2 + List.length buf
                 + list_sum (map (@pageCost A) (p :: rest)))).
      unfold positioned in *.
      now rewrite (drain_buffered _ _ _ _ _ _ _ IHbuf).
Qed.

(** A fresh iterator over a finite source delivers the whole source. *)
Lemma drain_sourceOf (ps : list (Page A)) (fuel : nat) :
  fuelFor ps <= fuel ->
  drain fuel (sourceOf ps) (NewPagingIterator (sourceOf ps))
  = Some (delivered ps).
Proof.
  intros L. unfold NewPagingIterator, getNextPage. cbn [pageToken].
  destruct ps as [|[items|err] rest].
  - eapply drain_mono; [|exact L]. reflexivity.
  - pose proof (sourceOf_at [] rest (PageOk items)) as S0.
    cbn [app List.length] in S0. change (tokenOf 0) with (@nil byte) in S0.
    rewrite S0.
    pose proof (drain_positioned rest [PageOk items] items) as D.
    cbn [app List.length] in D. unfold positioned in D.
    cbn [delivered]. destruct (delivered rest) as [xs e].
    cbn [fst snd] in D.
    eapply drain_mono; [apply D; discriminate|].
    unfold fuelFor in L. cbn [map list_sum pageCost] in L.
    unfold list_sum in *. cbn [fold_right] in L. lia.
  - pose proof (sourceOf_at [] rest (PageFail err)) as S0.
    cbn [app List.length] in S0. change (tokenOf 0) with (@nil byte) in S0.
    rewrite S0. apply drain_failed. unfold fuelFor in L. lia.
Qed.

End FiniteSource.

(** C7: over a finite paged source of N items the iterator yields exactly
    these N items in order; after k successful calls of [Next], [HasNext]
    is true as long as k < N and false once the N-th item was consumed;
    [Next] after exhaustion fails with the no-more-items condition; and for
    any source, a page returned with an empty token is the last one. *)
Theorem paging_iterator_yields_every_item :
  forall (A : Type) (pages : list (list A)) (fuel : nat),
    fuelFor (okPages pages) <= fuel ->
    drain fuel (sourceOf (okPages pages))
      (NewPagingIterator (sourceOf (okPages pages)))
    = Some (List.concat pages, None)
    /\ (forall k, k <= List.length (List.concat pages) ->
        exists it_k it',
          nextN k fuel (sourceOf (okPages pages))
            (NewPagingIterator (sourceOf (okPages pages)))
          = Some (firstn k (List.concat pages), it_k)
          /\ HasNext fuel (sourceOf (okPages pages)) it_k
             = Some (k <? List.length (List.concat pages), it')
          /\ (k = List.length (List.concat pages) ->
              Next fuel (sourceOf (okPages pages)) it_k
              = Some (inl ErrNoMoreItems, it')))
    /\ (forall (g : PaginationFn A) (buf : list A),
        drain (fuel + List.length buf) g
          {| pageItems := buf; pageToken := []; pageErr := None |}
        = Some (buf, None)).
Proof.
  intros A pages fuel L.
  assert (D : drain fuel (sourceOf (okPages pages))
                (NewPagingIterator (sourceOf (okPages pages)))
              = Some (List.concat pages, None)).
  { rewrite drain_sourceOf by exact L. now rewrite delivered_okPages. }
  split; [exact D|]. split.
  - intros k Hk. now apply drain_nextN.
  - intros g buf. apply drain_last_page.
    unfold fuelFor in L. lia.
Qed.

(** ** The retry loop of the persistence retryer *)

Section RetryFacts.

Variable A : Type.
Variable p : RetryPolicy.
Variable v : A.

(** Transient failures are retried until the call succeeds. *)
Lemma attempt_succeeds (errs : list error) :
  forall n c,
    Forall (fun e => IsRetryable p e = true) errs -> List.length errs <= n ->
    attempt p n (flakyCall v) {| failures := errs; calls := c |}
    = (inr v, {| failures := []; calls := c + S (List.length errs) |}).
Proof.
  induction errs as [|e errs IH]; intros n c F L.
  - destruct n; cbn; f_equal; f_equal; lia.
  - inversion F as [|? ? Re F']; subst.
    destruct n as [|n]; [cbn in L; lia|].
    cbn [attempt flakyCall failures calls]. rewrite Re.
    rewrite IH by (auto; cbn in L; lia).
    cbn [List.length]. f_equal. f_equal. lia.
Qed.

(** When the attempts run out, the error of the last attempt is returned. *)
Lemma attempt_exhausted (n : nat) :
  forall errs c,
    Forall (fun e => IsRetryable p e = true) errs -> n < List.length errs ->
    exists e,
      nth_error errs n = Some e
      /\ attempt p n (flakyCall v) {| failures := errs; calls := c |}
         = (inl e, {| failures := skipn (S n) errs; calls := c + S n |}).
Proof.
  induction n as [|n IH]; intros errs c F L.
  - destruct errs as [|e errs]; [cbn in L; lia|].
    inversion F as [|? ? Re F']; subst.
    exists e. split; [reflexivity|].
    cbn [attempt flakyCall failures calls]. rewrite Re.
    cbn [skipn]. f_equal. f_equal. lia.
  - destruct errs as [|e errs]; [cbn in L; lia|].
    inversion F as [|? ? Re F']; subst.
    destruct (IH errs (S c) F') as (e' & Hn & Ha); [cbn in L; lia|].
    exists e'. split; [exact Hn|].
    cbn [attempt flakyCall failures calls]. rewrite Re, Ha.
    cbn [skipn]. f_equal. f_equal. lia.
Qed.

(** An error that is not retryable ends the call on the spot. *)
Lemma attempt_not_retryable (pre : list error) :
  forall n c e post,
    Forall (fun e => IsRetryable p e = true) pre -> IsRetryable p e = false ->
    List.length pre <= n ->
    attempt p n (flakyCall v)
      {| failures := pre ++ e :: post; calls := c |}
    = (inl e, {| failures := post; calls := c + S (List.length pre) |}).
Proof.
  induction pre as [|e0 pre IH]; intros n c e post F NR L.
  - destruct n; cbn [app attempt flakyCall failures calls]; rewrite NR;
      cbn [List.length]; f_equal; f_equal; lia.
  - inversion F as [|? ? Re F']; subst.
    destruct n as [|n]; [cbn in L; lia|].
    cbn [app attempt flakyCall failures calls]. rewrite Re.
    rewrite IH by (auto; cbn in L; lia).
    cbn [List.length]. f_equal. f_equal. lia.
Qed.

End RetryFacts.

(** C8: a call that fails transiently K times and then succeeds, wrapped
    with K below the maximum attempt count, succeeds after K+1 calls, that
    is K retries; with K at least the maximum attempt count it fails with
    the error of the last attempt, unchanged, after exactly that many
    calls; and an error classified as not retryable is returned without any
    further call. *)
Theorem retry_bounded_and_verbatim :
  forall (A : Type) (p : RetryPolicy) (v : A),
    (forall errs,
        Forall (fun e => IsRetryable p e = true) errs ->
        List.length errs < MaxAttempts p ->
        withRetry p (flakyCall v) {| failures := errs; calls := 0 |}
        = (inr v, {| failures := []; calls := S (List.length errs) |}))
    /\ (forall errs,
        Forall (fun e => IsRetryable p e = true) errs ->
        1 <= MaxAttempts p -> MaxAttempts p <= List.length errs ->
        exists e,
          nth_error errs (MaxAttempts p - 1) = Some e
          /\ withRetry p (flakyCall v) {| failures := errs; calls := 0 |}
             = (inl e, {| failures := skipn (MaxAttempts p) errs;
                          calls := MaxAttempts p |}))
    /\ (forall pre e post,
        Forall (fun e => IsRetryable p e = true) pre ->
        IsRetryable p e = false ->
        List.length pre < MaxAttempts p ->
        withRetry p (flakyCall v)
          {| failures := pre ++ e :: post; calls := 0 |}
        = (inl e, {| failures := post; calls := S (List.length pre) |})).
Proof.
  intros A p v. unfold withRetry. split; [|split].
  - intros errs F L.
    now rewrite (attempt_succeeds A p v errs _ 0 F) by lia.
  - intros errs F L1 L2.
    destruct (attempt_exhausted A p v (MaxAttempts p - 1) errs 0 F)
      as (e & Hn & Ha); [lia|].
    exists e. split; [exact Hn|]. rewrite Ha.
    replace (S (MaxAttempts p - 1)) with (MaxAttempts p) by lia.
    reflexivity.
  - intros pre e post F NR L.
    now rewrite (attempt_not_retryable A p v pre _ 0 e post F NR) by lia.
Qed.

(** ** The targeted scan: reading the input *)

(** Once the decoder holds an error that is not an end of input, the
    reading loop never leaves. *)
Lemma readInput_stuck (fuel : nat) :
  forall dec data err,
    decErr dec = Some err -> isEndOfInput err = false ->
    readInput fuel dec data = None.
Proof.
  induction fuel as [|fuel IH]; intros dec data err E NE; [reflexivity|].
  cbn [readInput]. unfold Decode. rewrite E, NE. now apply (IH _ _ err).
Qed.

Lemma readInput_malformed (fuel : nat) :
  forall pre msg post t data,
    readInput fuel
      {| pending := pre ++ ChunkMalformed msg :: post; truncated := t;
         decErr := None |} data
    = None.
Proof.
  induction fuel as [|fuel IH]; intros pre msg post t data; [reflexivity|].
  cbn [readInput]. unfold Decode. cbn [decErr pending truncated].
  destruct pre as [|[req|m|m] pre]; cbn [app isEndOfInput].
  - now apply (readInput_stuck _ _ _ (SyntaxError msg)).
  - apply IH.
  - apply IH.
  - now apply (readInput_stuck _ _ _ (SyntaxError m)).
Qed.

(** On an input without malformed bytes the loop ends and returns the
    well-formed requests in order, whether or not the input is truncated. *)
Lemma readInput_clean (input : list Chunk) :
  forall fuel t data,
    existsb isMalformed input = false ->
    List.length input < fuel ->
    readInput fuel {| pending := input; truncated := t; decErr := None |}
      data
    = Some (data ++ valuesOf input).
Proof.
  induction input as [|ch input IH]; intros fuel t data C L.
  - destruct fuel as [|fuel]; [cbn in L; lia|].
    cbn. rewrite app_nil_r. now destruct t.
  - destruct fuel as [|fuel]; [cbn in L; lia|].
    cbn [readInput]. unfold Decode. cbn [decErr pending truncated].
    destruct ch as [req|m|m]; cbn in C; [| |discriminate].
    + rewrite IH by (auto; cbn in L; lia).
      cbn [valuesOf]. now rewrite <- app_assoc.
    + cbn [isEndOfInput]. rewrite IH by (auto; cbn in L; lia).
      reflexivity.
Qed.

(** C2: on the three-line input whose second line is malformed the reading
    loop of [AdminDBScan] is still running after any number of steps: the
    syntax error stays in the decoder, is neither of the two errors the
    loop leaves on, and is returned by every later [Decode].  The same
    holds for every input with a malformed chunk, so the command never
    gets to scan anything. *)
Theorem readInput_never_ends_on_malformed_line :
  (forall fuel, readInput fuel threeLines [] = None)
  /\ (forall fuel pre msg post t,
        readInput fuel (NewDecoder (pre ++ ChunkMalformed msg :: post) t) []
        = None)
  /\ (forall (Entity : Type) shardOf retryPolicy
             (marshal : ScanOutputEntity Entity -> result string)
             c numberOfShards noInvariants iv invariants ef fuel con,
        AdminDBScan shardOf retryPolicy marshal fuel c numberOfShards
          noInvariants (iv :: invariants) ef threeLines con = None).
Proof.
  assert (G : forall fuel pre msg post t,
             readInput fuel
               (NewDecoder (pre ++ ChunkMalformed msg :: post) t) [] = None).
  { intros. apply readInput_malformed. }
  assert (T : forall fuel, readInput fuel threeLines [] = None).
  { intros fuel. apply (G fuel [ChunkValue reqA]). }
  split; [exact T|]. split; [exact G|].
  intros. unfold AdminDBScan. cbn [List.length Nat.ltb Nat.leb].
  now rewrite T.
Qed.

(** ** The targeted scan: checking the executions *)

Section TargetedFacts.

Variable Entity : Type.
Variable shardOf : string -> Z -> Z.
Variable retryPolicy : RetryPolicy.
Variable marshal : ScanOutputEntity Entity -> result string.
Variable c : Context.
Variable numberOfShards : Z.
Variable invariants : list (InvariantFactory Entity).
Variable ef : ExecutionFetcher Entity.

(** Scanning a list is scanning its front part, then its back part unless
    the front part returned an error. *)
Lemma scanExecutions_app (pre post : list ExecutionRequest) :
  forall con,
    scanExecutions shardOf retryPolicy marshal c numberOfShards invariants
      ef (pre ++ post) con =
    match scanExecutions shardOf retryPolicy marshal c numberOfShards
            invariants ef pre con with
    | (Some err, con') => (Some err, con')
    | (None, con') =>
        scanExecutions shardOf retryPolicy marshal c numberOfShards
          invariants ef post con'
    end.
Proof.
  induction pre as [|e pre IH]; intros con; [reflexivity|].
  cbn [app scanExecutions].
  destruct (checkExecution _ _ _ _ e _ _) as [err|[execution result]];
    [reflexivity|].
  destruct (marshal _); apply IH.
Qed.

(** Executions that can be checked never make the scan return an error. *)
Lemma scanExecutions_checked (pre : list ExecutionRequest) :
  forall con,
    Forall (fun x => checks shardOf retryPolicy c numberOfShards
                       invariants ef x = true) pre ->
    fst (scanExecutions shardOf retryPolicy marshal c numberOfShards
           invariants ef pre con) = None.
Proof.
  induction pre as [|e pre IH]; intros con F; [reflexivity|].
  inversion F as [|? ? He F']; subst.
  cbn [scanExecutions]. unfold checks in He.
  destruct (checkExecution _ _ _ _ e _ _) as [err|[execution result]];
    [discriminate|].
  destruct (marshal _); now apply IH.
Qed.

(** A failing fetch is what [checkExecution] returns, wrapped. *)
Lemma checkExecution_fetch_error req em ferr :
  initializeExecutionStore c (shardOf (ReqWorkflowID req) numberOfShards)
    = inr em ->
  newContext c = None ->
  ef {| execManager := em; policy := retryPolicy |} req = inl ferr ->
  checkExecution shardOf retryPolicy c numberOfShards req invariants ef
  = inl (PrintableError "Error in fetching context: " (Some ferr)).
Proof.
  intros HS HC HF. unfold checkExecution. now rewrite HS, HC, HF.
Qed.

End TargetedFacts.

(** C1, as the code has it: a fetch error while checking one execution
    ends the batch.  The records of the executions before it have been
    printed, [AdminDBScan]'s loop returns the fetch error wrapped twice, and
    the executions after it are not looked at.  Only an error of serializing
    a record is put on standard error and skipped, the loop going on with
    the next execution. *)
Theorem fetch_error_ends_batch :
  forall (Entity : Type) shardOf retryPolicy
         (marshal : ScanOutputEntity Entity -> result string)
         c numberOfShards invariants ef,
    (forall pre e post con em ferr,
        Forall (fun x => checks shardOf retryPolicy c numberOfShards
                           invariants ef x = true) pre ->
        initializeExecutionStore c
          (shardOf (ReqWorkflowID e) numberOfShards) = inr em ->
        newContext c = None ->
        ef {| execManager := em; policy := retryPolicy |} e = inl ferr ->
        fst (scanExecutions shardOf retryPolicy marshal c numberOfShards
               invariants ef pre con) = None
        /\ scanExecutions shardOf retryPolicy marshal c numberOfShards
             invariants ef (pre ++ e :: post) con
           = (Some (PrintableError "Error checking execution: "
                      (Some (PrintableError "Error in fetching context: "
                               (Some ferr)))),
              snd (scanExecutions shardOf retryPolicy marshal c
                     numberOfShards invariants ef pre con)))
    /\ (forall e rest con execution result merr,
        checkExecution shardOf retryPolicy c numberOfShards e invariants ef
          = inr (execution, result) ->
        marshal {| Execution := execution; Result := result |} = inl merr ->
        scanExecutions shardOf retryPolicy marshal c numberOfShards
          invariants ef (e :: rest) con
        = scanExecutions shardOf retryPolicy marshal c numberOfShards
            invariants ef rest (FprintlnStderr con merr)).
Proof.
  intros Entity shardOf retryPolicy marshal c numberOfShards invariants ef.
  split.
  - intros pre e post con em ferr F HS HC HF.
    pose proof (scanExecutions_checked Entity shardOf retryPolicy marshal c
                  numberOfShards invariants ef pre con F) as N.
    split; [exact N|].
    rewrite scanExecutions_app.
    destruct (scanExecutions _ _ _ _ _ _ _ pre con) as [[err|] con'];
      [discriminate|].
    cbn [scanExecutions snd].
    now rewrite (checkExecution_fetch_error Entity shardOf retryPolicy c
                   numberOfShards invariants ef e em ferr HS HC HF).
  - intros e rest con execution result merr HC HM.
    cbn [scanExecutions]. now rewrite HC, HM.
Qed.

(** ** The shard-range scan: one shard *)

Section SourceExt.

Variable A : Type.
Variables fn fn' : PaginationFn A.
Hypothesis same : forall token, fn token = fn' token.

(** The iterator only ever applies its source function. *)
Lemma getNextPage_ext it : getNextPage fn it = getNextPage fn' it.
Proof. unfold getNextPage. now rewrite same. Qed.

Lemma HasNext_ext fuel : forall it, HasNext fuel fn it = HasNext fuel fn' it.
Proof.
  induction fuel as [|fuel IH]; intros it; [reflexivity|].
  rewrite !HasNext_eq, getNextPage_ext. now rewrite IH.
Qed.

Lemma Next_ext fuel it : Next fuel fn it = Next fuel fn' it.
Proof. unfold Next. now rewrite HasNext_ext. Qed.

Lemma drain_ext fuel : forall it, drain fuel fn it = drain fuel fn' it.
Proof.
  induction fuel as [|fuel IH]; intros it; [reflexivity|].
  rewrite !drain_eq, HasNext_ext.
  destruct (HasNext fuel fn' it) as [[[|] it1]|]; try reflexivity.
  rewrite Next_ext.
  destruct (Next fuel fn' it1) as [[[err|x] it2]|]; try reflexivity.
  now rewrite IH.
Qed.

End SourceExt.

Lemma paginationFunc_storeOf ps token :
  paginationFunc (storeOf ps) token = sourceOf ps token.
Proof.
  unfold paginationFunc, storeOf. cbn.
  now destruct (sourceOf ps token) as [err|[items next]].
Qed.

(** The loop of [listExecutionsByShardID] handles what the iterator
    delivers, item by item. *)
Lemma scanLoop_drain fn shardID (fuel : nat) :
  forall it f d,
    drain fuel fn it = Some d ->
    scanLoop fuel fn shardID it f = Some (scanDelivered shardID d f).
Proof.
  induction fuel as [|fuel IH]; intros it f d D; [discriminate|].
  rewrite drain_eq in D. cbn [scanLoop].
  destruct (HasNext fuel fn it) as [[[|] it1]|]; [| |discriminate].
  - destruct (Next fuel fn it1) as [[[err|x] it2]|]; [| |discriminate].
    + now injection D as <-.
    + destruct (drain fuel fn it2) as [[xs e]|] eqn:D2; [|discriminate].
      injection D as <-.
      unfold scanDelivered. cbn [fst snd scanListed].
      destruct (scanExecution x f) as [[err|] f']; [reflexivity|].
      now rewrite (IH it2 f' (xs, e) D2).
  - now injection D as <-.
Qed.

(** A shard with a finite store: the scan handles what the store delivers. *)
Lemma listExecutionsByShardID_finite c shardID ps fuel f :
  initializeExecutionStore c shardID = inr (storeOf ps) ->
  fuelFor ps <= fuel ->
  listExecutionsByShardID fuel c shardID f
  = Some (scanDelivered shardID (delivered ps) f).
Proof.
  intros HS L. unfold listExecutionsByShardID. rewrite HS.
  apply scanLoop_drain.
  rewrite (drain_ext _ _ (sourceOf ps) (paginationFunc_storeOf ps)).
  unfold NewPagingIterator.
  rewrite (getNextPage_ext _ _ (sourceOf ps) (paginationFunc_storeOf ps)).
  now apply drain_sourceOf.
Qed.

(** With a file that accepts every call, the matches of a list are written
    and synced one after the other. *)
Lemma scanListed_no_fault (xs : list ListConcreteExecutionsEntity) :
  forall l,
    scanListed xs {| ops := l; faults := [] |}
    = (None, {| ops := l ++ linesOf xs; faults := [] |}).
Proof.
  induction xs as [|x xs IH]; intros l.
  - cbn. now rewrite app_nil_r.
  - cbn [scanListed]. unfold scanExecution, linesOf. cbn [flat_map].
    destruct (unsupported x) as [info|].
    + cbn. rewrite IH. unfold linesOf. now rewrite <- !app_assoc.
    + rewrite IH. reflexivity.
Qed.

(** The signature, spelled out. *)
Lemma unsupported_iff x info :
  unsupported x = Some info <->
  ExecutionInfo x = Some info /\ CloseStatus info = 0%Z
  /\ VersionHistoriesPtr x = None.
Proof.
  unfold unsupported. destruct x as [[i|] [vh|]]; cbn.
  - rewrite andb_false_r. split; [discriminate|]. now intros (_ & _ & ?).
  - rewrite andb_true_r. destruct (Z.eqb_spec (CloseStatus i) 0).
    + split.
      * intros [= ->]. auto.
      * now intros ([= ->] & _ & _).
    + split; [discriminate|]. intros ([= ->] & ? & _). contradiction.
  - split; [discriminate|]. now intros (? & _).
  - split; [discriminate|]. now intros (? & _).
Qed.

(** ** Messages name their shard *)






(** ** The shard-range scan: the range *)


Lemma shardsFrom_In (n : nat) :
  forall lo s, In s (shardsFrom lo n) <-> (lo <= s < lo + Z.of_nat n)%Z.
Proof.
  induction n as [|n IH]; intros lo s.
  - cbn. lia.
  - cbn [shardsFrom In]. rewrite IH. lia.
Qed.

Lemma shardRange_In lo hi s :
  In s (shardRange lo hi) <-> (lo <= s <= hi)%Z.
Proof. unfold shardRange. rewrite shardsFrom_In. lia. Qed.

Lemma shardRange_empty lo hi : (hi < lo)%Z -> shardRange lo hi = [].
Proof.
  intros L. unfold shardRange.
  replace (Z.to_nat (hi - lo + 1)) with 0 by lia. reflexivity.
Qed.


Section RangeFacts.

Variable c : Context.
Variable pagesOf : Z -> list (Page ListConcreteExecutionsEntity).
Variable hi : Z.
Hypothesis hi_small : (hi < int_max)%Z.

(** The shard loop over finite stores does what [scanShards] says. *)
Lemma shardLoop_finite (n : nat) :
  forall lo w fuel,
    n = Z.to_nat (hi - lo + 1) ->
    (forall s, (lo <= s <= hi)%Z ->
               initializeExecutionStore c s = inr (storeOf (pagesOf s))) ->
    rangeFuel pagesOf (shardsFrom lo n) <= fuel ->
    shardLoop fuel c lo hi w
    = Some (scanShards pagesOf (shardsFrom lo n) w).
Proof.
  induction n as [|n IH]; intros lo w fuel Hn HS L.
  - destruct fuel as [|fuel]; [unfold rangeFuel in L; lia|].
    cbn [shardLoop shardsFrom scanShards].
    destruct (Z.leb_spec lo hi); [lia|reflexivity].
  - destruct fuel as [|fuel]; [unfold rangeFuel in L; lia|].
    assert (C : rangeFuel pagesOf (shardsFrom lo (S n))
                = S (fuelFor (pagesOf lo))
                  + rangeFuel pagesOf (shardsFrom (lo + 1) n))
      by (unfold rangeFuel, list_sum; cbn [shardsFrom map fold_right]; lia).
    rewrite C in L.
    cbn [shardLoop shardsFrom scanShards].
    destruct (Z.leb_spec lo hi); [|lia].
    rewrite (listExecutionsByShardID_finite c lo (pagesOf lo))
      by (try apply HS; lia).
    destruct (scanDelivered lo (delivered (pagesOf lo)) (outputFile w))
      as [[err|] f]; [reflexivity|].
    replace (incr lo) with (lo + 1)%Z.
    + apply IH; [lia| |lia]. intros s Hs. apply HS. lia.
    + unfold incr. destruct (Z.eqb_spec lo int_max); [lia|reflexivity].
Qed.

(** The whole command over finite stores. *)
Lemma AdminDBScanUnsupportedWorkflow_finite lo file fuel :
  (forall s, (lo <= s <= hi)%Z ->
             initializeExecutionStore c s = inr (storeOf (pagesOf s))) ->
  rangeFuel pagesOf (shardRange lo hi) <= fuel ->
  AdminDBScanUnsupportedWorkflow fuel c (inr file) lo hi
  = Some (fst (scanShards pagesOf (shardRange lo hi)
                 {| outputFile := file; printed := [] |}),
          Some {| outputFile :=
                    Close (outputFile
                             (snd (scanShards pagesOf (shardRange lo hi)
                                     {| outputFile := file;
                                        printed := [] |})));
                  printed :=
                    printed (snd (scanShards pagesOf (shardRange lo hi)
                                    {| outputFile := file;
                                       printed := [] |})) |}).
Proof.
  intros HS L. unfold AdminDBScanUnsupportedWorkflow.
  rewrite (shardLoop_finite (Z.to_nat (hi - lo + 1))) by auto.
  fold (shardRange lo hi).
  now destruct (scanShards _ _ _) as [err w].
Qed.

(** Shards that can all be listed to their end, and a file that accepts
    every call: each shard's matches are written in turn. *)
Lemma scanShards_all_listed (shards : list Z) :
  forall l pr,
    (forall s, In s shards -> snd (delivered (pagesOf s)) = None) ->
    scanShards pagesOf shards
      {| outputFile := {| ops := l; faults := [] |}; printed := pr |}
    = (None,
       {| outputFile :=
            {| ops := l ++ flat_map
                            (fun s => linesOf (fst (delivered (pagesOf s))))
                            shards;
               faults := [] |};
          printed := pr ++ map completedMessage shards |}).
Proof.
  induction shards as [|s shards IH]; intros l pr OK.
  - cbn. now rewrite !app_nil_r.
  - cbn [scanShards outputFile printed]. unfold scanDelivered.
    rewrite scanListed_no_fault, (OK s) by now left.
    rewrite IH by (intros; apply OK; now right).
    cbn [flat_map map]. now rewrite <- !app_assoc.
Qed.


End RangeFacts.



Lemma writtenLines_app l1 l2 :
  writtenLines (l1 ++ l2) = (writtenLines l1 ++ writtenLines l2)%list.
Proof. unfold writtenLines. apply flat_map_app. Qed.

Lemma writtenLines_linesOf xs :
  writtenLines (linesOf xs) = map remediationLine (matchesOf xs).
Proof.
  induction xs as [|x xs IH]; [reflexivity|].
  unfold linesOf, matchesOf in *. cbn [flat_map].
  rewrite writtenLines_app, map_app, IH.
  now destruct (unsupported x).
Qed.

Lemma writtenLines_shards (f : Z -> list ListConcreteExecutionsEntity)
    (shards : list Z) :
  writtenLines (flat_map (fun s => linesOf (f s)) shards)
  = map remediationLine (flat_map (fun s => matchesOf (f s)) shards).
Proof.
  induction shards as [|s shards IH]; [reflexivity|].
  cbn [flat_map]. now rewrite writtenLines_app, map_app, IH,
                    writtenLines_linesOf.
Qed.

Lemma matchesOf_In xs info :
  In info (matchesOf xs) <-> exists x, In x xs /\ unsupported x = Some info.
Proof.
  unfold matchesOf. rewrite in_flat_map. split.
  - intros (x & Hx & Hi). exists x. split; [exact Hx|].
    destruct (unsupported x) as [i|]; [|contradiction].
    destruct Hi as [->|[]]. reflexivity.
  - intros (x & Hx & Hu). exists x. split; [exact Hx|].
    rewrite Hu. now left.
Qed.

(** Executions without metadata leave the file alone. *)
Lemma scanListed_hasInfo (xs : list ListConcreteExecutionsEntity) :
  forall f, scanListed xs f = scanListed (filter hasInfo xs) f.
Proof.
  induction xs as [|x xs IH]; intros f; [reflexivity|].
  cbn [filter]. unfold hasInfo at 1.
  destruct (ExecutionInfo x) as [info|] eqn:E; cbn [isNil negb].
  - cbn [scanListed].
    destruct (scanExecution x f) as [[err|] f']; [reflexivity|apply IH].
  - cbn [scanListed]. unfold scanExecution, unsupported. rewrite E.
    apply IH.
Qed.

(** C5: over error-free finite stores and a file that accepts every call,
    the scan of the shards [[lo, hi]] returns no error, and the lines it
    wrote are exactly the remediation commands of the listed executions
    that have metadata with close status 0 and no version histories, one
    line per such execution, built from its domain, workflow and run ids;
    other executions and shards without a match contribute nothing. *)
Theorem remediation_line_iff_signature :
  forall c (pages : Z -> list (list ListConcreteExecutionsEntity))
         lo hi fuel,
    (hi < int_max)%Z ->
    (forall s, (lo <= s <= hi)%Z ->
               initializeExecutionStore c s
               = inr (storeOf (okPages (pages s)))) ->
    rangeFuel (fun s => okPages (pages s)) (shardRange lo hi) <= fuel ->
    exists w,
      AdminDBScanUnsupportedWorkflow fuel c (inr freshFile) lo hi
      = Some (None, Some w)
      /\ writtenLines (ops (outputFile w))
         = map remediationLine
             (flat_map (fun s => matchesOf (List.concat (pages s)))
                       (shardRange lo hi))
      /\ forall line,
           In line (writtenLines (ops (outputFile w))) <->
           exists s x info,
             (lo <= s <= hi)%Z /\ In x (List.concat (pages s))
             /\ ExecutionInfo x = Some info
             /\ CloseStatus info = 0%Z
             /\ VersionHistoriesPtr x = None
             /\ line
                = ("cadence --address <host>:<port> --domain <"
                   ++ DomainID info ++ "> workflow reset --wid "
                   ++ WorkflowID info ++ " --rid " ++ RunID info
                   ++ " --reset_type LastDecisionCompleted"
                   ++ " --reason 'release 0.16 upgrade'" ++ nl)%string.
Proof.
  intros c pages lo hi fuel Hhi HS L.
  rewrite (AdminDBScanUnsupportedWorkflow_finite c
             (fun s => okPages (pages s)) hi Hhi lo freshFile fuel HS L).
  unfold freshFile.
  rewrite scanShards_all_listed
    by (intros; now rewrite delivered_okPages).
  cbn [fst snd outputFile printed app].
  eexists. split; [reflexivity|].
  cbn [outputFile Close ops].
  assert (W : writtenLines
                (flat_map (fun s => linesOf
                                      (fst (delivered (okPages (pages s)))))
                          (shardRange lo hi) ++ [OpClose])
              = map remediationLine
                  (flat_map (fun s => matchesOf (List.concat (pages s)))
                            (shardRange lo hi))).
  { rewrite writtenLines_app, app_nil_r.
    rewrite (writtenLines_shards
               (fun s => fst (delivered (okPages (pages s))))).
    f_equal. apply flat_map_ext. intros s.
    now rewrite delivered_okPages. }
  split; [exact W|].
  intros line. rewrite W, in_map_iff. split.
  - intros (info & <- & Hin). apply in_flat_map in Hin.
    destruct Hin as (s & Hs & Hm). apply matchesOf_In in Hm.
    destruct Hm as (x & Hx & Hu). apply unsupported_iff in Hu.
    destruct Hu as (Hi & Hc & Hv).
    exists s, x, info. apply shardRange_In in Hs.
    repeat split; try assumption; try lia.
  - intros (s & x & info & Hs & Hx & Hi & Hc & Hv & ->).
    exists info. split.
    + reflexivity.
    + apply in_flat_map. exists s. split; [now apply shardRange_In|].
      apply matchesOf_In. exists x. split; [exact Hx|].
      now apply unsupported_iff.
Qed.


(** C9, as the code has it: with the lower shard bound above the upper one
    the loop body never runs; the command visits no shard, writes nothing,
    closes the output file and returns no error. *)
Theorem empty_shard_range_completes :
  forall fuel c file lo hi,
    (hi < lo)%Z -> 1 <= fuel ->
    AdminDBScanUnsupportedWorkflow fuel c (inr file) lo hi
    = Some (None, Some {| outputFile := Close file; printed := [] |}).
Proof.
  intros fuel c file lo hi L F.
  destruct fuel as [|fuel]; [lia|].
  unfold AdminDBScanUnsupportedWorkflow. cbn [shardLoop].
  destruct (Z.leb_spec lo hi); [lia|reflexivity].
Qed.

(** C10: a listed execution without execution metadata changes nothing
    and raises no error, whether or not it has version histories; the scan
    of a shard is the scan of its executions that do have metadata, in
    order. *)
Theorem missing_execution_info_passed_over :
  forall c shardID (pages : list (list ListConcreteExecutionsEntity))
         fuel f,
    initializeExecutionStore c shardID = inr (storeOf (okPages pages)) ->
    fuelFor (okPages pages) <= fuel ->
    (forall x f', ExecutionInfo x = None -> scanExecution x f' = (None, f'))
    /\ listExecutionsByShardID fuel c shardID f
       = Some (scanListed (filter hasInfo (List.concat pages)) f).
Proof.
  intros c shardID pages fuel f HS L. split.
  - intros x f' E. unfold scanExecution, unsupported. now rewrite E.
  - rewrite (listExecutionsByShardID_finite c shardID (okPages pages))
      by assumption.
    rewrite delivered_okPages. unfold scanDelivered. cbn [fst snd].
    rewrite <- scanListed_hasInfo.
    now destruct (scanListed (List.concat pages) f) as [[err|] f'].
Qed.

(** ** The statements at concrete inputs *)

(** C1 fails as stated: with execution "A" unfetchable, the scan of
    ["A"; "B"] returns an error and prints nothing, although "B" alone is
    scanned and printed. *)
Lemma fetch_error_not_isolated :
  ~ fetchErrorsIsolated demoShardOf demoPolicy demoMarshal demoContext 1
      [demoInvariant "history" Healthy] demoFetcher [reqA; reqB].
Proof.
  intros H. destruct (H emptyConsole) as [H1 _].
  vm_compute in H1. discriminate.
Qed.

(** C9 fails as stated: with the bounds 2 and 1 the command returns no
    error. *)
Lemma invalid_range_not_rejected :
  ~ abortsWithError
      (AdminDBScanUnsupportedWorkflow 1 demoRangeContext (inr freshFile)
         2 1).
Proof.
  intros (err & w & H). vm_compute in H. discriminate.
Qed.

Lemma fetch_error_ends_batch_witness :
  scanExecutions demoShardOf demoPolicy demoMarshal demoContext 1
    [demoInvariant "history" Healthy] demoFetcher [reqB; reqA; reqB]
    emptyConsole
  = (Some (PrintableError "Error checking execution: "
             (Some (PrintableError "Error in fetching context: "
                      (Some notFoundError)))),
     {| stdout := ["B"%string]; stderr := [] |})
  /\ scanExecutions demoShardOf demoPolicy demoFailingMarshal demoContext 1
       [demoInvariant "history" Healthy] demoFetcher [reqB; reqB]
       emptyConsole
     = scanExecutions demoShardOf demoPolicy demoFailingMarshal demoContext
         1 [demoInvariant "history" Healthy] demoFetcher [reqB]
         (FprintlnStderr emptyConsole
            (PrintableError "json: unsupported value" None)).
Proof.
  split.
  - destruct (fetch_error_ends_batch string demoShardOf demoPolicy
                demoMarshal demoContext 1
                [demoInvariant "history" Healthy] demoFetcher) as [H _].
    destruct (H [reqB] reqA [reqB] emptyConsole (storeOf []) notFoundError)
      as [_ H2].
    + repeat constructor.
    + reflexivity.
    + reflexivity.
    + reflexivity.
    + exact H2.
  - destruct (fetch_error_ends_batch string demoShardOf demoPolicy
                demoFailingMarshal demoContext 1
                [demoInvariant "history" Healthy] demoFetcher) as [_ H].
    apply (H reqB [reqB] emptyConsole "B"%string
             (RunChecks [demoCheck "history" Healthy] "B"%string)
             (PrintableError "json: unsupported value" None)).
    + reflexivity.
    + reflexivity.
Defined.

Lemma aggregation_order_independent_witness :
  OverallType (RunChecks [demoCheck "a" Corrupted; demoCheck "b" Failed;
                          demoCheck "c" Healthy] "e"%string)
  = Failed
  /\ OverallType (RunChecks [demoCheck "c" Healthy; demoCheck "b" Failed;
                             demoCheck "a" Corrupted] "e"%string)
     = OverallType (RunChecks [demoCheck "a" Corrupted; demoCheck "b" Failed;
                               demoCheck "c" Healthy] "e"%string)
  /\ Permutation
       (CheckResults (RunChecks [demoCheck "a" Corrupted;
                                 demoCheck "b" Failed;
                                 demoCheck "c" Healthy] "e"%string))
       (CheckResults (RunChecks [demoCheck "c" Healthy;
                                 demoCheck "b" Failed;
                                 demoCheck "a" Corrupted] "e"%string)).
Proof.
  apply (aggregation_order_independent string
           [demoCheck "a" Corrupted; demoCheck "b" Failed;
            demoCheck "c" Healthy]
           [demoCheck "c" Healthy; demoCheck "b" Failed;
            demoCheck "a" Corrupted] "e"%string).
  apply Permutation_rev.
Defined.

Lemma paging_iterator_yields_every_item_witness :
  drain 10 (sourceOf (okPages [[1; 2]; []; [3]]))
    (NewPagingIterator (sourceOf (okPages [[1; 2]; []; [3]])))
  = Some ([1; 2; 3], None)
  /\ (exists it_k it',
        nextN 3 10 (sourceOf (okPages [[1; 2]; []; [3]]))
          (NewPagingIterator (sourceOf (okPages [[1; 2]; []; [3]])))
        = Some ([1; 2; 3], it_k)
        /\ HasNext 10 (sourceOf (okPages [[1; 2]; []; [3]])) it_k
           = Some (false, it')
        /\ Next 10 (sourceOf (okPages [[1; 2]; []; [3]])) it_k
           = Some (inl ErrNoMoreItems, it')).
Proof.
  destruct (paging_iterator_yields_every_item nat [[1; 2]; []; [3]] 10)
    as (H1 & H2 & _).
  - vm_compute. lia.
  - split; [exact H1|].
    destruct (H2 3) as (it_k & it' & Ha & Hb & Hc).
    + vm_compute. lia.
    + exists it_k, it'. split; [exact Ha|]. split; [exact Hb|].
      apply Hc. reflexivity.
Defined.

Lemma retry_bounded_and_verbatim_witness :
  withRetry demoPolicy (flakyCall 7)
    {| failures := [timeoutError; timeoutError]; calls := 0 |}
  = (inr 7, {| failures := []; calls := 3 |})
  /\ (exists e,
        nth_error [timeoutError; BackendError true "busy";
                   BackendError true "reset"; timeoutError] 2 = Some e
        /\ withRetry demoPolicy (flakyCall 7)
             {| failures := [timeoutError; BackendError true "busy";
                             BackendError true "reset"; timeoutError];
                calls := 0 |}
           = (inl e, {| failures := [timeoutError]; calls := 3 |}))
  /\ withRetry demoPolicy (flakyCall 7)
       {| failures := [timeoutError; notFoundError; timeoutError];
          calls := 0 |}
     = (inl notFoundError, {| failures := [timeoutError]; calls := 2 |}).
Proof.
  destruct (retry_bounded_and_verbatim nat demoPolicy 7) as (Ha & Hb & Hc).
  split; [|split].
  - apply (Ha [timeoutError; timeoutError]).
    + repeat constructor.
    + vm_compute. lia.
  - apply (Hb [timeoutError; BackendError true "busy";
               BackendError true "reset"; timeoutError]).
    + repeat constructor.
    + vm_compute. lia.
    + vm_compute. lia.
  - apply (Hc [timeoutError] notFoundError [timeoutError]).
    + repeat constructor.
    + reflexivity.
    + vm_compute. lia.
Defined.

Lemma remediation_line_iff_signature_witness :
  exists w,
    AdminDBScanUnsupportedWorkflow 20 demoRangeContext (inr freshFile) 0 2
    = Some (None, Some w)
    /\ writtenLines (ops (outputFile w))
       = [("cadence --address <host>:<port> --domain <d1> workflow reset"
           ++ " --wid wf1 --rid run1 --reset_type LastDecisionCompleted"
           ++ " --reason 'release 0.16 upgrade'" ++ nl)%string].
Proof.
  destruct (remediation_line_iff_signature demoRangeContext demoPagesOf
              0 2 20) as (w & H1 & H2 & _).
  - reflexivity.
  - intros s _. reflexivity.
  - vm_compute. lia.
  - exists w. split; [exact H1|]. rewrite H2. reflexivity.
Defined.


Lemma empty_shard_range_completes_witness :
  AdminDBScanUnsupportedWorkflow 1 demoRangeContext (inr freshFile) 2 1
  = Some (None,
          Some {| outputFile := {| ops := [OpClose]; faults := [] |};
                  printed := [] |}).
Proof.
  apply (empty_shard_range_completes 1 demoRangeContext freshFile 2 1).
  - reflexivity.
  - apply le_n.
Defined.

Lemma missing_execution_info_passed_over_witness :
  scanExecution bareExecution freshFile = (None, freshFile)
  /\ listExecutionsByShardID 10 demoRangeContext 1 freshFile
     = Some (scanListed [openExecution; closedExecution] freshFile).
Proof.
  destruct (missing_execution_info_passed_over demoRangeContext 1
              (demoPagesOf 1) 10 freshFile) as [H1 H2].
  - reflexivity.
  - vm_compute. lia.
  - split; [apply H1; reflexivity|exact H2].
Defined.

(** ** The failover commands *)

Lemma length_zero_iff (s : string) :
  (String.length s =? 0) = true <-> s = EmptyString.
Proof. destruct s; cbn; split; congruence. Qed.

(** What a successful validation tells and leaves behind. *)
Lemma validateStartParams_ok (p p' : Failover.startParams) :
  Failover.validateStartParams p = (None, p') ->
  Failover.targetCluster p <> EmptyString
  /\ Failover.sourceCluster p <> EmptyString
  /\ Failover.targetCluster p <> Failover.sourceCluster p
  /\ p' =
     {| Failover.targetCluster := Failover.targetCluster p;
        Failover.sourceCluster := Failover.sourceCluster p;
        Failover.batchFailoverSize :=
          if (Failover.batchFailoverSize p <=? 0)%Z
          then 20%Z else Failover.batchFailoverSize p;
        Failover.batchFailoverWaitTimeInSeconds :=
          if (Failover.batchFailoverWaitTimeInSeconds p <=? 0)%Z
          then 30%Z else Failover.batchFailoverWaitTimeInSeconds p;
        Failover.failoverWorkflowTimeout :=
          if (Failover.failoverWorkflowTimeout p <=? 0)%Z
          then 1200%Z else Failover.failoverWorkflowTimeout p;
        Failover.failoverTimeout := Failover.failoverTimeout p;
        Failover.domains := Failover.domains p;
        Failover.drillWaitTime := Failover.drillWaitTime p;
        Failover.cron := Failover.cron p |}.
Proof.
  unfold Failover.validateStartParams. intros H.
  destruct (String.length (Failover.targetCluster p) =? 0) eqn:T;
    [discriminate|].
  destruct (String.length (Failover.sourceCluster p) =? 0) eqn:S;
    [discriminate|].
  destruct (String.eqb_spec (Failover.targetCluster p)
              (Failover.sourceCluster p)) as [E|NE]; [discriminate|].
  split; [intros C; apply length_zero_iff in C; congruence|].
  split; [intros C; apply length_zero_iff in C; congruence|].
  split; [exact NE|].
  injection H as <-. destruct p as [t s b wt ft fo d dw cr]. cbn.
  destruct (b <=? 0)%Z; cbn; destruct (wt <=? 0)%Z; cbn;
    destruct (ft <=? 0)%Z; reflexivity.
Qed.

(** Validated parameters have a positive batch size and batch wait time
    and the clusters they came with. *)
Lemma validateStartParams_kept (p p' : Failover.startParams) :
  Failover.validateStartParams p = (None, p') ->
  (0 < Failover.batchFailoverSize p')%Z
  /\ (0 < Failover.batchFailoverWaitTimeInSeconds p')%Z
  /\ Failover.targetCluster p' = Failover.targetCluster p
  /\ Failover.sourceCluster p' = Failover.sourceCluster p.
Proof.
  intros V. destruct (validateStartParams_ok p p' V) as (_ & _ & _ & ->).
  cbn.
  destruct (Z.leb_spec (Failover.batchFailoverSize p) 0);
    destruct (Z.leb_spec (Failover.batchFailoverWaitTimeInSeconds p) 0);
    repeat split; lia.
Qed.

(** X1: [validateStartParams] returns an error exactly when the target
    cluster is empty, the source cluster is empty or the two are equal, and
    then leaves the parameters untouched; otherwise the batch size, the
    batch wait time and the workflow timeout come out positive, each kept
    when it was positive and replaced by its default (20, 30, 1200)
    otherwise, and no other field changes. *)
Theorem validateStartParams_sound :
  forall p : Failover.startParams,
    (fst (Failover.validateStartParams p) = None <->
     Failover.targetCluster p <> EmptyString
     /\ Failover.sourceCluster p <> EmptyString
     /\ Failover.targetCluster p <> Failover.sourceCluster p)
    /\ (fst (Failover.validateStartParams p) <> None ->
        snd (Failover.validateStartParams p) = p)
    /\ (fst (Failover.validateStartParams p) = None ->
        let p' := snd (Failover.validateStartParams p) in
        (0 < Failover.batchFailoverSize p')%Z
        /\ (0 < Failover.batchFailoverWaitTimeInSeconds p')%Z
        /\ (0 < Failover.failoverWorkflowTimeout p')%Z
        /\ Failover.batchFailoverSize p'
           = (if (0 <? Failover.batchFailoverSize p)%Z
              then Failover.batchFailoverSize p else 20%Z)
        /\ Failover.batchFailoverWaitTimeInSeconds p'
           = (if (0 <? Failover.batchFailoverWaitTimeInSeconds p)%Z
              then Failover.batchFailoverWaitTimeInSeconds p else 30%Z)
        /\ Failover.failoverWorkflowTimeout p'
           = (if (0 <? Failover.failoverWorkflowTimeout p)%Z
              then Failover.failoverWorkflowTimeout p else 1200%Z)
        /\ Failover.targetCluster p' = Failover.targetCluster p
        /\ Failover.sourceCluster p' = Failover.sourceCluster p
        /\ Failover.failoverTimeout p' = Failover.failoverTimeout p
        /\ Failover.domains p' = Failover.domains p
        /\ Failover.drillWaitTime p' = Failover.drillWaitTime p
        /\ Failover.cron p' = Failover.cron p).
Proof.
  intros p. split; [|split].
  - split.
    + intros H.
      destruct (Failover.validateStartParams p) as [e p'] eqn:V.
      cbn in H. subst e.
      destruct (validateStartParams_ok p p' V) as (A & B & C & _). auto.
    + intros (A & B & C). unfold Failover.validateStartParams.
      destruct (String.length (Failover.targetCluster p) =? 0) eqn:T;
        [apply length_zero_iff in T; contradiction|].
      destruct (String.length (Failover.sourceCluster p) =? 0) eqn:S;
        [apply length_zero_iff in S; contradiction|].
      destruct (String.eqb_spec (Failover.targetCluster p)
                  (Failover.sourceCluster p)); [contradiction|reflexivity].
  - unfold Failover.validateStartParams.
    destruct (String.length (Failover.targetCluster p) =? 0);
      [reflexivity|].
    destruct (String.length (Failover.sourceCluster p) =? 0);
      [reflexivity|].
    destruct (String.eqb (Failover.targetCluster p)
                (Failover.sourceCluster p)); [reflexivity|].
    cbn. congruence.
  - intros H.
    destruct (Failover.validateStartParams p) as [e p'] eqn:V.
    cbn in H. subst e. cbn [snd].
    destruct (validateStartParams_ok p p' V) as (_ & _ & _ & ->).
    cbn.
    destruct (Z.leb_spec (Failover.batchFailoverSize p) 0),
             (Z.ltb_spec 0 (Failover.batchFailoverSize p)); try lia;
    destruct (Z.leb_spec (Failover.batchFailoverWaitTimeInSeconds p) 0),
             (Z.ltb_spec 0 (Failover.batchFailoverWaitTimeInSeconds p));
      try lia;
    destruct (Z.leb_spec (Failover.failoverWorkflowTimeout p) 0),
             (Z.ltb_spec 0 (Failover.failoverWorkflowTimeout p));
      try lia; repeat split; lia.
Qed.

(** X2: validating parameters that already passed validation changes
    nothing and passes again. *)
Theorem validateStartParams_idempotent :
  forall p p' : Failover.startParams,
    Failover.validateStartParams p = (None, p') ->
    Failover.validateStartParams p' = (None, p').
Proof.
  intros p p' V.
  destruct (validateStartParams_ok p p' V) as (A & B & C & ->).
  unfold Failover.validateStartParams. cbn.
  destruct (String.length (Failover.targetCluster p) =? 0) eqn:T;
    [apply length_zero_iff in T; contradiction|].
  destruct (String.length (Failover.sourceCluster p) =? 0) eqn:S;
    [apply length_zero_iff in S; contradiction|].
  destruct (String.eqb_spec (Failover.targetCluster p)
              (Failover.sourceCluster p)); [contradiction|].
  unfold Failover.setBatchFailoverSize,
    Failover.setBatchFailoverWaitTimeInSeconds,
    Failover.setFailoverWorkflowTimeout. cbn.
  destruct (Z.leb_spec (Failover.batchFailoverSize p) 0) as [L1|L1];
    [|destruct (Z.leb_spec (Failover.batchFailoverSize p) 0); [lia|]];
    cbn;
    (destruct (Z.leb_spec (Failover.batchFailoverWaitTimeInSeconds p) 0)
       as [L2|L2];
     [|destruct (Z.leb_spec (Failover.batchFailoverWaitTimeInSeconds p) 0);
       [lia|]]);
    cbn;
    (destruct (Z.leb_spec (Failover.failoverWorkflowTimeout p) 0)
       as [L3|L3];
     [|destruct (Z.leb_spec (Failover.failoverWorkflowTimeout p) 0);
       [lia|]]);
    reflexivity.
Qed.

(** X3: [failoverStart] turns down, before any call to the frontend and
    before printing anything, parameters that fail validation and a
    regular failover (drill wait time not positive) that names a cron
    schedule. *)
Theorem failoverStart_rejects_before_any_call :
  forall n env client (p : Failover.startParams) w,
    fst (Failover.validateStartParams p) <> None
    \/ ((Failover.drillWaitTime p <= 0)%Z
        /\ Failover.cron p <> EmptyString) ->
    exists err, Failover.failoverStart n env client p w = (Some err, w).
Proof.
  intros n env client p w H. unfold Failover.failoverStart.
  destruct (Failover.validateStartParams p) as [[e|] p'] eqn:V;
    [eexists; reflexivity|].
  destruct H as [H|[D C]]; [now elim H|].
  destruct (validateStartParams_ok p p' V) as (_ & _ & _ & ->). cbn.
  destruct (Failover.newContext env); [eexists; reflexivity|].
  destruct (Failover.getOperator env); [eexists; reflexivity|].
  destruct (Failover.getWorkflowMemo env s); [eexists; reflexivity|].
  destruct (Z.gtb_spec (Failover.drillWaitTime p) 0); [lia|].
  destruct (Failover.cron p) as [|ch cr]; [now elim C|].
  cbn. eexists; reflexivity.
Qed.

(** X4: a drill (drill wait time positive) that succeeds has made one call
    only, the start of the drill workflow with the cron schedule of the
    parameters, without any pause signal; the line it prints after "wid: "
    is nevertheless the id of the regular failover workflow. *)
Theorem failoverStart_drill :
  forall n env client (p : Failover.startParams) w w',
    (0 < Failover.drillWaitTime p)%Z ->
    Failover.failoverStart n env client p w = (None, w') ->
    exists req rid,
      Failover.calls w' = Failover.calls w ++ [Failover.CallStart req]
      /\ Failover.StartWorkflowID req = Failover.DrillWorkflowID n
      /\ Failover.CronSchedule req = Failover.cron p
      /\ Failover.StartWorkflowExecution client (Failover.calls w) req
         = inr rid
      /\ Failover.printed w'
         = Failover.printed w
           ++ ["Failover workflow started";
               "wid: " ++ Failover.FailoverWorkflowID n;
               "rid: " ++ rid]%string.
Proof.
  intros n env client p w w' D H. unfold Failover.failoverStart in H.
  destruct (Failover.validateStartParams p) as [[e|] p'] eqn:V;
    [discriminate|].
  destruct (validateStartParams_ok p p' V) as (_ & _ & _ & ->).
  cbn in H.
  destruct (Failover.newContext env); [discriminate|].
  destruct (Failover.getOperator env); [discriminate|].
  destruct (Failover.getWorkflowMemo env s); [discriminate|].
  destruct (Z.gtb_spec (Failover.drillWaitTime p) 0); [|lia].
  destruct (Failover.jsonMarshalParams env _); [discriminate|].
  match type of H with
  | context [Failover.StartWorkflowExecution client _ ?r] =>
      destruct (Failover.StartWorkflowExecution client (Failover.calls w) r)
        as [err|rid] eqn:S; [discriminate|];
      exists r, rid
  end.
  injection H as <-. cbn. rewrite <- !app_assoc. auto.
Qed.

(** X5: a regular failover (drill wait time not positive) first sends the
    pause signal to the drill workflow.  When it succeeds, it has made two
    calls, that signal and then the start of the failover workflow without
    a cron schedule, and the signal either went through or failed because
    the drill workflow does not exist or has completed.  When the signal
    fails with any other error, the command returns that error wrapped and
    never sends the start. *)
Theorem failoverStart_regular_pauses_drill_first :
  forall n env client (p : Failover.startParams) w,
    (Failover.drillWaitTime p <= 0)%Z ->
    (forall w',
        Failover.failoverStart n env client p w = (None, w') ->
        exists req,
          Failover.calls w'
          = Failover.calls w
            ++ [Failover.CallSignal (Failover.drillPauseSignal n env);
                Failover.CallStart req]
          /\ Failover.StartWorkflowID req = Failover.FailoverWorkflowID n
          /\ Failover.CronSchedule req = EmptyString
          /\ match Failover.SignalWorkflowExecution client
                     (Failover.calls w) (Failover.drillPauseSignal n env)
             with
             | None => True
             | Some err => Failover.drillAbsent err = true
             end)
    /\ (forall err r w',
          Failover.SignalWorkflowExecution client (Failover.calls w)
            (Failover.drillPauseSignal n env) = Some err ->
          Failover.drillAbsent err = false ->
          Failover.failoverStart n env client p w = (r, w') ->
          r <> None
          /\ (Failover.calls w' = Failover.calls w
              \/ (r = Some (Failover.PrintableError
                              "Failed to send pase signal to drill workflow"
                              (Some err))
                  /\ Failover.calls w'
                     = Failover.calls w
                       ++ [Failover.CallSignal
                             (Failover.drillPauseSignal n env)]))).
Proof.
  intros n env client p w D. split.
  - intros w' H. unfold Failover.failoverStart in H.
    destruct (Failover.validateStartParams p) as [[e|] p'] eqn:V;
      [discriminate|].
    destruct (validateStartParams_ok p p' V) as (_ & _ & _ & ->).
    cbn in H.
    destruct (Failover.newContext env) eqn:NC; [discriminate|].
    destruct (Failover.getOperator env); [discriminate|].
    destruct (Failover.getWorkflowMemo env s); [discriminate|].
    destruct (Z.gtb_spec (Failover.drillWaitTime p) 0); [lia|].
    destruct (Failover.cron p) as [|ch cr]; [|discriminate].
    cbn in H. unfold Failover.executePauseOrResume in H.
    rewrite NC in H.
    fold (Failover.drillPauseSignal n env) in H.
    destruct (Failover.SignalWorkflowExecution client (Failover.calls w)
                (Failover.drillPauseSignal n env)) as [se|] eqn:SG.
    + destruct (Failover.drillAbsent se) eqn:DA; [|discriminate].
      destruct (Failover.jsonMarshalParams env _); [discriminate|].
      cbn in H.
      match type of H with
      | context [Failover.StartWorkflowExecution client ?h ?r] =>
          destruct (Failover.StartWorkflowExecution client h r);
            [discriminate|]; exists r
      end.
      injection H as <-. cbn. rewrite <- !app_assoc. auto.
    + destruct (Failover.jsonMarshalParams env _); [discriminate|].
      cbn in H.
      match type of H with
      | context [Failover.StartWorkflowExecution client ?h ?r] =>
          destruct (Failover.StartWorkflowExecution client h r);
            [discriminate|]; exists r
      end.
      injection H as <-. cbn. rewrite <- !app_assoc. auto.
  - intros err r w' SG DA H. unfold Failover.failoverStart in H.
    destruct (Failover.validateStartParams p) as [[e|] p'] eqn:V.
    { injection H as <- <-. split; [discriminate|now left]. }
    destruct (validateStartParams_ok p p' V) as (_ & _ & _ & ->).
    cbn in H.
    destruct (Failover.newContext env) eqn:NC.
    { injection H as <- <-. split; [discriminate|now left]. }
    destruct (Failover.getOperator env).
    { injection H as <- <-. split; [discriminate|now left]. }
    destruct (Failover.getWorkflowMemo env s).
    { injection H as <- <-. split; [discriminate|now left]. }
    destruct (Z.gtb_spec (Failover.drillWaitTime p) 0); [lia|].
    destruct (Failover.cron p) as [|ch cr].
    + cbn in H. unfold Failover.executePauseOrResume in H.
      rewrite NC in H. fold (Failover.drillPauseSignal n env) in H.
      rewrite SG, DA in H. injection H as <- <-.
      split; [discriminate|]. right. split; reflexivity.
    + cbn in H. injection H as <- <-. split; [discriminate|now left].
Qed.

(** X6: whatever [failoverStart] sends as a start request from a fresh
    command, its input is the serialization of parameters that passed
    validation: both clusters named and distinct, positive batch size and
    batch wait time, the drill wait time in nanoseconds, and a graceful
    failover timeout present exactly when the failover timeout is
    positive; the run timeout is the validated workflow timeout as an
    int32. *)
Theorem failoverStart_request_carries_validated_params :
  forall n env client (p : Failover.startParams) req,
    In (Failover.CallStart req)
       (Failover.calls
          (snd (Failover.failoverStart n env client p
                  Failover.freshWorld))) ->
    exists p',
      Failover.validateStartParams p = (None, p')
      /\ Failover.jsonMarshalParams env (Failover.failoverParamsOf p')
         = inr (Failover.Input req)
      /\ Failover.targetCluster p' <> EmptyString
      /\ Failover.sourceCluster p' <> EmptyString
      /\ Failover.targetCluster p' <> Failover.sourceCluster p'
      /\ (0 < Failover.batchFailoverSize p')%Z
      /\ (0 < Failover.batchFailoverWaitTimeInSeconds p')%Z
      /\ Failover.ExecutionStartToCloseTimeoutSeconds req
         = Failover.toInt32 (Failover.failoverWorkflowTimeout p')
      /\ Failover.StartDomain req = Failover.SystemLocalDomainName n.
Proof.
  intros n env client p req H. unfold Failover.failoverStart in H.
  destruct (Failover.validateStartParams p) as [[e|] p'] eqn:V;
    [contradiction|].
  exists p'. split; [reflexivity|].
  destruct (validateStartParams_kept p p' V) as (B & W & T & SC).
  destruct (validateStartParams_ok p p' V) as (A1 & A2 & A3 & _).
  cbn [snd] in T, SC, B, W.
  assert (G : forall w1 wid cr,
             ~ In (Failover.CallStart req) (Failover.calls w1) ->
             forall r w2,
               (match Failover.jsonMarshalParams env
                        (Failover.failoverParamsOf p') with
                | inl err => (Some (Failover.PrintableError
                                      "Failed to serialize Failover Params"
                                      (Some err)), w1)
                | inr input =>
                    let rq :=
                      {| Failover.StartDomain :=
                           Failover.SystemLocalDomainName n;
                         Failover.RequestID := Failover.uuidNew env;
                         Failover.StartWorkflowID := wid;
                         Failover.StartTaskList := Failover.TaskListName n;
                         Failover.ExecutionStartToCloseTimeoutSeconds :=
                           Failover.toInt32
                             (Failover.failoverWorkflowTimeout p');
                         Failover.TaskStartToCloseTimeoutSeconds :=
                           Failover.defaultDecisionTimeoutInSeconds n;
                         Failover.Memo := r;
                         Failover.WorkflowTypeName :=
                           Failover.FailoverWorkflowTypeName n;
                         Failover.CronSchedule := cr;
                         Failover.Input := input |} in
                    match Failover.StartWorkflowExecution client
                            (Failover.calls w1) rq with
                    | inl err =>
                        (Some (Failover.PrintableError
                                 "Failed to start failover workflow"
                                 (Some err)),
                         Failover.called w1 (Failover.CallStart rq))
                    | inr rid =>
                        (None,
                         Failover.Println
                           (Failover.Println
                              (Failover.Println
                                 (Failover.called w1 (Failover.CallStart rq))
                                 "Failover workflow started")
                              ("wid: " ++ Failover.FailoverWorkflowID n))
                           ("rid: " ++ rid))
                    end
                end) = w2 ->
               In (Failover.CallStart req) (Failover.calls (snd w2)) ->
               Failover.jsonMarshalParams env (Failover.failoverParamsOf p')
               = inr (Failover.Input req)
               /\ Failover.ExecutionStartToCloseTimeoutSeconds req
                  = Failover.toInt32 (Failover.failoverWorkflowTimeout p')
               /\ Failover.StartDomain req
                  = Failover.SystemLocalDomainName n).
  { intros w1 wid cr NI r w2 E I.
    destruct (Failover.jsonMarshalParams env _) as [me|input];
      [subst w2; contradiction|].
    cbn zeta in E.
    destruct (Failover.StartWorkflowExecution client _ _); subst w2;
      cbn in I; apply in_app_or in I;
      destruct I as [I|[I|[]]]; try contradiction;
      injection I as <-; cbn; auto. }
  cbn zeta in H.
  destruct (Failover.newContext env) eqn:NC; [contradiction|].
  destruct (Failover.getOperator env); [contradiction|].
  destruct (Failover.getWorkflowMemo env s) as [|memo]; [contradiction|].
  assert (R : Failover.jsonMarshalParams env (Failover.failoverParamsOf p')
              = inr (Failover.Input req)
              /\ Failover.ExecutionStartToCloseTimeoutSeconds req
                 = Failover.toInt32 (Failover.failoverWorkflowTimeout p')
              /\ Failover.StartDomain req
                 = Failover.SystemLocalDomainName n).
  { destruct (Failover.drillWaitTime p' >? 0)%Z.
    - eapply (G Failover.freshWorld); [intros []| reflexivity | exact H].
    - destruct (0 <? String.length (Failover.cron p')); [contradiction|].
      unfold Failover.executePauseOrResume in H. rewrite NC in H.
      destruct (Failover.SignalWorkflowExecution client _ _) as [se|].
      + destruct (Failover.drillAbsent se).
        * eapply G; [|reflexivity|exact H].
          cbn. intros [C|[]]. discriminate.
        * cbn in H. destruct H as [C|[]]. discriminate.
      + eapply G; [|reflexivity|exact H].
        cbn. intros [C|[]]. discriminate. }
  destruct R as (R1 & R2 & R3).
  repeat split; try assumption; congruence.
Qed.

(** A regular failover that succeeds: the two calls and the input. *)
Lemma failoverStart_regular_success n env client
    (p : Failover.startParams) w w' :
  (Failover.drillWaitTime p <= 0)%Z ->
  Failover.failoverStart n env client p w = (None, w') ->
  exists p' req,
    Failover.validateStartParams p = (None, p')
    /\ Failover.calls w'
       = Failover.calls w
         ++ [Failover.CallSignal (Failover.drillPauseSignal n env);
             Failover.CallStart req]
    /\ Failover.StartWorkflowID req = Failover.FailoverWorkflowID n
    /\ Failover.jsonMarshalParams env (Failover.failoverParamsOf p')
       = inr (Failover.Input req).
Proof.
  intros D H. unfold Failover.failoverStart in H.
  destruct (Failover.validateStartParams p) as [[e|] p'] eqn:V;
    [discriminate|].
  exists p'.
  assert (D' : Failover.drillWaitTime p' = Failover.drillWaitTime p).
  { now destruct (validateStartParams_ok p p' V) as (_ & _ & _ & ->). }
  cbn zeta in H.
  destruct (Failover.newContext env) eqn:NC; [discriminate|].
  destruct (Failover.getOperator env); [discriminate|].
  destruct (Failover.getWorkflowMemo env s); [discriminate|].
  destruct (Z.gtb_spec (Failover.drillWaitTime p') 0); [lia|].
  destruct (0 <? String.length (Failover.cron p')); [discriminate|].
  unfold Failover.executePauseOrResume in H. rewrite NC in H.
  fold (Failover.drillPauseSignal n env) in H.
  fold (Failover.failoverParamsOf p') in H.
  destruct (Failover.SignalWorkflowExecution client (Failover.calls w)
              (Failover.drillPauseSignal n env)) as [se|].
  - destruct (Failover.drillAbsent se); [|discriminate].
    destruct (Failover.jsonMarshalParams env _) eqn:M; [discriminate|].
    match type of H with
    | context [Failover.StartWorkflowExecution client ?h ?r] =>
        destruct (Failover.StartWorkflowExecution client h r);
          [discriminate|]; exists r
    end.
    injection H as <-. cbn. rewrite <- !app_assoc. auto.
  - destruct (Failover.jsonMarshalParams env _) eqn:M; [discriminate|].
    match type of H with
    | context [Failover.StartWorkflowExecution client ?h ?r] =>
        destruct (Failover.StartWorkflowExecution client h r);
          [discriminate|]; exists r
    end.
    injection H as <-. cbn. rewrite <- !app_assoc. auto.
Qed.

(** [failoverStart] only ever signals and starts. *)
Lemma failoverStart_calls n env client (p : Failover.startParams) w :
  exists new,
    Failover.calls (snd (Failover.failoverStart n env client p w))
    = Failover.calls w ++ new
    /\ forall t, ~ In (Failover.CallTerminate t) new.
Proof.
  unfold Failover.failoverStart.
  destruct (Failover.validateStartParams p) as [[e|] p'];
    [exists []; cbn; rewrite app_nil_r; auto|].
  cbn zeta.
  destruct (Failover.newContext env) eqn:NC;
    [exists []; cbn; rewrite app_nil_r; auto|].
  destruct (Failover.getOperator env);
    [exists []; cbn; rewrite app_nil_r; auto|].
  destruct (Failover.getWorkflowMemo env s);
    [exists []; cbn; rewrite app_nil_r; auto|].
  assert (G : forall w1 wid cr new1,
             Failover.calls w1 = Failover.calls w ++ new1 ->
             (forall t, ~ In (Failover.CallTerminate t) new1) ->
             forall X,
               X = (match Failover.jsonMarshalParams env
                            (Failover.failoverParamsOf p') with
                    | inl err =>
                        (Some (Failover.PrintableError
                                 "Failed to serialize Failover Params"
                                 (Some err)), w1)
                    | inr input =>
                        let rq :=
                          {| Failover.StartDomain :=
                               Failover.SystemLocalDomainName n;
                             Failover.RequestID := Failover.uuidNew env;
                             Failover.StartWorkflowID := wid;
                             Failover.StartTaskList :=
                               Failover.TaskListName n;
                             Failover.ExecutionStartToCloseTimeoutSeconds :=
                               Failover.toInt32
                                 (Failover.failoverWorkflowTimeout p');
                             Failover.TaskStartToCloseTimeoutSeconds :=
                               Failover.defaultDecisionTimeoutInSeconds n;
                             Failover.Memo := s0;
                             Failover.WorkflowTypeName :=
                               Failover.FailoverWorkflowTypeName n;
                             Failover.CronSchedule := cr;
                             Failover.Input := input |} in
                        match Failover.StartWorkflowExecution client
                                (Failover.calls w1) rq with
                        | inl err =>
                            (Some (Failover.PrintableError
                                     "Failed to start failover workflow"
                                     (Some err)),
                             Failover.called w1 (Failover.CallStart rq))
                        | inr rid =>
                            (None,
                             Failover.Println
                               (Failover.Println
                                  (Failover.Println
                                     (Failover.called w1
                                        (Failover.CallStart rq))
                                     "Failover workflow started")
                                  ("wid: " ++ Failover.FailoverWorkflowID n))
                               ("rid: " ++ rid))
                        end
                    end) ->
               exists new,
                 Failover.calls (snd X) = Failover.calls w ++ new
                 /\ forall t, ~ In (Failover.CallTerminate t) new).
  { intros w1 wid cr new1 E NT X ->.
    destruct (Failover.jsonMarshalParams env _); [exists new1; auto|].
    cbn zeta.
    destruct (Failover.StartWorkflowExecution client _ _); cbn;
      rewrite E, <- app_assoc; eexists; (split; [reflexivity|]);
      intros t I; apply in_app_or in I;
      destruct I as [I|[I|[]]]; try discriminate; now apply (NT t). }
  destruct (Failover.drillWaitTime p' >? 0)%Z.
  - eapply (G w _ _ []); [now rewrite app_nil_r|auto|reflexivity].
  - destruct (0 <? String.length (Failover.cron p'));
      [exists []; cbn; rewrite app_nil_r; auto|].
    unfold Failover.executePauseOrResume. rewrite NC.
    assert (NS : forall t,
               ~ In (Failover.CallTerminate t)
                    [Failover.CallSignal (Failover.drillPauseSignal n env)]).
    { intros t [C|[]]. discriminate. }
    destruct (Failover.SignalWorkflowExecution client _ _) as [se|].
    + destruct (Failover.drillAbsent se).
      * eapply G; [|exact NS|reflexivity]. reflexivity.
      * eexists. split; [reflexivity|exact NS].
    + eapply G; [|exact NS|reflexivity]. reflexivity.
Qed.

(** X7: a rollback that succeeds queried the failover workflow a last
    time, paused the drill and started a new failover whose target cluster
    is the source cluster that last query reported, whose source cluster is
    the reported target cluster, and whose domains are the reported
    succeeded domains followed by the failed ones. *)
Theorem rollback_swaps_clusters :
  forall n env client w w',
    Failover.AdminFailoverRollback n env client w = (None, w') ->
    exists history queryResult req fo,
      Failover.calls w'
      = history
        ++ [Failover.CallQuery (Failover.rollbackQuery n env);
            Failover.CallSignal (Failover.drillPauseSignal n env);
            Failover.CallStart req]
      /\ Failover.answered env client history
           (Failover.rollbackQuery n env) queryResult
      /\ Failover.jsonMarshalParams env fo = inr (Failover.Input req)
      /\ Failover.StartWorkflowID req = Failover.FailoverWorkflowID n
      /\ Failover.TargetCluster fo
         = Failover.ResultSourceCluster queryResult
      /\ Failover.SourceCluster fo
         = Failover.ResultTargetCluster queryResult
      /\ Failover.Domains fo
         = (Failover.SuccessDomains queryResult
            ++ Failover.FailedDomains queryResult)%list.
Proof.
  intros n env client w w' H. unfold Failover.AdminFailoverRollback in H.
  destruct (Failover.newContext env); [discriminate|].
  assert (R : forall w2 X,
             X = (match Failover.query n env client
                          (Failover.FailoverWorkflowID n)
                          (Failover.getRunID env) w2 with
                  | (inl err, w3) => (Some err, w3)
                  | (inr queryResult', w3) =>
                      Failover.failoverStart n env client
                        {| Failover.targetCluster :=
                             Failover.ResultSourceCluster queryResult';
                           Failover.sourceCluster :=
                             Failover.ResultTargetCluster queryResult';
                           Failover.domains :=
                             (Failover.SuccessDomains queryResult'
                              ++ Failover.FailedDomains queryResult')%list;
                           Failover.batchFailoverSize :=
                             Failover.flagFailoverBatchSize env;
                           Failover.batchFailoverWaitTimeInSeconds :=
                             Failover.flagFailoverWaitTime env;
                           Failover.failoverTimeout :=
                             Failover.flagFailoverTimeout env;
                           Failover.failoverWorkflowTimeout :=
                             Failover.flagExecutionTimeout env;
                           Failover.drillWaitTime := 0;
                           Failover.cron := EmptyString |} w3
                  end) ->
             X = (None, w') ->
             exists queryResult req fo,
               Failover.calls w'
               = Failover.calls w2
                 ++ [Failover.CallQuery (Failover.rollbackQuery n env);
                     Failover.CallSignal (Failover.drillPauseSignal n env);
                     Failover.CallStart req]
               /\ Failover.answered env client (Failover.calls w2)
                    (Failover.rollbackQuery n env) queryResult
               /\ Failover.jsonMarshalParams env fo
                  = inr (Failover.Input req)
               /\ Failover.StartWorkflowID req
                  = Failover.FailoverWorkflowID n
               /\ Failover.TargetCluster fo
                  = Failover.ResultSourceCluster queryResult
               /\ Failover.SourceCluster fo
                  = Failover.ResultTargetCluster queryResult
               /\ Failover.Domains fo
                  = (Failover.SuccessDomains queryResult
                     ++ Failover.FailedDomains queryResult)%list).
  { intros w2 X -> E. unfold Failover.query in E.
    fold (Failover.rollbackQuery n env) in E.
    destruct (Failover.QueryWorkflow client (Failover.calls w2)
                (Failover.rollbackQuery n env))
      as [qe|[bytes|]] eqn:Q; try discriminate.
    destruct (Failover.jsonUnmarshalResult env bytes) as [qr|] eqn:U;
      [|discriminate].
    apply failoverStart_regular_success in E; [|cbn; lia].
    destruct E as (p' & req & V & C & W & M).
    destruct (validateStartParams_ok _ _ V) as (_ & _ & _ & P).
    exists qr, req, (Failover.failoverParamsOf p').
    split; [rewrite C; cbn; now rewrite <- app_assoc|].
    split; [exists bytes; auto|].
    split; [exact M|]. split; [exact W|].
    rewrite P. cbn. auto. }
  destruct (Failover.query n env client (Failover.FailoverWorkflowID n)
              (Failover.getRunID env) w) as [[qe|qr0] w1]; [discriminate|].
  destruct (Failover.isWorkflowRunning n qr0).
  - destruct (Failover.TerminateWorkflowExecution client _ _);
      [discriminate|].
    destruct (R _ _ eq_refl H) as (qr & req & fo & C & rest).
    exists (Failover.calls
              (Failover.called w1
                 (Failover.CallTerminate
                    {| Failover.TerminateDomain :=
                         Failover.SystemLocalDomainName n;
                       Failover.TerminateExecution :=
                         {| Failover.WorkflowID :=
                              Failover.FailoverWorkflowID n;
                            Failover.RunID := Failover.getRunID env |};
                       Failover.Reason := "Rollback";
                       Failover.TerminateIdentity :=
                         Failover.getCliIdentity env |}))),
           qr, req, fo.
    split; [exact C|exact rest].
  - destruct (R _ _ eq_refl H) as (qr & req & fo & C & rest).
    exists (Failover.calls w1), qr, req, fo. split; [exact C|exact rest].
Qed.

(** X8: a rollback terminates the failover workflow exactly when the
    first query reports it running or paused.  Then the termination, with
    reason "Rollback", is the call right after the query, and when it
    fails the command returns that error wrapped and does nothing more;
    otherwise a fresh command never sends a termination. *)
Theorem rollback_terminates_only_running :
  forall n env client queryResult r w',
    Failover.newContext env = None ->
    Failover.answered env client [] (Failover.rollbackQuery n env)
      queryResult ->
    Failover.AdminFailoverRollback n env client Failover.freshWorld
    = (r, w') ->
    (Failover.isWorkflowRunning n queryResult = true ->
     exists rest,
       Failover.calls w'
       = Failover.CallQuery (Failover.rollbackQuery n env)
         :: Failover.CallTerminate (Failover.rollbackTerminate n env)
         :: rest
       /\ forall err,
            Failover.TerminateWorkflowExecution client
              [Failover.CallQuery (Failover.rollbackQuery n env)]
              (Failover.rollbackTerminate n env) = Some err ->
            rest = []
            /\ r = Some (Failover.PrintableError
                           "Failed to terminate failover workflow"
                           (Some err)))
    /\ (Failover.isWorkflowRunning n queryResult = false ->
        forall t, ~ In (Failover.CallTerminate t) (Failover.calls w')).
Proof.
  intros n env client qr0 r w' NC (bytes & Q & U) H.
  unfold Failover.AdminFailoverRollback in H. rewrite NC in H.
  unfold Failover.query at 1 in H.
  fold (Failover.rollbackQuery n env) in H.
  cbn [Failover.calls Failover.freshWorld] in H.
  rewrite Q, U in H.
  fold (Failover.rollbackTerminate n env) in H.
  assert (R : forall w2 X,
             X = (match Failover.query n env client
                          (Failover.FailoverWorkflowID n)
                          (Failover.getRunID env) w2 with
                  | (inl err, w3) => (Some err, w3)
                  | (inr queryResult', w3) =>
                      Failover.failoverStart n env client
                        {| Failover.targetCluster :=
                             Failover.ResultSourceCluster queryResult';
                           Failover.sourceCluster :=
                             Failover.ResultTargetCluster queryResult';
                           Failover.domains :=
                             (Failover.SuccessDomains queryResult'
                              ++ Failover.FailedDomains queryResult')%list;
                           Failover.batchFailoverSize :=
                             Failover.flagFailoverBatchSize env;
                           Failover.batchFailoverWaitTimeInSeconds :=
                             Failover.flagFailoverWaitTime env;
                           Failover.failoverTimeout :=
                             Failover.flagFailoverTimeout env;
                           Failover.failoverWorkflowTimeout :=
                             Failover.flagExecutionTimeout env;
                           Failover.drillWaitTime := 0;
                           Failover.cron := EmptyString |} w3
                  end) ->
             exists new,
               Failover.calls (snd X) = Failover.calls w2 ++ new
               /\ forall t, ~ In (Failover.CallTerminate t) new).
  { intros w2 X ->.
    assert (QC : forall t,
               ~ In (Failover.CallTerminate t)
                    [Failover.CallQuery (Failover.rollbackQuery n env)]).
    { intros t [C|[]]. discriminate. }
    unfold Failover.query. fold (Failover.rollbackQuery n env).
    destruct (Failover.QueryWorkflow client (Failover.calls w2)
                (Failover.rollbackQuery n env)) as [qe|[b|]];
      try (eexists; split; [reflexivity|exact QC]).
    destruct (Failover.jsonUnmarshalResult env b) as [qr|];
      [|eexists; split; [reflexivity|exact QC]].
    match goal with
    | |- context [Failover.failoverStart n env client ?p ?w3] =>
        destruct (failoverStart_calls n env client p w3) as (new & C & NT);
        rewrite C
    end.
    cbn. rewrite <- app_assoc. eexists. split; [reflexivity|].
    intros t I. cbn in I. destruct I as [I|I]; [discriminate|].
    now apply (NT t). }
  split.
  - intros RUN. rewrite RUN in H.
    destruct (Failover.TerminateWorkflowExecution client _ _) as [te|] eqn:T.
    + injection H as <- <-. exists []. split; [reflexivity|].
      intros err E. injection E as <-. auto.
    + match type of H with
      | ?X = _ => destruct (R _ X eq_refl) as (new & C & _)
      end.
      rewrite H in C. cbn in C. exists new. split; [exact C|].
      intros err E. discriminate.
  - intros RUN t. rewrite RUN in H.
    match type of H with
    | ?X = _ => destruct (R _ X eq_refl) as (new & C & NT)
    end.
    rewrite H in C. cbn in C. rewrite C.
    intros [I|I]; [discriminate|]. now apply (NT t).
Qed.

(** ** The shard distribution table *)

(** With an operator who always asks for more and a renderer that never
    fails, the loop shows full pages of ten rows, each followed by the
    prompt, and ends with the rows of the last page. *)
Lemma renderPages_all (entries : list (Z * string)) :
  forall table m sh,
    List.length table <= 10 -> List.length entries <= m ->
    exists full last,
      AdminCommands.renderPages entries table
        (10 - Z.of_nat (List.length table))
        {| AdminCommands.shown := sh;
           AdminCommands.answers := repeat true m;
           AdminCommands.renderFaults := [] |}
      = (inr last,
         {| AdminCommands.shown := sh ++ AdminCommands.prompted full;
            AdminCommands.answers := repeat true (m - List.length full);
            AdminCommands.renderFaults := [] |})
      /\ (List.concat full ++ last
          = table ++ AdminCommands.rowsOf entries)%list
      /\ Forall (fun tb => List.length tb = 10) full
      /\ List.length last <= 10
      /\ (entries <> [] -> last <> []).
Proof.
  induction entries as [|[shardID identity] rest IH]; intros table m sh LT LM.
  - exists [], table. cbn. rewrite !app_nil_r, Nat.sub_0_r.
    repeat split; auto.
  - cbn [AdminCommands.renderPages].
    destruct (Z.eqb_spec (10 - Z.of_nat (List.length table)) 0) as [E|NE].
    + assert (L10 : List.length table = 10) by lia.
      destruct m as [|m]; [cbn in LM; lia|].
      cbn [AdminCommands.Render AdminCommands.renderFaults
           AdminCommands.showNextPage AdminCommands.answers repeat
           AdminCommands.shown negb].
      destruct (IH [{| AdminCommands.ShardID := shardID;
                       AdminCommands.Identity := identity |}] m
                  ((sh ++ [AdminCommands.Table table])
                   ++ [AdminCommands.Prompt]))
        as (full & last & R & C & F & LL & NE');
        [cbn; lia|cbn in LM; lia|].
      exists (table :: full), last.
      change (AdminCommands.tableRenderSize - 1)%Z
        with (10 - Z.of_nat (List.length
                               [{| AdminCommands.ShardID := shardID;
                                   AdminCommands.Identity := identity |}]))%Z.
      rewrite R. cbn [AdminCommands.prompted flat_map List.length app].
      rewrite <- !app_assoc. cbn [app Nat.sub].
      split; [reflexivity|]. split.
      { cbn [List.concat AdminCommands.rowsOf map fst snd].
        rewrite <- app_assoc. f_equal. exact C. }
      split; [constructor; auto|]. split; [exact LL|].
      intros _. destruct rest; [|apply NE'; discriminate].
      cbn in R. injection R as <-. discriminate.
    + destruct (IH (table
                    ++ [{| AdminCommands.ShardID := shardID;
                           AdminCommands.Identity := identity |}]) m sh)
        as (full & last & R & C & F & LL & NE');
        [rewrite length_app; cbn [List.length]; lia|cbn in LM; lia|].
      exists full, last.
      replace (10 - Z.of_nat (List.length table) - 1)%Z
        with (10 - Z.of_nat
                     (List.length
                        (table
                         ++ [{| AdminCommands.ShardID := shardID;
                                AdminCommands.Identity := identity |}])))%Z
        by (rewrite length_app; cbn [List.length]; lia).
      rewrite R. split; [reflexivity|]. split.
      { rewrite C, <- app_assoc. reflexivity. }
      split; [exact F|]. split; [exact LL|].
      intros _. destruct rest; [|apply NE'; discriminate].
      cbn in R. injection R as <-. now destruct table.
Qed.

(** When the operator declines at a prompt, the loop stops there with no
    row left to render. *)
Lemma renderPages_declined (entries : list (Z * string)) :
  forall k table sh tail,
    List.length table <= 10 ->
    10 * (k + 1) < List.length table + List.length entries ->
    exists full,
      AdminCommands.renderPages entries table
        (10 - Z.of_nat (List.length table))
        {| AdminCommands.shown := sh;
           AdminCommands.answers := repeat true k ++ false :: tail;
           AdminCommands.renderFaults := [] |}
      = (inr [],
         {| AdminCommands.shown := sh ++ AdminCommands.prompted full;
            AdminCommands.answers := tail;
            AdminCommands.renderFaults := [] |})
      /\ List.concat full
         = firstn (10 * (k + 1)) (table ++ AdminCommands.rowsOf entries)
      /\ Forall (fun tb => List.length tb = 10) full
      /\ List.length full = k + 1.
Proof.
  induction entries as [|[shardID identity] rest IH];
    intros k table sh tail LT LM.
  - cbn in LM. lia.
  - cbn [AdminCommands.renderPages].
    destruct (Z.eqb_spec (10 - Z.of_nat (List.length table)) 0) as [E|NE].
    + assert (L10 : List.length table = 10) by lia.
      cbn [AdminCommands.Render AdminCommands.renderFaults].
      destruct k as [|k].
      * cbn [repeat app AdminCommands.showNextPage AdminCommands.answers
             AdminCommands.shown negb AdminCommands.renderFaults].
        exists [table]. cbn [AdminCommands.prompted flat_map app].
        rewrite <- app_assoc. split; [reflexivity|]. split.
        { cbn [List.concat]. rewrite app_nil_r, firstn_app.
          rewrite (firstn_all2 table) by lia.
          replace (10 * (0 + 1) - List.length table) with 0 by lia.
          cbn [firstn]. now rewrite app_nil_r. }
        split; [constructor; auto|reflexivity].
      * cbn [repeat app AdminCommands.showNextPage AdminCommands.answers
             AdminCommands.shown negb AdminCommands.renderFaults].
        destruct (IH k [{| AdminCommands.ShardID := shardID;
                           AdminCommands.Identity := identity |}]
                    ((sh ++ [AdminCommands.Table table])
                     ++ [AdminCommands.Prompt]) tail)
          as (full & R & C & F & LF);
          [cbn; lia|cbn [List.length] in *; lia|].
        exists (table :: full).
        change (AdminCommands.tableRenderSize - 1)%Z
          with (10 - Z.of_nat
                       (List.length
                          [{| AdminCommands.ShardID := shardID;
                              AdminCommands.Identity := identity |}]))%Z.
        rewrite R. cbn [AdminCommands.prompted flat_map app].
        rewrite <- !app_assoc. cbn [app].
        split; [reflexivity|]. split.
        { cbn [List.concat]. rewrite C.
          rewrite (firstn_app (10 * (S k + 1)) table).
          rewrite (firstn_all2 table) by lia.
          cbn [AdminCommands.rowsOf map fst snd app].
          do 2 f_equal. lia. }
        split; [constructor; auto|cbn [List.length]; lia].
    + destruct (IH k (table
                      ++ [{| AdminCommands.ShardID := shardID;
                             AdminCommands.Identity := identity |}]) sh tail)
        as (full & R & C & F & LF);
        [rewrite length_app; cbn [List.length]; lia
        |rewrite length_app; cbn [List.length] in *; lia|].
      exists full.
      replace (10 - Z.of_nat (List.length table) - 1)%Z
        with (10 - Z.of_nat
                     (List.length
                        (table
                         ++ [{| AdminCommands.ShardID := shardID;
                                AdminCommands.Identity := identity |}])))%Z
        by (rewrite length_app; cbn [List.length]; lia).
      rewrite R. split; [reflexivity|]. split.
      { rewrite C, <- app_assoc. reflexivity. }
      split; [exact F|exact LF].
Qed.

(** X9: when the operator asks for every page and the renderer never
    fails, [AdminDescribeShardDistribution] returns no error and, after the
    two summary lines, shows every shard exactly once, in the order the map
    is visited: pages of exactly ten rows, each followed by the prompt,
    then a last page of one to ten rows without a prompt.  With no shard
    returned it shows the two summary lines only. *)
Theorem shard_distribution_pages_of_ten :
  forall ps pid describe resp sh m,
    describe {| AdminCommands.PageSize := AdminCommands.toInt32 ps;
                AdminCommands.PageID := AdminCommands.toInt32 pid |}
    = inr resp ->
    List.length (AdminCommands.Shards resp) <= m ->
    (AdminCommands.Shards resp = [] ->
     AdminCommands.AdminDescribeShardDistribution ps pid describe
       {| AdminCommands.shown := sh;
          AdminCommands.answers := repeat true m;
          AdminCommands.renderFaults := [] |}
     = (None,
        {| AdminCommands.shown := sh ++ AdminCommands.summary resp;
           AdminCommands.answers := repeat true m;
           AdminCommands.renderFaults := [] |}))
    /\ (AdminCommands.Shards resp <> [] ->
        exists full last,
          AdminCommands.AdminDescribeShardDistribution ps pid describe
            {| AdminCommands.shown := sh;
               AdminCommands.answers := repeat true m;
               AdminCommands.renderFaults := [] |}
          = (None,
             {| AdminCommands.shown :=
                  sh ++ AdminCommands.summary resp
                  ++ AdminCommands.prompted full
                  ++ [AdminCommands.Table last];
                AdminCommands.answers := repeat true (m - List.length full);
                AdminCommands.renderFaults := [] |})
          /\ (List.concat full ++ last
              = AdminCommands.rowsOf (AdminCommands.Shards resp))%list
          /\ Forall (fun tb => List.length tb = 10) full
          /\ 1 <= List.length last <= 10).
Proof.
  intros ps pid describe resp sh m D LM.
  unfold AdminCommands.AdminDescribeShardDistribution. rewrite D.
  unfold AdminCommands.Printf, AdminCommands.summary.
  cbn [AdminCommands.shown AdminCommands.answers
       AdminCommands.renderFaults].
  split.
  - intros E. rewrite E. cbn [List.length Nat.eqb].
    rewrite <- app_assoc. reflexivity.
  - intros NE.
    destruct (AdminCommands.Shards resp) as [|e es] eqn:HS; [now elim NE|].
    cbn [List.length Nat.eqb].
    destruct (renderPages_all (e :: es) [] m
                ((sh ++ [AdminCommands.Text
                           ("Total Number of Shards: "
                            ++ show_int (AdminCommands.NumberOfShards resp)
                            ++ " " ++ nl)])
                 ++ [AdminCommands.Text
                       ("Number of Shards Returned: "
                        ++ show_int (Z.of_nat (S (List.length es)))
                        ++ " " ++ nl)]))
      as (full & last & R & C & F & LL & NL); [cbn; lia|exact LM|].
    change (10 - Z.of_nat (List.length (@nil AdminCommands.ShardRow)))%Z
      with AdminCommands.tableRenderSize in R.
    rewrite R. exists full, last.
    cbn [AdminCommands.Render AdminCommands.renderFaults
         AdminCommands.shown AdminCommands.answers].
    split; [rewrite <- !app_assoc; reflexivity|].
    split; [exact C|]. split; [exact F|].
    split; [|exact LL].
    destruct last; [now elim NL|cbn; lia].
Qed.

(** X10: when the operator asks for more [k] times and then declines,
    with more than [10 * (k + 1)] shards returned, the command has shown
    the first [10 * (k + 1)] shards in full pages, shows none of the
    others, renders one more table, an empty one, and returns no error. *)
Theorem shard_distribution_declined :
  forall ps pid describe resp sh k tail,
    describe {| AdminCommands.PageSize := AdminCommands.toInt32 ps;
                AdminCommands.PageID := AdminCommands.toInt32 pid |}
    = inr resp ->
    10 * (k + 1) < List.length (AdminCommands.Shards resp) ->
    exists full,
      AdminCommands.AdminDescribeShardDistribution ps pid describe
        {| AdminCommands.shown := sh;
           AdminCommands.answers := repeat true k ++ false :: tail;
           AdminCommands.renderFaults := [] |}
      = (None,
         {| AdminCommands.shown :=
              sh ++ AdminCommands.summary resp
              ++ AdminCommands.prompted full ++ [AdminCommands.Table []];
            AdminCommands.answers := tail;
            AdminCommands.renderFaults := [] |})
      /\ List.concat full
         = firstn (10 * (k + 1))
             (AdminCommands.rowsOf (AdminCommands.Shards resp))
      /\ Forall (fun tb => List.length tb = 10) full
      /\ List.length full = k + 1.
Proof.
  intros ps pid describe resp sh k tail D LM.
  unfold AdminCommands.AdminDescribeShardDistribution. rewrite D.
  unfold AdminCommands.Printf, AdminCommands.summary.
  cbn [AdminCommands.shown AdminCommands.answers
       AdminCommands.renderFaults].
  destruct (AdminCommands.Shards resp) as [|e es] eqn:HS;
    [cbn in LM; lia|].
  cbn [Nat.eqb List.length].
  destruct (renderPages_declined (e :: es) k []
              ((sh ++ [AdminCommands.Text
                         ("Total Number of Shards: "
                          ++ show_int (AdminCommands.NumberOfShards resp)
                          ++ " " ++ nl)])
               ++ [AdminCommands.Text
                     ("Number of Shards Returned: "
                      ++ show_int (Z.of_nat (S (List.length es)))
                      ++ " " ++ nl)]) tail)
    as (full & R & C & F & LF); [cbn; lia|cbn [List.length] in *; lia|].
  change (10 - Z.of_nat (List.length (@nil AdminCommands.ShardRow)))%Z
    with AdminCommands.tableRenderSize in R.
  rewrite R. exists full.
  cbn [AdminCommands.Render AdminCommands.renderFaults
       AdminCommands.shown AdminCommands.answers].
  split; [rewrite <- !app_assoc; reflexivity|].
  split; [exact C|]. split; [exact F|exact LF].
Qed.

(** ** Deleting a workflow from the stores *)




Lemma allAnswered_app b (l1 : list AdminCommands.Call) :
  forall history l2,
    AdminCommands.allAnswered b history (l1 ++ l2) <->
    AdminCommands.allAnswered b history l1
    /\ AdminCommands.allAnswered b (history ++ l1) l2.
Proof.
  induction l1 as [|c l1 IH]; intros history l2.
  - cbn. rewrite app_nil_r. tauto.
  - cbn [app AdminCommands.allAnswered]. rewrite IH, <- app_assoc.
    cbn [app]. tauto.
Qed.

(** Without skipping, the loop stops at the first branch the store fails
    to delete. *)
Lemma deleteBranches_strict domain sid dec b (tokens : list Token) :
  forall w r w',
    Forall (fun t => exists branch,
                       AdminCommands.thriftDecode dec t = inr branch)
           tokens ->
    AdminCommands.deleteBranches domain sid false dec b tokens w = (r, w') ->
    exists made post,
      AdminCommands.calls w' = AdminCommands.calls w ++ made
      /\ map (fun t => AdminCommands.DeleteHistoryBranch t sid domain) tokens
         = made ++ post
      /\ ((r = None /\ post = []
           /\ AdminCommands.allAnswered b (AdminCommands.calls w) made)
          \/ exists pre c e,
               made = pre ++ [c]
               /\ AdminCommands.allAnswered b (AdminCommands.calls w) pre
               /\ AdminCommands.answer b (AdminCommands.calls w ++ pre) c
                  = Some e
               /\ r = Some (AdminCommands.Problem "DeleteHistoryBranch err"
                              (Some e))).
Proof.
  induction tokens as [|t tokens IH]; intros w r w' F H.
  - cbn in H. injection H as <- <-. exists [], [].
    rewrite app_nil_r. cbn.
    split; [reflexivity|]. split; [reflexivity|]. left. auto.
  - inversion F as [|? ? [branch D] F']; subst.
    cbn [AdminCommands.deleteBranches] in H. rewrite D in H.
    cbn [AdminCommands.calls AdminCommands.Println] in H.
    destruct (AdminCommands.answer b (AdminCommands.calls w)
                (AdminCommands.DeleteHistoryBranch t sid domain))
      as [err|] eqn:A.
    + injection H as <- <-.
      exists [AdminCommands.DeleteHistoryBranch t sid domain],
             (map (fun t => AdminCommands.DeleteHistoryBranch t sid domain)
                  tokens).
      split; [reflexivity|]. split; [reflexivity|].
      right. exists [], (AdminCommands.DeleteHistoryBranch t sid domain), err.
      rewrite app_nil_r. cbn. auto.
    + apply IH in H; [|exact F'].
      destruct H as (made & post & C & M & R).
      exists (AdminCommands.DeleteHistoryBranch t sid domain :: made), post.
      cbn [AdminCommands.calls AdminCommands.call AdminCommands.Println]
        in C, R.
      split; [rewrite C, <- app_assoc; reflexivity|].
      split; [cbn [map app]; now rewrite M|].
      destruct R as [(-> & -> & AA)|(pre & c & e & -> & AA & AE & ->)].
      * left. cbn. auto.
      * right.
        exists (AdminCommands.DeleteHistoryBranch t sid domain :: pre), c, e.
        rewrite <- app_assoc in AE. cbn. auto.
Qed.

(** X12: without skipping errors, a deletion on the stores whose mutable
    state can be read makes its calls in the fixed order (description,
    history branches, mutable state row, current row) and stops at the
    first deletion the store answers with an error, which it returns
    wrapped; it returns no error exactly when every deletion went through,
    and then it made all the calls. *)
Theorem delete_workflow_stops_at_first_failure :
  forall domain wid rid dec b ms info sid w r w',
    AdminCommands.readable dec b ms info sid ->
    AdminCommands.AdminDeleteWorkflow domain wid rid false false dec b w
    = (r, w') ->
    exists made post,
      AdminCommands.calls w'
      = AdminCommands.calls w
        ++ AdminCommands.DescribeWorkflowExecution domain wid rid :: made
      /\ AdminCommands.allCalls domain wid rid sid ms info
         = AdminCommands.DescribeWorkflowExecution domain wid rid
           :: made ++ post
      /\ ((r = AdminCommands.Returned None /\ post = []
           /\ AdminCommands.allAnswered b
                (AdminCommands.calls w
                 ++ [AdminCommands.DescribeWorkflowExecution domain wid rid])
                made)
          \/ exists pre c e msg,
               made = pre ++ [c]
               /\ AdminCommands.allAnswered b
                    (AdminCommands.calls w
                     ++ [AdminCommands.DescribeWorkflowExecution
                           domain wid rid])
                    pre
               /\ AdminCommands.answer b
                    (AdminCommands.calls w
                     ++ AdminCommands.DescribeWorkflowExecution
                          domain wid rid :: pre) c
                  = Some e
               /\ r = AdminCommands.Returned
                        (Some (AdminCommands.Problem msg (Some e)))).
Proof.
  intros domain wid rid dec b ms info sid w r w'
         (resp & D & U & E & A & F) H.
  unfold AdminCommands.AdminDeleteWorkflow,
    AdminCommands.describeMutableState in H.
  rewrite D, U, E, A in H.
  destruct (AdminCommands.deleteBranches domain sid false dec b
              (AdminCommands.branchTokensOf ms info)
              (AdminCommands.call w
                 (AdminCommands.DescribeWorkflowExecution domain wid rid)))
    as [rb w1] eqn:B.
  destruct (deleteBranches_strict _ _ _ _ _ _ _ _ F B)
    as (made & post & C & M & R).
  cbn [AdminCommands.calls AdminCommands.call] in C, R.
  unfold AdminCommands.allCalls. rewrite M.
  destruct R as [(-> & -> & AA)|(pre & c & e & -> & AA & AE & ->)].
  - rewrite app_nil_r in *. cbn zeta in H.
    set (c1 := AdminCommands.DeleteWorkflowExecution
                 (AdminCommands.DomainID info) wid rid domain) in *.
    set (c2 := AdminCommands.DeleteCurrentWorkflowExecution
                 (AdminCommands.DomainID info) wid rid) in *.
    destruct (AdminCommands.answer b (AdminCommands.calls w1) c1)
      as [e1|] eqn:A1.
    + injection H as <- <-. exists (made ++ [c1]), [c2].
      cbn [AdminCommands.calls AdminCommands.call]. rewrite C.
      split; [now rewrite <- !app_assoc|].
      split; [now rewrite <- !app_assoc|].
      right. exists made, c1, e1, "delete mutableState row failed"%string.
      rewrite C, <- app_assoc in A1. auto.
    + cbn [AdminCommands.calls AdminCommands.call AdminCommands.Println]
        in H.
      destruct (AdminCommands.answer b (AdminCommands.calls w1 ++ [c1]) c2)
        as [e2|] eqn:A2.
      * injection H as <- <-. exists (made ++ [c1; c2]), [].
        cbn [AdminCommands.calls AdminCommands.call AdminCommands.Println].
        rewrite C. split; [now rewrite <- !app_assoc|].
        split; [now rewrite app_nil_r|].
        right.
        exists (made ++ [c1]), c2, e2, "delete current row failed"%string.
        rewrite C, <- !app_assoc in A2. rewrite C, <- app_assoc in A1.
        split; [now rewrite <- app_assoc|]. split.
        { apply allAnswered_app. split; [exact AA|].
          cbn. rewrite <- app_assoc. auto. }
        split; [|reflexivity].
        cbn [app] in A2 |- *. exact A2.
      * injection H as <- <-. exists (made ++ [c1; c2]), [].
        cbn [AdminCommands.calls AdminCommands.call AdminCommands.Println].
        rewrite C. split; [now rewrite <- !app_assoc|].
        split; [now rewrite app_nil_r|].
        left. split; [reflexivity|]. split; [reflexivity|].
        rewrite C, <- !app_assoc in A2. rewrite C, <- app_assoc in A1.
        apply allAnswered_app. split; [exact AA|].
        cbn. rewrite <- !app_assoc. cbn [app]. auto.
  - injection H as <- <-.
    exists (pre ++ [c]),
           (post ++ [AdminCommands.DeleteWorkflowExecution
                       (AdminCommands.DomainID info) wid rid domain;
                     AdminCommands.DeleteCurrentWorkflowExecution
                       (AdminCommands.DomainID info) wid rid]).
    rewrite C. split; [now rewrite <- !app_assoc|].
    split; [now rewrite <- !app_assoc|].
    right. exists pre, c, e, "DeleteHistoryBranch err"%string.
    rewrite <- app_assoc in AE. auto.
Qed.

(** ** The targeted scan on well-formed input *)

(** X13: on an input without malformed bytes, truncated or not, the reading
    loop of [AdminDBScan] ends once it has as many steps as the input has
    values plus one, and the command scans exactly the values that are
    execution requests, in input order; a value of the wrong type is
    dropped without a message. *)
Theorem scan_reads_every_well_formed_value :
  forall (Entity : Type) shardOf retryPolicy
         (marshal : ScanOutputEntity Entity -> result string)
         c numberOfShards noInvariants iv invariants ef input t fuel con,
    existsb isMalformed input = false ->
    List.length input < fuel ->
    readInput fuel (NewDecoder input t) [] = Some (valuesOf input)
    /\ AdminDBScan shardOf retryPolicy marshal fuel c numberOfShards
         noInvariants (iv :: invariants) ef (NewDecoder input t) con
       = Some (scanExecutions shardOf retryPolicy marshal c numberOfShards
                 (iv :: invariants) ef (valuesOf input) con).
Proof.
  intros Entity shardOf retryPolicy marshal c numberOfShards noInvariants iv
         invariants ef input t fuel con C L.
  assert (R : readInput fuel (NewDecoder input t) [] = Some (valuesOf input)).
  { unfold NewDecoder. now rewrite (readInput_clean input fuel t [] C L). }
  split; [exact R|].
  unfold AdminDBScan. cbn [List.length Nat.ltb Nat.leb]. now rewrite R.
Qed.

(** X14: when every execution of the batch can be checked, the scanning
    loop of [AdminDBScan] returns no error and reports each execution once,
    in input order: its record on standard output, or, when the record
    cannot be serialized, the serializer's error on standard error. *)
Theorem checked_executions_reported_in_order :
  forall (Entity : Type) shardOf retryPolicy
         (marshal : ScanOutputEntity Entity -> result string)
         c numberOfShards invariants ef data outs con,
    Forall2 (fun req out =>
               exists execution result,
                 checkExecution shardOf retryPolicy c numberOfShards req
                   invariants ef = inr (execution, result)
                 /\ marshal {| Execution := execution; Result := result |}
                    = out)
            data outs ->
    scanExecutions shardOf retryPolicy marshal c numberOfShards invariants ef
      data con
    = (None, {| stdout := stdout con ++ recordsOf outs;
                stderr := stderr con ++ marshalErrorsOf outs |}).
Proof.
  intros Entity shardOf retryPolicy marshal c numberOfShards invariants ef
         data outs con F.
  revert con.
  induction F as [|req out data outs (execution & result & HC & HM) F IH];
    intros con.
  - cbn. rewrite !app_nil_r. now destruct con.
  - cbn [scanExecutions]. rewrite HC, HM.
    destruct out as [err|line]; rewrite IH; unfold recordsOf, marshalErrorsOf;
      cbn [flat_map FprintlnStderr Println stdout stderr app];
      now rewrite <- ?app_assoc.
Qed.

(** ** The shard-range scan: a file that fails *)

Lemma scanListed_app (pre post : list ListConcreteExecutionsEntity) :
  forall f,
    scanListed (pre ++ post) f
    = match scanListed pre f with
      | (Some err, f') => (Some err, f')
      | (None, f') => scanListed post f'
      end.
Proof.
  induction pre as [|x pre IH]; intros f; [reflexivity|].
  cbn [app scanListed].
  destruct (scanExecution x f) as [[err|] f']; [reflexivity|apply IH].
Qed.

(** As long as the file accepts the calls, the matches of a list are
    written and synced one after the other, two calls a match. *)
Lemma scanListed_accepted (xs : list ListConcreteExecutionsEntity) :
  forall l rest,
    scanListed xs
      {| ops := l;
         faults := repeat None (2 * List.length (matchesOf xs)) ++ rest |}
    = (None, {| ops := l ++ linesOf xs; faults := rest |}).
Proof.
  induction xs as [|x xs IH]; intros l rest.
  - cbn. now rewrite app_nil_r.
  - cbn [scanListed]. unfold scanExecution, linesOf, matchesOf.
    cbn [flat_map].
    destruct (unsupported x) as [info|].
    + rewrite length_app. cbn [List.length].
      replace (2 * (1 + List.length
                          (flat_map
                             (fun x0 => match unsupported x0 with
                                        | Some info0 => [info0]
                                        | None => []
                                        end) xs)))
        with (S (S (2 * List.length (matchesOf xs))))
        by (unfold matchesOf; lia).
      cbn [repeat app]. unfold WriteString, Sync, fileCall.
      cbn [faults ops]. rewrite IH. unfold linesOf.
      now rewrite <- !app_assoc.
    + cbn [app]. fold (matchesOf xs). rewrite IH. reflexivity.
Qed.

(** X15: a shard lists a match after the executions [pre].  If the file
    accepts the calls for the matches among [pre] and then fails the next
    one with [err], the scan of the shard stops there: on a failed write
    it returns "Failed to write data to file" and the file holds the lines
    of the earlier matches, each synced; on a failed sync it returns
    "Failed to sync data to file" and the line of the match is written but
    not synced.  Nothing listed after the match is looked at. *)
Theorem file_error_stops_shard_scan :
  forall c shardID ps pre x post info l rest err fuel,
    initializeExecutionStore c shardID = inr (storeOf ps) ->
    fst (delivered ps) = pre ++ x :: post ->
    unsupported x = Some info ->
    fuelFor ps <= fuel ->
    listExecutionsByShardID fuel c shardID
      {| ops := l;
         faults := repeat None (2 * List.length (matchesOf pre))
                   ++ Some err :: rest |}
    = Some (Some (PrintableError "Failed to write data to file" (Some err)),
            {| ops := l ++ linesOf pre; faults := rest |})
    /\ listExecutionsByShardID fuel c shardID
         {| ops := l;
            faults := repeat None (2 * List.length (matchesOf pre))
                      ++ None :: Some err :: rest |}
       = Some (Some (PrintableError "Failed to sync data to file" (Some err)),
               {| ops := l ++ linesOf pre
                         ++ [OpWriteString (remediationLine info)];
                  faults := rest |}).
Proof.
  intros c shardID ps pre x post info l rest err fuel HS HD HU L.
  rewrite !(listExecutionsByShardID_finite c shardID ps fuel _ HS L).
  unfold scanDelivered. rewrite HD, !scanListed_app, !scanListed_accepted.
  cbn [scanListed]. unfold scanExecution. rewrite HU.
  unfold WriteString, Sync, fileCall. cbn [faults ops].
  split; [reflexivity|]. now rewrite <- app_assoc.
Qed.

(** ** The shard-range scan: a store that cannot be opened *)

Lemma shardLoop_open_failure c
    (pagesOf : Z -> list (Page ListConcreteExecutionsEntity)) hi s err
    (n : nat) :
  forall lo w fuel,
    (hi < int_max)%Z -> (s <= hi)%Z ->
    n = Z.to_nat (s - lo) -> (lo <= s)%Z ->
    (forall s', (lo <= s' < s)%Z ->
                initializeExecutionStore c s' = inr (storeOf (pagesOf s'))) ->
    initializeExecutionStore c s = inl err ->
    rangeFuel pagesOf (shardsFrom lo n) <= fuel ->
    shardLoop fuel c lo hi w
    = Some (match scanShards pagesOf (shardsFrom lo n) w with
            | (Some e, w') => (Some e, w')
            | (None, w') =>
                (Some (PrintableError "Error initializinf execution store "
                         (Some err)), w')
            end).
Proof.
  induction n as [|n IH]; intros lo w fuel Hhi Hs Hn Hlo HS HE L.
  - assert (lo = s) by lia. subst lo.
    destruct fuel as [|fuel]; [unfold rangeFuel in L; cbn in L; lia|].
    cbn [shardLoop shardsFrom scanShards].
    destruct (Z.leb_spec s hi); [|lia].
    unfold listExecutionsByShardID. rewrite HE. now destruct w.
  - destruct fuel as [|fuel]; [unfold rangeFuel in L; lia|].
    assert (C : rangeFuel pagesOf (shardsFrom lo (S n))
                = S (fuelFor (pagesOf lo))
                  + rangeFuel pagesOf (shardsFrom (lo + 1) n))
      by (unfold rangeFuel, list_sum; cbn [shardsFrom map fold_right]; lia).
    rewrite C in L.
    cbn [shardLoop shardsFrom scanShards].
    destruct (Z.leb_spec lo hi); [|lia].
    rewrite (listExecutionsByShardID_finite c lo (pagesOf lo))
      by (try apply HS; lia).
    destruct (scanDelivered lo (delivered (pagesOf lo)) (outputFile w))
      as [[e|] f]; [reflexivity|].
    replace (incr lo) with (lo + 1)%Z.
    + apply IH; try lia; [|exact HE]. intros s' Hs'. apply HS. lia.
    + unfold incr. destruct (Z.eqb_spec lo int_max); [lia|reflexivity].
Qed.

(** X16: the shards from [lo] up to [s - 1] can be listed to their end,
    the store of shard [s] cannot be opened, and the file accepts every
    call.  Then the range scan returns "Error initializinf execution store "
    with the cause; the matches of the shards before [s] are in the file,
    which was closed, their completion messages were printed, and no shard
    after [s] was visited. *)
Theorem store_open_failure_stops_range_scan :
  forall c pagesOf lo hi s err l fuel,
    (hi < int_max)%Z -> (lo <= s <= hi)%Z ->
    (forall s', (lo <= s' < s)%Z ->
                initializeExecutionStore c s' = inr (storeOf (pagesOf s'))
                /\ snd (delivered (pagesOf s')) = None) ->
    initializeExecutionStore c s = inl err ->
    rangeFuel pagesOf (shardRange lo (s - 1)) <= fuel ->
    AdminDBScanUnsupportedWorkflow fuel c
      (inr {| ops := l; faults := [] |}) lo hi
    = Some (Some (PrintableError "Error initializinf execution store "
                    (Some err)),
            Some {| outputFile :=
                      {| ops := l ++ flat_map
                                       (fun s' =>
                                          linesOf
                                            (fst (delivered (pagesOf s'))))
                                       (shardRange lo (s - 1))
                                ++ [OpClose];
                         faults := [] |};
                    printed := map completedMessage
                                   (shardRange lo (s - 1)) |}).
Proof.
  intros c pagesOf lo hi s err l fuel Hhi Hs HS HE L.
  unfold AdminDBScanUnsupportedWorkflow, shardRange in *.
  replace (Z.to_nat (s - 1 - lo + 1)) with (Z.to_nat (s - lo)) in * by lia.
  rewrite (shardLoop_open_failure c pagesOf hi s err (Z.to_nat (s - lo)))
    by (try apply HS; auto; lia).
  rewrite scanShards_all_listed.
  - unfold Close. cbn [outputFile printed app ops faults].
    now rewrite <- app_assoc.
  - intros s' Hin. apply shardsFrom_In in Hin. apply HS. lia.
Qed.

(** ** The shard-range scan: the largest upper bound *)

(** X17: with the largest [int] as upper bound the shard loop has no way
    to end well: [i <= endShardID] holds for every [i], and [i++] wraps
    around after the last shard.  Whatever the stores do, the command
    never returns without an error. *)
Theorem largest_upper_bound_never_completes :
  forall fuel c file lo e r,
    (int_min <= lo <= int_max)%Z ->
    AdminDBScanUnsupportedWorkflow fuel c (inr file) lo int_max = Some (e, r)
    -> e <> None.
Proof.
  intros fuel c file lo e r Hlo H.
  assert (G : forall fuel i w w',
             (int_min <= i <= int_max)%Z ->
             shardLoop fuel c i int_max w <> Some (None, w')).
  { clear. induction fuel as [|fuel IH]; intros i w w' Hi; [discriminate|].
    cbn [shardLoop]. destruct (Z.leb_spec i int_max); [|lia].
    destruct (listExecutionsByShardID fuel c i (outputFile w))
      as [[[err|] f]|]; try discriminate.
    apply IH. unfold incr, int_min, int_max in *.
    destruct (Z.eqb_spec i (2 ^ 63 - 1)); lia. }
  unfold AdminDBScanUnsupportedWorkflow in H.
  destruct (shardLoop fuel c lo int_max {| outputFile := file; printed := [] |})
    as [[e' w']|] eqn:E; [|discriminate].
  injection H as <- <-. intros ->. exact (G _ _ _ _ Hlo E).
Qed.

(** ** The properties above on concrete inputs *)

Lemma validateStartParams_sound_witness :
  fst (Failover.validateStartParams demoParams) = None
  /\ Failover.batchFailoverSize (snd (Failover.validateStartParams demoParams))
     = 20%Z
  /\ Failover.batchFailoverWaitTimeInSeconds
       (snd (Failover.validateStartParams demoParams)) = 5%Z.
Proof.
  destruct (validateStartParams_sound demoParams) as (A & _ & C).
  assert (V : fst (Failover.validateStartParams demoParams) = None).
  { apply A. repeat split; discriminate. }
  destruct (C V) as (_ & _ & _ & B & W & _).
  split; [exact V|]. split; [exact B|exact W].
Defined.

Lemma validateStartParams_idempotent_witness :
  Failover.validateStartParams (snd (Failover.validateStartParams demoParams))
  = (None, snd (Failover.validateStartParams demoParams)).
Proof.
  apply (validateStartParams_idempotent demoParams). reflexivity.
Defined.

Lemma failoverStart_rejects_before_any_call_witness :
  exists err,
    Failover.failoverStart demoNames demoEnv demoClient demoCronParams
      Failover.freshWorld
    = (Some err, Failover.freshWorld).
Proof.
  apply (failoverStart_rejects_before_any_call demoNames demoEnv demoClient
           demoCronParams Failover.freshWorld).
  right. split; [cbn; lia|discriminate].
Defined.

Lemma failoverStart_drill_witness :
  exists req,
    Failover.calls
      (snd (Failover.failoverStart demoNames demoEnv demoClient
              demoDrillParams Failover.freshWorld))
    = [Failover.CallStart req]
    /\ Failover.StartWorkflowID req = "failover-manager-drill"%string
    /\ Failover.CronSchedule req = "0 * * * *"%string.
Proof.
  destruct (failoverStart_drill demoNames demoEnv demoClient demoDrillParams
              Failover.freshWorld
              (snd (Failover.failoverStart demoNames demoEnv demoClient
                      demoDrillParams Failover.freshWorld)))
    as (req & rid & C & W & S & _).
  - cbn. lia.
  - reflexivity.
  - exists req. split; [exact C|]. split; [exact W|exact S].
Defined.

Lemma failoverStart_regular_pauses_drill_first_witness :
  (exists req,
      Failover.calls
        (snd (Failover.failoverStart demoNames demoEnv demoClient demoParams
                Failover.freshWorld))
      = [Failover.CallSignal (Failover.drillPauseSignal demoNames demoEnv);
         Failover.CallStart req])
  /\ fst (Failover.failoverStart demoNames demoEnv demoDownClient demoParams
            Failover.freshWorld)
     = Some (Failover.PrintableError
               "Failed to send pase signal to drill workflow"
               (Some (Failover.ServiceError "unavailable"))).
Proof.
  split.
  - destruct (failoverStart_regular_pauses_drill_first demoNames demoEnv
                demoClient demoParams Failover.freshWorld) as [H _].
    + cbn. lia.
    + destruct (H (snd (Failover.failoverStart demoNames demoEnv demoClient
                          demoParams Failover.freshWorld)))
        as (req & C & _).
      * reflexivity.
      * exists req. exact C.
  - destruct (failoverStart_regular_pauses_drill_first demoNames demoEnv
                demoDownClient demoParams Failover.freshWorld) as [_ H].
    + cbn. lia.
    + destruct (H (Failover.ServiceError "unavailable")
                  (fst (Failover.failoverStart demoNames demoEnv
                          demoDownClient demoParams Failover.freshWorld))
                  (snd (Failover.failoverStart demoNames demoEnv
                          demoDownClient demoParams Failover.freshWorld)))
        as (_ & [C|(R & _)]).
      * reflexivity.
      * reflexivity.
      * reflexivity.
      * discriminate C.
      * exact R.
Defined.

Lemma failoverStart_request_carries_validated_params_witness :
  exists p',
    Failover.validateStartParams demoParams = (None, p')
    /\ (0 < Failover.batchFailoverSize p')%Z
    /\ (0 < Failover.batchFailoverWaitTimeInSeconds p')%Z.
Proof.
  edestruct (failoverStart_request_carries_validated_params demoNames demoEnv
               demoClient demoParams)
    as (p' & V & _ & _ & _ & _ & B & W & _).
  - cbn. right. left. reflexivity.
  - exists p'. split; [exact V|]. split; [exact B|exact W].
Defined.

Lemma rollback_swaps_clusters_witness :
  exists fo,
    Failover.TargetCluster fo = "east"%string
    /\ Failover.SourceCluster fo = "west"%string
    /\ Failover.Domains fo = ["d1"%string; "d2"%string].
Proof.
  destruct (rollback_swaps_clusters demoNames demoEnv demoClient
              Failover.freshWorld
              (snd (Failover.AdminFailoverRollback demoNames demoEnv
                      demoClient Failover.freshWorld)))
    as (history & queryResult & req & fo & _ & (bytes & _ & U) & _ & _
        & T & S & D).
  - reflexivity.
  - cbn in U. injection U as <-. exists fo.
    split; [exact T|]. split; [exact S|exact D].
Defined.

Lemma rollback_terminates_only_running_witness :
  exists rest,
    Failover.calls
      (snd (Failover.AdminFailoverRollback demoNames demoEnv demoClient
              Failover.freshWorld))
    = Failover.CallQuery (Failover.rollbackQuery demoNames demoEnv)
      :: Failover.CallTerminate (Failover.rollbackTerminate demoNames demoEnv)
      :: rest.
Proof.
  destruct (rollback_terminates_only_running demoNames demoEnv demoClient
              (demoResult "running")
              (fst (Failover.AdminFailoverRollback demoNames demoEnv
                      demoClient Failover.freshWorld))
              (snd (Failover.AdminFailoverRollback demoNames demoEnv
                      demoClient Failover.freshWorld)))
    as [H _].
  - reflexivity.
  - exists "running"%string. split; reflexivity.
  - reflexivity.
  - destruct (H eq_refl) as (rest & C & _). exists rest. exact C.
Defined.

Lemma shard_distribution_pages_of_ten_witness :
  exists full last,
    fst (AdminCommands.AdminDescribeShardDistribution 0 0 demoDescribe
           {| AdminCommands.shown := [];
              AdminCommands.answers := repeat true 12;
              AdminCommands.renderFaults := [] |})
    = None
    /\ (List.concat full ++ last = AdminCommands.rowsOf demoShards)%list
    /\ Forall (fun tb => List.length tb = 10) full
    /\ 1 <= List.length last <= 10.
Proof.
  destruct (shard_distribution_pages_of_ten 0 0 demoDescribe demoDistribution
              [] 12) as [_ H].
  - reflexivity.
  - cbn. lia.
  - destruct H as (full & last & R & C & F & L); [discriminate|].
    exists full, last. rewrite R. auto.
Defined.

Lemma shard_distribution_declined_witness :
  exists full,
    fst (AdminCommands.AdminDescribeShardDistribution 0 0 demoDescribe
           {| AdminCommands.shown := [];
              AdminCommands.answers := [false];
              AdminCommands.renderFaults := [] |})
    = None
    /\ List.concat full = firstn 10 (AdminCommands.rowsOf demoShards)
    /\ List.length full = 1.
Proof.
  destruct (shard_distribution_declined 0 0 demoDescribe demoDistribution
              [] 0 []) as (full & R & C & _ & L).
  - reflexivity.
  - cbn. lia.
  - exists full. cbn [repeat app] in R. rewrite R. auto.
Defined.

Lemma demo_readable :
  AdminCommands.readable demoDecoders demoBackend demoMutableState demoInfo 7.
Proof.
  eexists. split; [reflexivity|]. split; [reflexivity|].
  split; [reflexivity|]. split; [reflexivity|].
  repeat constructor; eexists; reflexivity.
Defined.


Lemma delete_workflow_stops_at_first_failure_witness :
  exists made post,
    AdminCommands.calls
      (snd (AdminCommands.AdminDeleteWorkflow "dom" "wf" "run" false false
              demoDecoders demoBackend freshDeletion))
    = AdminCommands.DescribeWorkflowExecution "dom" "wf" "run" :: made
    /\ AdminCommands.allCalls "dom" "wf" "run" 7 demoMutableState demoInfo
       = AdminCommands.DescribeWorkflowExecution "dom" "wf" "run"
         :: made ++ post.
Proof.
  destruct (delete_workflow_stops_at_first_failure "dom"%string "wf"%string
              "run"%string demoDecoders demoBackend demoMutableState demoInfo
              7 freshDeletion
              (fst (AdminCommands.AdminDeleteWorkflow "dom" "wf" "run" false
                      false demoDecoders demoBackend freshDeletion))
              (snd (AdminCommands.AdminDeleteWorkflow "dom" "wf" "run" false
                      false demoDecoders demoBackend freshDeletion))
              demo_readable)
    as (made & post & C & A & _).
  - reflexivity.
  - exists made, post. split; [exact C|exact A].
Defined.

Lemma scan_reads_every_well_formed_value_witness :
  readInput 4
    (NewDecoder [ChunkValue reqA; ChunkMismatch "number into string";
                 ChunkValue reqB] true) []
  = Some [reqA; reqB].
Proof.
  destruct (scan_reads_every_well_formed_value string demoShardOf demoPolicy
              demoMarshal demoContext 1 "no invariants"%string
              (demoInvariant "history" Healthy) [] demoFetcher
              [ChunkValue reqA; ChunkMismatch "number into string";
               ChunkValue reqB] true 4 emptyConsole) as [R _].
  - reflexivity.
  - cbn. lia.
  - exact R.
Defined.

Lemma checked_executions_reported_in_order_witness :
  scanExecutions demoShardOf demoPolicy demoMarshal demoContext 1
    [demoInvariant "history" Healthy] demoFetcher [reqB; reqB] emptyConsole
  = (None, {| stdout := ["B"%string; "B"%string]; stderr := [] |}).
Proof.
  apply (checked_executions_reported_in_order string demoShardOf demoPolicy
           demoMarshal demoContext 1 [demoInvariant "history" Healthy]
           demoFetcher [reqB; reqB] [inr "B"%string; inr "B"%string]
           emptyConsole).
  repeat constructor; eexists; eexists; split; reflexivity.
Defined.

Lemma file_error_stops_shard_scan_witness :
  listExecutionsByShardID 10 demoRangeContext 1
    {| ops := []; faults := [Some diskFull] |}
  = Some (Some (PrintableError "Failed to write data to file"
                  (Some diskFull)),
          {| ops := []; faults := [] |})
  /\ listExecutionsByShardID 10 demoRangeContext 1
       {| ops := []; faults := [None; Some diskFull] |}
     = Some (Some (PrintableError "Failed to sync data to file"
                     (Some diskFull)),
             {| ops := [OpWriteString
                          (remediationLine
                             {| DomainID := "d1"; WorkflowID := "wf1";
                                RunID := "run1"; CloseStatus := 0 |})];
                faults := [] |}).
Proof.
  apply (file_error_stops_shard_scan demoRangeContext 1
           (okPages (demoPagesOf 1)) [bareExecution] openExecution
           [closedExecution]
           {| DomainID := "d1"; WorkflowID := "wf1"; RunID := "run1";
              CloseStatus := 0 |}
           [] [] diskFull 10).
  - reflexivity.
  - reflexivity.
  - reflexivity.
  - vm_compute. lia.
Defined.

Lemma store_open_failure_stops_range_scan_witness :
  AdminDBScanUnsupportedWorkflow 20 demoClosedContext (inr freshFile) 1 3
  = Some (Some (PrintableError "Error initializinf execution store "
                  (Some noSuchShard)),
          Some {| outputFile :=
                    {| ops := [OpWriteString
                                 (remediationLine
                                    {| DomainID := "d1"; WorkflowID := "wf1";
                                       RunID := "run1"; CloseStatus := 0 |});
                               OpSync; OpClose];
                       faults := [] |};
                  printed := [completedMessage 1] |}).
Proof.
  apply (store_open_failure_stops_range_scan demoClosedContext
           (fun s => okPages (demoPagesOf s)) 1 3 2 noSuchShard [] 20).
  - reflexivity.
  - lia.
  - intros s' Hs. assert (E : s' = 1%Z) by lia. subst s'.
    split; reflexivity.
  - reflexivity.
  - vm_compute. lia.
Defined.

Lemma largest_upper_bound_never_completes_witness :
  AdminDBScanUnsupportedWorkflow 1 demoClosedContext (inr freshFile) 2 int_max
  = Some (Some (PrintableError "Error initializinf execution store "
                  (Some noSuchShard)),
          Some {| outputFile := {| ops := [OpClose]; faults := [] |};
                  printed := [] |})
  /\ Some (PrintableError "Error initializinf execution store "
             (Some noSuchShard)) <> None.
Proof.
  split; [reflexivity|].
  apply (largest_upper_bound_never_completes 1 demoClosedContext freshFile 2
           (Some (PrintableError "Error initializinf execution store "
                    (Some noSuchShard)))
           (Some {| outputFile := {| ops := [OpClose]; faults := [] |};
                    printed := [] |})).
  - unfold int_min, int_max. lia.
  - reflexivity.
Defined.

(** ** The shard distribution: a renderer that fails *)

(** With a renderer about to fail, the loop collects rows until the first
    page is full and fails on rendering it; with ten rows or fewer in all
    it renders nothing. *)
Lemma renderPages_first_render_fails (entries : list (Z * string)) :
  forall table t err rest,
    List.length table <= 10 ->
    AdminCommands.renderFaults t = Some err :: rest ->
    AdminCommands.renderPages entries table
      (10 - Z.of_nat (List.length table)) t
    = if 10 <? List.length table + List.length entries
      then (inl (AdminCommands.Errorf "error rendering: %w" err),
            {| AdminCommands.shown := AdminCommands.shown t;
               AdminCommands.answers := AdminCommands.answers t;
               AdminCommands.renderFaults := rest |})
      else (inr (table ++ AdminCommands.rowsOf entries)%list, t).
Proof.
  induction entries as [|[shardID identity] entries IH];
    intros table t err rest LT RF.
  - cbn [AdminCommands.renderPages List.length AdminCommands.rowsOf map].
    rewrite Nat.add_0_r, app_nil_r.
    destruct (Nat.ltb_spec 10 (List.length table)); [lia|reflexivity].
  - cbn [AdminCommands.renderPages List.length].
    destruct (Z.eqb_spec (10 - Z.of_nat (List.length table)) 0) as [E|NE].
    + unfold AdminCommands.Render. rewrite RF.
      destruct (Nat.ltb_spec 10 (List.length table + S (List.length entries)));
        [reflexivity|lia].
    + replace (10 - Z.of_nat (List.length table) - 1)%Z
        with (10 - Z.of_nat
                     (List.length
                        (table
                         ++ [{| AdminCommands.ShardID := shardID;
                                AdminCommands.Identity := identity |}])))%Z
        by (rewrite length_app; cbn [List.length]; lia).
      rewrite (IH _ t err rest)
        by (try exact RF; rewrite length_app; cbn [List.length]; lia).
      rewrite length_app. cbn [List.length].
      replace (List.length table + 1 + List.length entries)
        with (List.length table + S (List.length entries)) by lia.
      cbn [AdminCommands.rowsOf map fst snd]. now rewrite <- app_assoc.
Qed.

(** X18: when shards are returned and the first rendering fails, the
    command has shown the two summary lines only and never prompts.  With
    more than ten shards the failure comes from inside the loop and is
    returned wrapped as "error rendering: %w"; with ten shards or fewer it
    comes from the rendering after the loop and is returned as it is. *)
Theorem shard_distribution_first_render_fails :
  forall ps pid describe resp sh ans err rest,
    describe {| AdminCommands.PageSize := AdminCommands.toInt32 ps;
                AdminCommands.PageID := AdminCommands.toInt32 pid |}
    = inr resp ->
    AdminCommands.Shards resp <> [] ->
    AdminCommands.AdminDescribeShardDistribution ps pid describe
      {| AdminCommands.shown := sh;
         AdminCommands.answers := ans;
         AdminCommands.renderFaults := Some err :: rest |}
    = (Some (if 10 <? List.length (AdminCommands.Shards resp)
             then AdminCommands.Errorf "error rendering: %w" err
             else err),
       {| AdminCommands.shown := sh ++ AdminCommands.summary resp;
          AdminCommands.answers := ans;
          AdminCommands.renderFaults := rest |}).
Proof.
  intros ps pid describe resp sh ans err rest D NE.
  unfold AdminCommands.AdminDescribeShardDistribution. rewrite D.
  destruct (Nat.eqb_spec (List.length (AdminCommands.Shards resp)) 0) as [HZ|_];
    [destruct (AdminCommands.Shards resp); [contradiction|discriminate]|].
  change AdminCommands.tableRenderSize
    with (10 - Z.of_nat (@List.length AdminCommands.ShardRow []))%Z.
  rewrite (renderPages_first_render_fails _ _ _ err rest)
    by (cbn; try reflexivity; lia).
  cbn [List.length Nat.add].
  destruct (10 <? List.length (AdminCommands.Shards resp)).
  - unfold AdminCommands.Printf, AdminCommands.summary.
    cbn [AdminCommands.shown AdminCommands.answers].
    now rewrite <- app_assoc.
  - unfold AdminCommands.Render, AdminCommands.Printf, AdminCommands.summary.
    cbn [AdminCommands.shown AdminCommands.answers
         AdminCommands.renderFaults].
    now rewrite <- app_assoc.
Qed.

Lemma shard_distribution_first_render_fails_witness :
  AdminCommands.AdminDescribeShardDistribution 0 0 demoDescribe
    {| AdminCommands.shown := [];
       AdminCommands.answers := [true];
       AdminCommands.renderFaults := [Some brokenPipe] |}
  = (Some (AdminCommands.Errorf "error rendering: %w" brokenPipe),
     {| AdminCommands.shown := AdminCommands.summary demoDistribution;
        AdminCommands.answers := [true];
        AdminCommands.renderFaults := [] |}).
Proof.
  apply (shard_distribution_first_render_fails 0 0 demoDescribe
           demoDistribution [] [true] brokenPipe []).
  - reflexivity.
  - discriminate.
Defined.
